(** * Healthcare plan warehouse: the change-triggered coordinator, the
      MongoDB -> PostgreSQL load pipeline and the data-quality validator

    Three programs of the repository are embedded here.

    - [Watcher]: the change-data-capture watcher (the script started as
      [node cdc_etl_watcher.js]).  Its two module-level variables
      [etlRunning] and [etlQueue], the function [runETL], the ['close'] and
      ['error'] handlers of the spawned child and [setupChangeStream] are
      modelled as a step function over the events the Node event loop
      delivers.  [Lifecycle] adds the reconnection after an error of the
      change stream, the signal handlers and the exit of the process.

    - [ETL]: [etl_runner.js].  Documents are plain JavaScript values (the
      pipeline reads them with [.lean()]), the warehouse is the set of tables
      of the star schema, and every [async] function is a computation in a
      small state-and-exception monad.  [Warehouse] adds the reference data
      that the schema script inserts.

    - [Validator]: the class [DataQualityValidator], with its ten rules,
      [validatePlan], [validateBatch], [getStatistics] and [clearResults].

    [Calendar] has the time values of ECMAScript and the local getters and
    setters of [Date] that [getOrCreateDateKey] and [getWeekNumber] call.

    What the embedding takes for granted:
    - one process talks to the warehouse at a time, so a statement sees what
      the statements before it wrote;
    - on an open connection a statement fails only for what it carries: a
      value that the column type rejects, a [UNIQUE], [PRIMARY KEY] or
      [REFERENCES] constraint; [BEGIN], [COMMIT] and [ROLLBACK] do not fail;
    - a number is a double; the integers among them are computed with as
      integers, which is exact up to 2^53; strings are ASCII;
    - a document is a tree: no object of it is reached twice;
    - the time zone of the process is its offset from UTC at each time,
      [Calendar.Zone]; the statements on the local calendar are for a zone
      whose offset does not change;
    - the behaviour of the JavaScript runtime, of the [pg] driver and of
      PostgreSQL on values the pipeline does not expect (a date that is not in
      ISO form, an object sent as a parameter, a text read as a number, the
      text of a number that is not an integer) is a parameter, [ETL.Runtime]
      and [Validator.Numbers]: the statements hold for every runtime.  *)

From Stdlib Require Import ZArith List String Ascii Bool Lia DecimalString.
From Stdlib Require Import SpecFloat.
Import ListNotations.
Local Open Scope string_scope.
Local Open Scope Z_scope.
Local Open Scope list_scope.

(* ===================================================================== *)
(** * The change-data-capture watcher                                     *)
(* ===================================================================== *)

Module Watcher.

(** The state of the watcher process.  [etlRunning] and [etlQueue] are the
    two variables of the script.  The other three fields are bookkeeping of
    what the script asked Node to do: [children] counts the ETL child
    processes that were spawned and whose ['close'] has not been delivered
    yet, [spawned] counts every call of [spawn], and [timers] holds the
    delay of every pending [setTimeout(runETL, _)].  [watching] records
    that the ['change'] listener is registered. *)
Record state : Type := mkState {
  etlRunning : bool;
  etlQueue   : list Z;
  children   : nat;
  spawned    : nat;
  timers     : list Z;
  watching   : bool
}.

(** A freshly started process: [let etlRunning = false; let etlQueue = [];]
    and nothing registered. *)
Definition init_state : state :=
  mkState false [] 0 0 [] false.

(** [function runETL()].  [now] is the value [Date.now()] would return. *)
Definition runETL (now : Z) (s : state) : state :=
  if etlRunning s then
    (* etlQueue.push(Date.now()); return; *)
    mkState true (etlQueue s ++ [now]) (children s) (spawned s) (timers s)
            (watching s)
  else
    (* etlRunning = true; spawn('node', [etlScript], ...) *)
    mkState true (etlQueue s) (S (children s)) (S (spawned s)) (timers s)
            (watching s).

(** [etlProcess.on('close', (code) => ...)].  The exit code only selects
    the message that is printed. *)
Definition on_close (code : Z) (s : state) : state :=
  let queue := etlQueue s in
  match queue with
  | [] =>
      mkState false [] (pred (children s)) (spawned s) (timers s) (watching s)
  | _ :: _ =>
      (* etlQueue = []; setTimeout(runETL, 2000); *)
      mkState false [] (pred (children s)) (spawned s) (timers s ++ [2000])
              (watching s)
  end.

(** [etlProcess.on('error', (error) => ...)]. *)
Definition on_error (s : state) : state :=
  mkState false (etlQueue s) (children s) (spawned s) (timers s) (watching s).

(** [setupChangeStream()] on a fresh process.  [opened] tells whether the
    MongoDB connection emitted ['open'] (otherwise the promise rejects and
    the [catch] branch calls [process.exit(1)], here [None]).  The listeners
    are registered and the initial run is started in the same turn of the
    event loop. *)
Definition setupChangeStream (opened : bool) (now : Z) (s : state)
  : option state :=
  if opened then
    let s1 := mkState (etlRunning s) (etlQueue s) (children s) (spawned s)
                      (timers s) true in
    Some (runETL now s1)
  else None.

(** What the event loop can deliver to the watcher.
    - [Change now]: a change notification; its handler logs and calls
      [runETL()].
    - [Close code]: the running child ended with exit status [code].
    - [SpawnError code]: the child could not be spawned.  Node then emits
      ['error'] and, right after it, ['close'] with the (negative) error
      code, so both handlers run back to back.
    - [Timer now]: the oldest pending [setTimeout(runETL, 2000)] fires. *)
Inductive event : Type :=
| Change (now : Z)
| Close (code : Z)
| SpawnError (code : Z)
| Timer (now : Z).

(** One event.  [None] means that the event cannot occur in this state: no
    notification before the listener is registered, no ['close'] without a
    child, no timer callback without a pending timer. *)
Definition step (s : state) (e : event) : option state :=
  match e with
  | Change now =>
      if watching s then Some (runETL now s) else None
  | Close code =>
      match children s with
      | O => None
      | S _ => Some (on_close code s)
      end
  | SpawnError code =>
      match children s with
      | O => None
      | S _ => Some (on_close code (on_error s))
      end
  | Timer now =>
      match timers s with
      | [] => None
      | d :: rest =>
          Some (runETL now
                  (mkState (etlRunning s) (etlQueue s) (children s)
                           (spawned s) rest (watching s)))
      end
  end.

Fixpoint run (s : state) (evs : list event) : option state :=
  match evs with
  | [] => Some s
  | e :: evs' =>
      match step s e with
      | Some s' => run s' evs'
      | None => None
      end
  end.

(** The coordinator's invariant: the flag [etlRunning] is up exactly while
    one child is alive, there is never a second child, notifications are
    only held while a run is in progress, and every pending timer has the
    fixed delay. *)
Definition Inv (s : state) : Prop :=
  watching s = true /\
  (etlRunning s = true -> children s = 1%nat) /\
  (etlRunning s = false -> children s = 0%nat /\ etlQueue s = []) /\
  Forall (fun d => d = 2000) (timers s).

End Watcher.

(* ===================================================================== *)
(** * The load pipeline: JavaScript values                                *)
(* ===================================================================== *)

Module ETL.

(** A JavaScript [Date], by the UTC fields that [toISOString] prints. *)
Record Date : Type := mkDate {
  year : Z; month : Z; day : Z;
  hours : Z; minutes : Z; seconds : Z; millis : Z
}.

(** A double, in the form IEEE 754 gives it: a sign, a mantissa and an
    exponent of 2, an infinity, a zero or [NaN]. *)
Definition double : Type := spec_float.

(** The double nearest to an integer, and the sum of two doubles. *)
Definition double_of_Z (n : Z) : double := binary_normalize 53 1024 n 0 false.

Definition double_add (x y : double) : double := SFadd 53 1024 x y.

(** The values a document read with [.lean()] is made of.  A number that is
    an integer is [VNum n]; [VFloat x] stands for the other doubles, [x]
    being a number of binary64, and [VNaN] for [NaN].  Strings are byte
    strings, and the string functions below treat them as ASCII. *)
#[local] Unset Elimination Schemes.
Inductive value : Type :=
| VUndefined
| VNull
| VBool (b : bool)
| VNum (n : Z)
| VNaN
| VStr (s : string)
| VObjectId (hex : string)
| VDate (d : Date)
| VArr (items : list value)
| VObj (fields : list (string * value))
| VFloat (x : double).
#[local] Set Elimination Schemes.

(** The value that stands for a double: [VNum] when it is an integer. *)
Definition number_of_double (x : double) : value :=
  match x with
  | S754_nan => VNaN
  | S754_zero _ => VNum 0
  | S754_infinity _ => VFloat x
  | S754_finite s m e =>
      if 0 <=? e then VNum (cond_Zopp s (Z.pos m * 2 ^ e))
      else if Z.pos m mod 2 ^ (- e) =? 0
           then VNum (cond_Zopp s (Z.pos m / 2 ^ (- e)))
           else VFloat x
  end.

Inductive exn : Type :=
| TypeError (msg : string)
| RangeError (msg : string)
| DatabaseError (msg : string)
| ConnectionError (msg : string).

Inductive outcome (A : Type) : Type :=
| Ret (a : A)
| Throw (e : exn).
Arguments Ret {A} a.
Arguments Throw {A} e.

(** What the repository does not contain: the parts of the JavaScript
    runtime, of the [pg] driver and of PostgreSQL whose result depends on
    the locale, the time zone or the server, and the digits that the
    engine prints for a double.  Every statement below holds for every
    such runtime. *)
Class Runtime : Type := {
  (** [new Date(v)] for a [v] that is not a [Date]; [None] is
      [Invalid Date]. *)
  Date_ctor : value -> option Date;
  (** [v.toString()] for a [Date], an array or an object. *)
  object_toString : value -> string;
  (** [x.toString()] for a double that is not an integer. *)
  Number_toString : double -> string;
  (** the text the driver sends for a parameter that is not a string. *)
  driver_text : value -> string;
  (** PostgreSQL reading a text for a [NUMERIC(10, 2)] column: the number
      of hundredths it rounds the text to; [None] is a rejected input. *)
  numeric_text : string -> option Z;
  (** PostgreSQL accepting the parameter for a [DATE] column. *)
  pg_date_ok : value -> bool
}.

(** ToBoolean. *)
Definition truthy (v : value) : bool :=
  match v with
  | VUndefined | VNull | VNaN => false
  | VBool b => b
  | VNum n => negb (n =? 0)
  | VStr s => negb (String.eqb s "")
  | VObjectId _ | VDate _ | VArr _ | VObj _ => true
  | VFloat x =>
      match x with
      | S754_zero _ | S754_nan => false
      | _ => true
      end
  end.

(** [a || b]. *)
Definition or_else (a b : value) : value :=
  if truthy a then a else b.

Fixpoint lookup (k : string) (fs : list (string * value)) : value :=
  match fs with
  | [] => VUndefined
  | (k', v) :: fs' => if String.eqb k k' then v else lookup k fs'
  end.

(** [o.k]: a [TypeError] on [undefined] and [null]; the properties read by
    the pipeline do not exist on strings, numbers, dates and arrays. *)
Definition prop (o : value) (k : string) : outcome value :=
  match o with
  | VUndefined | VNull =>
      Throw (TypeError ("Cannot read properties of undefined or null: " ++ k)%string)
  | VObj fs => Ret (lookup k fs)
  | _ => Ret VUndefined
  end.

(** [o?.k]. *)
Definition opt_prop (o : value) (k : string) : value :=
  match o with
  | VObj fs => lookup k fs
  | _ => VUndefined
  end.

Definition isArray (v : value) : bool :=
  match v with VArr _ => true | _ => false end.

Definition string_of_Z (n : Z) : string :=
  DecimalString.NilZero.string_of_int (Z.to_int n).

(** [v.toString()] for a [v] that is neither [undefined] nor [null]. *)
Definition js_toString `{Runtime} (v : value) : string :=
  match v with
  | VStr s => s
  | VNum n => string_of_Z n
  | VNaN => "NaN"
  | VBool true => "true"
  | VBool false => "false"
  | VObjectId hex => hex
  | VUndefined => "undefined"
  | VNull => "null"
  | VDate _ | VArr _ | VObj _ => object_toString v
  | VFloat x => Number_toString x
  end.

(** ToPrimitive, then the [+] operator: concatenation as soon as one side
    is a string, a sum of numbers otherwise. *)
Definition to_primitive `{Runtime} (v : value) : value :=
  match v with
  | VObjectId _ | VDate _ | VArr _ | VObj _ => VStr (js_toString v)
  | _ => v
  end.

(** ToNumber on a primitive that is neither a string nor a double that
    is not an integer; [None] is [NaN]. *)
Definition to_number (v : value) : option Z :=
  match v with
  | VNum n => Some n
  | VBool true => Some 1
  | VBool false => Some 0
  | VNull => Some 0
  | _ => None
  end.

(** ToNumber on a primitive that is not a string, as a double. *)
Definition to_double (v : value) : double :=
  match v with
  | VFloat x => x
  | _ =>
      match to_number v with
      | Some n => double_of_Z n
      | None => S754_nan
      end
  end.

Definition js_add `{Runtime} (a b : value) : value :=
  let pa := to_primitive a in
  let pb := to_primitive b in
  match pa, pb with
  | VStr x, _ => VStr (x ++ js_toString pb)%string
  | _, VStr y => VStr (js_toString pa ++ y)%string
  | VFloat _, _ | _, VFloat _ =>
      number_of_double (double_add (to_double pa) (to_double pb))
  | _, _ =>
      match to_number pa, to_number pb with
      | Some x, Some y => VNum (x + y)
      | _, _ => VNaN
      end
  end.

(** *** Strings *)

Definition lower_ascii (c : ascii) : ascii :=
  let n := nat_of_ascii c in
  if (Nat.leb 65 n && Nat.leb n 90)%bool then ascii_of_nat (n + 32) else c.

Fixpoint toLowerCase (s : string) : string :=
  match s with
  | EmptyString => EmptyString
  | String c s' => String (lower_ascii c) (toLowerCase s')
  end.

(** The class [\s], within ASCII: tab, line feed, vertical tab, form feed,
    carriage return and space. *)
Definition is_space (c : ascii) : bool :=
  let n := nat_of_ascii c in
  (Nat.leb 9 n && Nat.leb n 13 || Nat.eqb n 32)%bool.

(** [s.replace(/\s+/g, '_')]: [in_run] tells that the previous character
    belonged to the run of spaces being replaced. *)
Fixpoint replace_spaces (in_run : bool) (s : string) : string :=
  match s with
  | EmptyString => EmptyString
  | String c s' =>
      if is_space c then
        if in_run then replace_spaces true s'
        else String "_" (replace_spaces true s')
      else String c (replace_spaces false s')
  end.

(** [s.toLowerCase().replace(/\s+/g, '_')] on any value: only a string has
    the method. *)
Definition normalize_code (v : value) : outcome string :=
  match v with
  | VStr s => Ret (replace_spaces false (toLowerCase s))
  | _ => Throw (TypeError "toLowerCase is not a function")
  end.

(** *** Dates *)

Definition digit (n : Z) : ascii :=
  ascii_of_nat (48 + Z.to_nat (n mod 10)).

Definition pad2 (n : Z) (rest : string) : string :=
  String (digit (n / 10)) (String (digit n) rest).

Definition pad3 (n : Z) (rest : string) : string :=
  String (digit (n / 100)) (pad2 n rest).

Definition pad4 (n : Z) (rest : string) : string :=
  String (digit (n / 1000)) (pad3 n rest).

Definition pad6 (n : Z) (rest : string) : string :=
  String (digit (n / 100000)) (String (digit (n / 10000)) (pad4 n rest)).

(** [date.toISOString()]: [YYYY-MM-DDTHH:mm:ss.sssZ], with the signed
    six-digit year outside 0..9999. *)
Definition toISOString (d : Date) : string :=
  let tail :=
    String "-" (pad2 (month d) (String "-" (pad2 (day d) (String "T"
      (pad2 (hours d) (String ":" (pad2 (minutes d) (String ":"
        (pad2 (seconds d) (String "." (pad3 (millis d) "Z"))))))))))) in
  if (0 <=? year d) && (year d <=? 9999) then pad4 (year d) tail
  else if year d <? 0 then String "-" (pad6 (- year d) tail)
  else String "+" (pad6 (year d) tail).

(** [s.split('T')[0]]. *)
Fixpoint before_T (s : string) : string :=
  match s with
  | EmptyString => EmptyString
  | String c s' => if Ascii.eqb c "T" then EmptyString else String c (before_T s')
  end.

(** [s.replace(/[-:]/g, '')]. *)
Fixpoint strip_separators (s : string) : string :=
  match s with
  | EmptyString => EmptyString
  | String c s' =>
      if (Ascii.eqb c "-" || Ascii.eqb c ":")%bool then strip_separators s'
      else String c (strip_separators s')
  end.

Definition digit_value (c : ascii) : option Z :=
  let n := nat_of_ascii c in
  if (Nat.leb 48 n && Nat.leb n 57)%bool then Some (Z.of_nat (n - 48)) else None.

(** The digits at the head of [s], read in base ten after [acc]; [seen]
    tells that one digit was read already. *)
Fixpoint parse_digits (seen : bool) (acc : Z) (s : string) : option Z :=
  match s with
  | EmptyString => if seen then Some acc else None
  | String c s' =>
      match digit_value c with
      | Some v => parse_digits true (10 * acc + v) s'
      | None => if seen then Some acc else None
      end
  end.

(** [parseInt(s)] on a text without leading blanks or [0x]: an optional
    sign, then digits up to the first other character; [None] is [NaN]. *)
Definition parseInt (s : string) : option Z :=
  match s with
  | String "-" s' => option_map Z.opp (parse_digits false 0 s')
  | String "+" s' => parse_digits false 0 s'
  | _ => parse_digits false 0 s
  end.

(** [dateValue instanceof Date ? dateValue : new Date(dateValue)]. *)
Definition to_Date `{Runtime} (dateValue : value) : option Date :=
  match dateValue with
  | VDate d => Some d
  | _ => Date_ctor dateValue
  end.

(** [new Date(t)] as a time value in milliseconds, for [t] a number or
    [null]: [new Date(null)] is the epoch. *)
Definition new_Date_ms (t : option Z) : Z :=
  match t with
  | Some ms => ms
  | None => 0
  end.

(* ===================================================================== *)
(** * The load pipeline: the warehouse                                    *)
(* ===================================================================== *)

(** The rows of the star schema, with the columns the pipeline writes
    (columns filled by a [DEFAULT] other than a surrogate key are left
    out).  A [dim_date] row keeps its key and its date: the nine descriptive
    columns are computed from the date by calls that neither fail nor
    influence any key.  A column that several tables share carries the
    table's initials in all but the dimension that owns it.  An amount, a
    [NUMERIC(10, 2)] column, is its number of hundredths. *)
Record org_row : Type := mkOrg {
  org_key : Z; org_id : string; org_name : string
}.

Record plan_type_row : Type := mkPlanType {
  plan_type_key : Z; plan_type_code : string; plan_type_name : string
}.

Record service_row : Type := mkService {
  service_key : Z; service_id : string; service_name : string;
  service_category : string
}.

Record date_row : Type := mkDateRow {
  date_key : Z; date_value : string
}.

Record plan_row : Type := mkPlan {
  plan_key : Z; plan_id : string; dp_plan_type_key : Z; dp_org_key : Z;
  is_current : bool; effective_date : value; expiration_date : value
}.

Record plan_cost_row : Type := mkPlanCost {
  pc_plan_key : Z; pc_plan_type_key : Z; pc_org_key : Z;
  pc_creation_date_key : Z;
  pc_deductible : Z; pc_copay : Z; total_cost_shares : Z
}.

Record service_cost_row : Type := mkServiceCost {
  sc_service_key : Z; sc_plan_key : Z; sc_org_key : Z; sc_date_key : Z;
  sc_deductible : Z; sc_copay : Z; total_service_cost : Z
}.

Record audit_row : Type := mkAudit {
  job_name : string; job_type : string;
  start_time : Z; end_time : Z;          (* milliseconds since the epoch *)
  status : string;
  records_processed : Z; records_inserted : Z; records_updated : Z;
  records_failed : Z;
  error_message : option string
}.

Record Tables : Type := mkTables {
  dim_organization : list org_row;
  dim_plan_type : list plan_type_row;
  dim_service : list service_row;
  dim_date : list date_row;
  dim_plan : list plan_row;
  fact_plan_costs : list plan_cost_row;
  fact_service_costs : list service_cost_row;
  etl_audit_log : list audit_row
}.

(** The last value of the sequence behind each [SERIAL] key.  A sequence is
    not transactional: [ROLLBACK] does not give its values back. *)
Record Sequences : Type := mkSequences {
  org_key_seq : Z; plan_type_key_seq : Z; service_key_seq : Z;
  plan_key_seq : Z
}.

(** The module-level object [stats]. *)
Record Stats : Type := mkStats {
  plansExtracted : Z; plansLoaded : Z; servicesLoaded : Z; errors : Z;
  startTime : option Z; endTime : option Z
}.

Definition initial_stats : Stats := mkStats 0 0 0 0 None None.

(** What the process holds of the two stores. *)
Record Connections : Type := mkConnections {
  mongo_open : bool;       (* mongoose.connect succeeded, not closed yet *)
  client_held : bool;      (* a pool client is checked out *)
  pool_ended : bool        (* pgPool.end() was called *)
}.

Record World : Type := mkWorld {
  tables : Tables;
  snapshot : option Tables;   (* the tables at [BEGIN], inside a transaction *)
  sequences : Sequences;
  stats : Stats;
  connections : Connections
}.

(** A process that has just loaded the script, in front of a warehouse. *)
Definition fresh_process (t : Tables) (q : Sequences) : World :=
  mkWorld t None q initial_stats (mkConnections false false false).

Definition with_tables (t : Tables) (w : World) : World :=
  mkWorld t (snapshot w) (sequences w) (stats w) (connections w).
Definition with_snapshot (o : option Tables) (w : World) : World :=
  mkWorld (tables w) o (sequences w) (stats w) (connections w).
Definition with_sequences (q : Sequences) (w : World) : World :=
  mkWorld (tables w) (snapshot w) q (stats w) (connections w).
Definition with_stats (st : Stats) (w : World) : World :=
  mkWorld (tables w) (snapshot w) (sequences w) st (connections w).
Definition with_connections (c : Connections) (w : World) : World :=
  mkWorld (tables w) (snapshot w) (sequences w) (stats w) c.

Definition set_dim_organization (rows : list org_row) (t : Tables) : Tables :=
  mkTables rows (dim_plan_type t) (dim_service t) (dim_date t) (dim_plan t)
           (fact_plan_costs t) (fact_service_costs t) (etl_audit_log t).
Definition set_dim_plan_type (rows : list plan_type_row) (t : Tables) : Tables :=
  mkTables (dim_organization t) rows (dim_service t) (dim_date t) (dim_plan t)
           (fact_plan_costs t) (fact_service_costs t) (etl_audit_log t).
Definition set_dim_service (rows : list service_row) (t : Tables) : Tables :=
  mkTables (dim_organization t) (dim_plan_type t) rows (dim_date t) (dim_plan t)
           (fact_plan_costs t) (fact_service_costs t) (etl_audit_log t).
Definition set_dim_date (rows : list date_row) (t : Tables) : Tables :=
  mkTables (dim_organization t) (dim_plan_type t) (dim_service t) rows (dim_plan t)
           (fact_plan_costs t) (fact_service_costs t) (etl_audit_log t).
Definition set_dim_plan (rows : list plan_row) (t : Tables) : Tables :=
  mkTables (dim_organization t) (dim_plan_type t) (dim_service t) (dim_date t) rows
           (fact_plan_costs t) (fact_service_costs t) (etl_audit_log t).
Definition set_fact_plan_costs (rows : list plan_cost_row) (t : Tables) : Tables :=
  mkTables (dim_organization t) (dim_plan_type t) (dim_service t) (dim_date t)
           (dim_plan t) rows (fact_service_costs t) (etl_audit_log t).
Definition set_fact_service_costs (rows : list service_cost_row) (t : Tables)
  : Tables :=
  mkTables (dim_organization t) (dim_plan_type t) (dim_service t) (dim_date t)
           (dim_plan t) (fact_plan_costs t) rows (etl_audit_log t).
Definition set_etl_audit_log (rows : list audit_row) (t : Tables) : Tables :=
  mkTables (dim_organization t) (dim_plan_type t) (dim_service t) (dim_date t)
           (dim_plan t) (fact_plan_costs t) (fact_service_costs t) rows.

(** ** Computations: the state of the process and of the warehouse, and
    exceptions.  A thrown exception keeps the state reached so far. *)
Definition M (A : Type) : Type := World -> outcome A * World.

Definition ret {A} (a : A) : M A := fun w => (Ret a, w).
Definition throw {A} (e : exn) : M A := fun w => (Throw e, w).
Definition bind {A B} (m : M A) (k : A -> M B) : M B :=
  fun w =>
    match m w with
    | (Ret a, w') => k a w'
    | (Throw e, w') => (Throw e, w')
    end.
Definition lift {A} (o : outcome A) : M A := fun w => (o, w).
Definition gets {A} (f : World -> A) : M A := fun w => (Ret (f w), w).
Definition modify (f : World -> World) : M unit := fun w => (Ret tt, f w).

(** [try { body } catch (e) { handler e }]. *)
Definition try_catch {A} (body : M A) (handler : exn -> M A) : M A :=
  fun w =>
    match body w with
    | (Ret a, w') => (Ret a, w')
    | (Throw e, w') => handler e w'
    end.

Declare Scope etl_scope.
Delimit Scope etl_scope with etl.
Notation "x <- c1 ;; c2" := (bind c1 (fun x => c2))
  (at level 100, c1 at next level, right associativity) : etl_scope.
Notation "c1 ;; c2" := (bind c1 (fun _ => c2))
  (at level 100, right associativity) : etl_scope.
Local Open Scope etl_scope.

(** ** Parameters as PostgreSQL reads them *)

Definition pg_text `{Runtime} (v : value) : string :=
  match v with
  | VStr s => s
  | _ => driver_text v
  end.

(** A text stored in a [VARCHAR(n)] column. *)
Definition varchar (n : nat) (s : string) : outcome string :=
  if Nat.leb (String.length s) n then Ret s
  else Throw (DatabaseError "value too long for type character varying").

(** An amount of whole units, in hundredths. *)
Definition whole (n : Z) : Z := 100 * n.

(** A parameter stored in a [NUMERIC(10, 2)] column, in hundredths: an
    integer is stored as it is, a text and the text of any other number
    are rounded to two decimals by the column; eight digits are left
    before the point.  The measures the pipeline sends are never [null]:
    each of them went through [|| 0]. *)
Definition numeric `{Runtime} (v : value) : outcome Z :=
  let read :=
    match v with
    | VNum n => Some (whole n)
    | VFloat _ => numeric_text (driver_text v)
    | VStr s => numeric_text s
    | _ => None
    end in
  match read with
  | Some h =>
      if Z.abs h <? whole 100000000 then Ret h
      else Throw (DatabaseError "numeric field overflow")
  | None => Throw (DatabaseError "invalid input syntax for type numeric")
  end.

(** A parameter compared with or stored in a [DATE] column. *)
Definition pg_date `{Runtime} (v : value) : outcome unit :=
  if pg_date_ok v then Ret tt
  else Throw (DatabaseError "invalid input syntax for type date").

(** A [REFERENCES] constraint: the key is one of the referenced keys. *)
Definition references (k : Z) (keys : list Z) : outcome unit :=
  if existsb (Z.eqb k) keys then Ret tt
  else Throw (DatabaseError "violates foreign key constraint").

(* ===================================================================== *)
(** * The load pipeline: statements and functions of [etl_runner.js]      *)
(* ===================================================================== *)

Definition update_tables (f : Tables -> Tables) : M unit :=
  modify (fun w => with_tables (f (tables w)) w).

Definition update_stats (f : Stats -> Stats) : M unit :=
  modify (fun w => with_stats (f (stats w)) w).

(** [nextval] of the four sequences. *)
Definition nextval_org_key : M Z := fun w =>
  let q := sequences w in
  let k := org_key_seq q + 1 in
  (Ret k, with_sequences
            (mkSequences k (plan_type_key_seq q) (service_key_seq q)
                         (plan_key_seq q)) w).
Definition nextval_plan_type_key : M Z := fun w =>
  let q := sequences w in
  let k := plan_type_key_seq q + 1 in
  (Ret k, with_sequences
            (mkSequences (org_key_seq q) k (service_key_seq q)
                         (plan_key_seq q)) w).
Definition nextval_service_key : M Z := fun w =>
  let q := sequences w in
  let k := service_key_seq q + 1 in
  (Ret k, with_sequences
            (mkSequences (org_key_seq q) (plan_type_key_seq q) k
                         (plan_key_seq q)) w).
Definition nextval_plan_key : M Z := fun w =>
  let q := sequences w in
  let k := plan_key_seq q + 1 in
  (Ret k, with_sequences
            (mkSequences (org_key_seq q) (plan_type_key_seq q)
                         (service_key_seq q) k) w).

(** [result.rows[0].<key>]. *)
Definition first_row (rows : list Z) : outcome Z :=
  match rows with
  | k :: _ => Ret k
  | [] => Throw (TypeError "Cannot read properties of undefined")
  end.

Definition has_org_id (id : string) (r : org_row) : bool :=
  String.eqb (org_id r) id.
Definition has_plan_type_code (code : string) (r : plan_type_row) : bool :=
  String.eqb (plan_type_code r) code.
Definition has_service_id (id : string) (r : service_row) : bool :=
  String.eqb (service_id r) id.
Definition has_date_value (d : string) (r : date_row) : bool :=
  String.eqb (date_value r) d.
Definition has_date_key (k : Z) (r : date_row) : bool :=
  Z.eqb (date_key r) k.
Definition has_plan_id (id : string) (r : plan_row) : bool :=
  String.eqb (plan_id r) id.

(** [INSERT INTO dim_organization (org_id, org_name) VALUES ($1, $2)
     ON CONFLICT (org_id) DO UPDATE SET org_name = EXCLUDED.org_name
     RETURNING org_key].  The default of [org_key] is taken from the
    sequence before the conflict is detected. *)
Definition upsert_dim_organization `{Runtime} (orgId orgName : value)
  : M (list Z) :=
  id <- lift (varchar 255 (pg_text orgId)) ;;
  name <- lift (varchar 255 (pg_text orgName)) ;;
  k <- nextval_org_key ;;
  rows <- gets (fun w => dim_organization (tables w)) ;;
  match find (has_org_id id) rows with
  | Some r =>
      update_tables
        (set_dim_organization
           (map (fun r' => if has_org_id id r'
                           then mkOrg (org_key r') (org_id r') name else r')
                rows)) ;;
      ret [org_key r]
  | None =>
      update_tables (set_dim_organization (rows ++ [mkOrg k id name])) ;;
      ret [k]
  end.

(** [SELECT plan_type_key FROM dim_plan_type WHERE plan_type_code = $1]. *)
Definition select_plan_type_key (code : string) : M (list Z) :=
  gets (fun w =>
          map plan_type_key
              (filter (has_plan_type_code code) (dim_plan_type (tables w)))).

(** [INSERT INTO dim_plan_type (plan_type_code, plan_type_name)
     VALUES ($1, $2) RETURNING plan_type_key]. *)
Definition insert_dim_plan_type `{Runtime} (code : string) (planType : value)
  : M (list Z) :=
  c <- lift (varchar 50 code) ;;
  name <- lift (varchar 255 (pg_text planType)) ;;
  k <- nextval_plan_type_key ;;
  rows <- gets (fun w => dim_plan_type (tables w)) ;;
  if existsb (has_plan_type_code c) rows
  then throw (DatabaseError "duplicate key value violates unique constraint")
  else
    update_tables (set_dim_plan_type (rows ++ [mkPlanType k c name])) ;;
    ret [k].

(** [SELECT date_key FROM dim_date WHERE date_value = $1]. *)
Definition select_date_key `{Runtime} (dateStr : string) : M (list Z) :=
  lift (pg_date (VStr dateStr)) ;;
  gets (fun w =>
          map date_key (filter (has_date_value dateStr) (dim_date (tables w)))).

(** [INSERT INTO dim_date (date_key, date_value, ...) VALUES (...)
     ON CONFLICT (date_value) DO NOTHING RETURNING date_key]; [dateKey]
    is [None] when [parseInt] gave [NaN]. *)
Definition insert_dim_date `{Runtime} (dateKey : option Z) (dateStr : string)
  : M (list Z) :=
  match dateKey with
  | None => throw (DatabaseError "invalid input syntax for type integer")
  | Some k =>
      lift (pg_date (VStr dateStr)) ;;
      rows <- gets (fun w => dim_date (tables w)) ;;
      if existsb (has_date_value dateStr) rows then ret []
      else if existsb (has_date_key k) rows
      then throw (DatabaseError "duplicate key value violates unique constraint")
      else
        update_tables (set_dim_date (rows ++ [mkDateRow k dateStr])) ;;
        ret [k]
  end.

(** [async function getOrCreateDateKey(client, dateValue)]. *)
Definition getOrCreateDateKey `{Runtime} (dateValue : value) : M Z :=
  match to_Date dateValue with
  | None => throw (RangeError "Invalid time value")
  | Some date =>
      let dateStr := before_T (toISOString date) in
      (* Check if date already exists *)
      existing <- select_date_key dateStr ;;
      match existing with
      | k :: _ => ret k
      | [] =>
          (* Generate date_key as YYYYMMDD integer *)
          let dateKey :=
            parseInt (substring 0 8 (strip_separators (toISOString date))) in
          result <- insert_dim_date dateKey dateStr ;;
          match result with
          | k :: _ => ret k
          | [] =>
              existingResult <- select_date_key dateStr ;;
              lift (first_row existingResult)
          end
      end
  end.

(** [SELECT plan_key FROM dim_plan WHERE plan_id = $1]. *)
Definition select_plan_key `{Runtime} (planId : value) : M (list Z) :=
  gets (fun w =>
          map plan_key
              (filter (has_plan_id (pg_text planId)) (dim_plan (tables w)))).

(** [INSERT INTO dim_plan (plan_id, plan_type_key, org_key, is_current,
     effective_date, expiration_date) VALUES (...) RETURNING plan_key]. *)
Definition insert_dim_plan `{Runtime} (planId : value) (planTypeKey orgKey : Z)
    (isCurrent : bool) (effective expiration : value) : M (list Z) :=
  id <- lift (varchar 255 (pg_text planId)) ;;
  lift (pg_date effective) ;;
  k <- nextval_plan_key ;;
  t <- gets tables ;;
  lift (references planTypeKey (map plan_type_key (dim_plan_type t))) ;;
  lift (references orgKey (map org_key (dim_organization t))) ;;
  update_tables
    (set_dim_plan
       (dim_plan t ++
        [mkPlan k id planTypeKey orgKey isCurrent effective expiration])) ;;
  ret [k].

(** The object [keys] that [loadDimensions] returns. *)
Record Keys : Type := mkKeys {
  keys_org_key : Z;
  keys_plan_type_key : Z;
  keys_creation_date_key : Z;
  keys_plan_key : Z
}.

(** [v.toString()]. *)
Definition method_toString `{Runtime} (v : value) : outcome value :=
  match v with
  | VUndefined | VNull =>
      Throw (TypeError "Cannot read properties of undefined (reading 'toString')")
  | _ => Ret (VStr (js_toString v))
  end.

(** The four blocks of [loadDimensions], under the names of their
    comments. *)

(** [// Organization dimension]: the value of [keys.org_key]. *)
Definition organization_dimension `{Runtime} (plan : value) : M Z :=
  org <- lift (prop plan "_org") ;;
  let orgId := or_else org (VStr "unknown") in
  let orgName := or_else org (VStr "Unknown Organization") in
  orgResult <- upsert_dim_organization orgId orgName ;;
  lift (first_row orgResult).

(** [// Plan Type dimension]: the value of [keys.plan_type_key]. *)
Definition plan_type_dimension `{Runtime} (plan : value) : M Z :=
  pt <- lift (prop plan "planType") ;;
  let planType := or_else pt (VStr "unknown") in
  planTypeCode <- lift (normalize_code planType) ;;
  (* Check if plan type exists *)
  existingPlanType <- select_plan_type_key planTypeCode ;;
  match existingPlanType with
  | k :: _ => ret k
  | [] =>
      planTypeResult <- insert_dim_plan_type planTypeCode planType ;;
      lift (first_row planTypeResult)
  end.

(** [const creationDate = plan.creationDate || new Date()]. *)
Definition creation_date (now : Date) (plan : value) : outcome value :=
  match prop plan "creationDate" with
  | Ret cd => Ret (or_else cd (VDate now))
  | Throw e => Throw e
  end.

(** [// Plan dimension]: the value of [keys.plan_key]. *)
Definition plan_dimension `{Runtime} (plan : value)
    (plan_type_key org_key : Z) (creationDate : value) : M Z :=
  oid <- lift (prop plan "objectId") ;;
  planId <-
    (if truthy oid then ret oid
     else id <- lift (prop plan "_id") ;; lift (method_toString id)) ;;
  (* Check if plan already exists *)
  existingPlan <- select_plan_key planId ;;
  match existingPlan with
  | k :: _ => ret k
  | [] =>
      planResult <-
        insert_dim_plan planId plan_type_key org_key true creationDate VNull ;;
      lift (first_row planResult)
  end.

(** [async function loadDimensions(client, plan)].  [now] is the value of
    [new Date()]. *)
Definition loadDimensions `{Runtime} (now : Date) (plan : value) : M Keys :=
  org_key <- organization_dimension plan ;;
  plan_type_key <- plan_type_dimension plan ;;
  (* Date dimension *)
  creationDate <- lift (creation_date now plan) ;;
  creation_date_key <- getOrCreateDateKey creationDate ;;
  plan_key <- plan_dimension plan plan_type_key org_key creationDate ;;
  ret (mkKeys org_key plan_type_key creation_date_key plan_key).

(** [INSERT INTO fact_plan_costs (plan_key, plan_type_key, org_key,
     creation_date_key, deductible, copay, total_cost_shares)
     VALUES ($1, ..., $7)]. *)
Definition insert_fact_plan_costs `{Runtime} (keys : Keys)
    (deductible copay totalCostShares : value) : M unit :=
  d <- lift (numeric deductible) ;;
  c <- lift (numeric copay) ;;
  total <- lift (numeric totalCostShares) ;;
  t <- gets tables ;;
  lift (references (keys_plan_key keys) (map plan_key (dim_plan t))) ;;
  lift (references (keys_plan_type_key keys)
                   (map plan_type_key (dim_plan_type t))) ;;
  lift (references (keys_org_key keys) (map org_key (dim_organization t))) ;;
  lift (references (keys_creation_date_key keys) (map date_key (dim_date t))) ;;
  update_tables
    (set_fact_plan_costs
       (fact_plan_costs t ++
        [mkPlanCost (keys_plan_key keys) (keys_plan_type_key keys)
                    (keys_org_key keys) (keys_creation_date_key keys)
                    d c total])).

(** [async function loadPlanFacts(client, plan, keys)]. *)
Definition loadPlanFacts `{Runtime} (plan : value) (keys : Keys) : M unit :=
  pcs <- lift (prop plan "planCostShares") ;;
  let deductible := or_else (opt_prop pcs "deductible") (VNum 0) in
  let copay := or_else (opt_prop pcs "copay") (VNum 0) in
  lps <- lift (prop plan "linkedPlanServices") ;;
  let linkedServices := or_else lps (VArr []) in
  let servicesCount :=
    match linkedServices with
    | VArr l => Z.of_nat (List.length l)
    | _ => 0
    end in
  let totalCostShares := js_add deductible copay in
  (* Insert into fact_plan_costs *)
  insert_fact_plan_costs keys deductible copay totalCostShares.

(** [SELECT service_key FROM dim_service WHERE service_id = $1]. *)
Definition select_service_key `{Runtime} (serviceId : value) : M (list Z) :=
  gets (fun w =>
          map service_key
              (filter (has_service_id (pg_text serviceId))
                      (dim_service (tables w)))).

(** [INSERT INTO dim_service (service_id, service_name, service_category)
     VALUES ($1, $2, $3) RETURNING service_key]. *)
Definition insert_dim_service `{Runtime} (serviceId serviceName : value)
    (category : string) : M (list Z) :=
  id <- lift (varchar 255 (pg_text serviceId)) ;;
  name <- lift (varchar 255 (pg_text serviceName)) ;;
  cat <- lift (varchar 100 category) ;;
  k <- nextval_service_key ;;
  rows <- gets (fun w => dim_service (tables w)) ;;
  if existsb (has_service_id id) rows
  then throw (DatabaseError "duplicate key value violates unique constraint")
  else
    update_tables (set_dim_service (rows ++ [mkService k id name cat])) ;;
    ret [k].

(** [INSERT INTO fact_service_costs (service_key, plan_key, org_key,
     date_key, deductible, copay, total_service_cost) VALUES (...)]. *)
Definition insert_fact_service_costs `{Runtime} (serviceKey : Z) (keys : Keys)
    (deductible copay total : value) : M unit :=
  d <- lift (numeric deductible) ;;
  c <- lift (numeric copay) ;;
  tot <- lift (numeric total) ;;
  t <- gets tables ;;
  lift (references serviceKey (map service_key (dim_service t))) ;;
  lift (references (keys_plan_key keys) (map plan_key (dim_plan t))) ;;
  lift (references (keys_org_key keys) (map org_key (dim_organization t))) ;;
  lift (references (keys_creation_date_key keys) (map date_key (dim_date t))) ;;
  update_tables
    (set_fact_service_costs
       (fact_service_costs t ++
        [mkServiceCost serviceKey (keys_plan_key keys) (keys_org_key keys)
                       (keys_creation_date_key keys) d c tot])).

(** The body of [for (const serviceData of linkedServices)]. *)
Definition loadServiceFact `{Runtime} (keys : Keys) (serviceData : value)
  : M unit :=
  name <- lift (prop serviceData "name") ;;
  let serviceName := or_else name (VStr "Unknown Service") in
  oid <- lift (prop serviceData "objectId") ;;
  serviceId <-
    (if truthy oid then ret oid
     else code <- lift (normalize_code serviceName) ;; ret (VStr code)) ;;
  (* Check if service exists *)
  existingService <- select_service_key serviceId ;;
  serviceKey <-
    match existingService with
    | k :: _ => ret k
    | [] =>
        (* Insert service dimension *)
        serviceResult <-
          insert_dim_service serviceId serviceName "Healthcare Service" ;;
        lift (first_row serviceResult)
    end ;;
  (* Get service cost shares *)
  ls <- lift (prop serviceData "linkedService") ;;
  let costShares := or_else (opt_prop ls "planserviceCostShares") (VObj []) in
  d <- lift (prop costShares "deductible") ;;
  let serviceDeductible := or_else d (VNum 0) in
  c <- lift (prop costShares "copay") ;;
  let serviceCopay := or_else c (VNum 0) in
  (* Insert service fact *)
  insert_fact_service_costs serviceKey keys serviceDeductible serviceCopay
                            (js_add serviceDeductible serviceCopay) ;;
  update_stats (fun st =>
    mkStats (plansExtracted st) (plansLoaded st) (servicesLoaded st + 1)
            (errors st) (startTime st) (endTime st)).

Fixpoint for_each_service `{Runtime} (keys : Keys) (l : list value) : M unit :=
  match l with
  | [] => ret tt
  | serviceData :: rest =>
      loadServiceFact keys serviceData ;; for_each_service keys rest
  end.

(** [async function loadServiceFacts(client, plan, keys)]. *)
Definition loadServiceFacts `{Runtime} (plan : value) (keys : Keys) : M unit :=
  lps <- lift (prop plan "linkedPlanServices") ;;
  let linkedServices := or_else lps (VArr []) in
  match linkedServices with
  | VArr l => for_each_service keys l
  | _ => ret tt        (* if (!Array.isArray(linkedServices)) return; *)
  end.

(** [async function logETLRun(client)].  [executionTime] is computed by the
    source and not used by the statement. *)
Definition logETLRun : M unit :=
  st <- gets stats ;;
  let status := if errors st =? 0 then "SUCCESS" else "PARTIAL_SUCCESS" in
  let errorMsg :=
    if errors st >? 0
    then Some (string_of_Z (errors st) ++ " plans failed to load")%string
    else None in
  update_tables (fun t =>
    set_etl_audit_log
      (etl_audit_log t ++
       [mkAudit "MongoDB to PostgreSQL ETL" "FULL_LOAD"
                (new_Date_ms (startTime st)) (new_Date_ms (endTime st))
                status
                (plansExtracted st) (plansLoaded st) 0 (errors st)
                errorMsg]) t).

(** [client.query('BEGIN')], ['COMMIT'] and ['ROLLBACK']. *)
Definition query_BEGIN : M unit :=
  modify (fun w => with_snapshot (Some (tables w)) w).
Definition query_COMMIT : M unit :=
  modify (with_snapshot None).
Definition query_ROLLBACK : M unit :=
  modify (fun w =>
            match snapshot w with
            | Some t => with_snapshot None (with_tables t w)
            | None => w
            end).

(** The three calls between [BEGIN] and [COMMIT]. *)
Definition load_plan `{Runtime} (now : Date) (plan : value) : M unit :=
  (* Load dimensions *)
  keys <- loadDimensions now plan ;;
  (* Load facts *)
  loadPlanFacts plan keys ;;
  loadServiceFacts plan keys.

(** The body of the loop of [runETL] for [plans[i]]. *)
Definition process_plan `{Runtime} (now : Date) (plan : value) : M unit :=
  try_catch
    (query_BEGIN ;;
     load_plan now plan ;;
     query_COMMIT ;;
     update_stats (fun st =>
       mkStats (plansExtracted st) (plansLoaded st + 1) (servicesLoaded st)
               (errors st) (startTime st) (endTime st)))
    (fun error =>
     query_ROLLBACK ;;
     (* the message reads plan.objectId || plan._id *)
     oid <- lift (prop plan "objectId") ;;
     (if truthy oid then ret oid else lift (prop plan "_id")) ;;
     update_stats (fun st =>
       mkStats (plansExtracted st) (plansLoaded st) (servicesLoaded st)
               (errors st + 1) (startTime st) (endTime st))).

(** [for (let i = 0; i < plans.length; i++)], from index [i] on;
    [clock i] is the value of [new Date()] while [plans[i]] is loaded. *)
Fixpoint for_each_plan `{Runtime} (clock : nat -> Date) (i : nat)
    (plans : list value) : M unit :=
  match plans with
  | [] => ret tt
  | plan :: rest =>
      process_plan (clock i) plan ;; for_each_plan clock (S i) rest
  end.

(** What a run meets outside the process: whether each store can be
    reached, the documents of the collection, and the clock. *)
Record Environment : Type := mkEnvironment {
  mongo_up : bool;
  pg_up : bool;
  documents : list value;
  t_start : Z;               (* Date.now() when the run starts *)
  t_end : Z;                 (* Date.now() after the audit row is written *)
  clock : nat -> Date
}.

Definition mongoose_connect (up : bool) : M unit :=
  if up then
    modify (fun w =>
      with_connections
        (mkConnections true (client_held (connections w))
                       (pool_ended (connections w))) w)
  else throw (ConnectionError "MongoDB server selection timed out").

Definition pgPool_connect (up : bool) : M unit :=
  if up then
    modify (fun w =>
      with_connections
        (mkConnections (mongo_open (connections w)) true
                       (pool_ended (connections w))) w)
  else throw (ConnectionError "PostgreSQL connection refused").

(** The [finally] block of [runETL]. *)
Definition release_connections (w : World) : World :=
  let c := connections w in
  (* if (client) { client.release(); } *)
  let c1 := if client_held c
            then mkConnections (mongo_open c) false (pool_ended c) else c in
  (* await pgPool.end(); *)
  let c2 := mkConnections (mongo_open c1) (client_held c1) true in
  (* await mongoose.connection.close(); *)
  with_connections (mkConnections false (client_held c2) (pool_ended c2)) w.

(** [async function runETL()]: how its promise settles.  [Ret v] is a
    promise resolved with [v], [Throw e] a promise rejected with [e]. *)
Definition runETL `{Runtime} (env : Environment) : M value :=
  fun w =>
    let w0 :=
      with_stats
        (mkStats (plansExtracted (stats w)) (plansLoaded (stats w))
                 (servicesLoaded (stats w)) (errors (stats w))
                 (Some (t_start env)) (endTime (stats w))) w in
    let body : M unit :=
      mongoose_connect (mongo_up env) ;;
      pgPool_connect (pg_up env) ;;
      (* Extract from MongoDB *)
      let plans := documents env in
      update_stats (fun st =>
        mkStats (Z.of_nat (List.length plans)) (plansLoaded st)
                (servicesLoaded st) (errors st) (startTime st) (endTime st)) ;;
      (* Transform and Load *)
      for_each_plan (clock env) 0 plans ;;
      logETLRun ;;
      update_stats (fun st =>
        mkStats (plansExtracted st) (plansLoaded st) (servicesLoaded st)
                (errors st) (startTime st) (Some (t_end env))) in
    match body w0 with
    | (Ret _, w1) => (Ret VUndefined, release_connections w1)
    | (Throw _, w1) =>
        (* Don't exit - let CDC watcher continue running *)
        (Ret (VBool false), release_connections w1)
    end.

(** The script, whose last statement is [runETL();]: the exit status of
    the process.  Nothing in the script calls [process.exit] or sets
    [process.exitCode], so Node ends the process with status 0 once the
    promise is resolved, and with status 1 if it is rejected and nobody
    handles the rejection. *)
Definition main `{Runtime} (env : Environment) (t : Tables) (q : Sequences)
  : Z * World :=
  match runETL env (fresh_process t q) with
  | (Ret _, w) => (0, w)
  | (Throw _, w) => (1, w)
  end.

End ETL.

(* ===================================================================== *)
(** * A concrete runtime and the documents of the scenarios               *)
(* ===================================================================== *)

Module Scenario.
Import ETL.

(** [new Date(s)] for a text of the form [YYYY-MM-DD] (read as UTC
    midnight); anything else is taken as [Invalid Date] here. *)
Definition date_only (v : value) : option Date :=
  match v with
  | VStr s =>
      if (Nat.eqb (String.length s) 10
          && String.eqb (substring 4 1 s) "-"
          && String.eqb (substring 7 1 s) "-")%bool
      then
        match parse_digits false 0 (substring 0 4 s),
              parse_digits false 0 (substring 5 2 s),
              parse_digits false 0 (substring 8 2 s) with
        | Some y, Some m, Some d => Some (mkDate y m d 0 0 0 0)
        | _, _, _ => None
        end
      else None
  | _ => None
  end.

Fixpoint all_digits (s : string) : bool :=
  match s with
  | EmptyString => true
  | String c s' =>
      match digit_value c with
      | Some _ => all_digits s'
      | None => false
      end
  end.

(** *** The text of a double *)


(** The double nearest to [s / 10 ^ p]. *)
Definition nearest (s : positive) (p : Z) : double :=
  if p <=? 0 then binary_normalize 53 1024 (Z.pos s * 10 ^ (- p)) 0 false
  else SFdiv 53 1024 (S754_finite false s 0)
                     (S754_finite false (Z.to_pos (10 ^ p)) 0).

(** The [n] with [10 ^ (n - 1) <= num / den < 10 ^ n], searched from [n]
    upwards. *)
Fixpoint magnitude (fuel : nat) (num den : Z) (n : Z) : Z :=
  match fuel with
  | O => n
  | S fuel' =>
      if 0 <=? n then
        if num <? den * 10 ^ n then n else magnitude fuel' num den (n + 1)
      else
        if num * 10 ^ (- n) <? den then n else magnitude fuel' num den (n + 1)
  end.

(** The shortest decimal that reads as the double [x = num / den]: the
    fewest digits [s], from [k] digits on, with [s / 10 ^ p] nearer to [x]
    than to any other double; of two such [s] the nearer one, then the even
    one. *)
Fixpoint shortest (fuel : nat) (k : Z) (x : double) (num den nx : Z)
  : option (Z * Z) :=
  match fuel with
  | O => None
  | S fuel' =>
      let p := k - nx in
      let lo := if 0 <=? p then (num * 10 ^ p) / den
                else num / (den * 10 ^ (- p)) in
      let hi := lo + 1 in
      let reads s := ((0 <? s) && SFeqb (nearest (Z.to_pos s) p) x)%bool in
      let distance s :=
        if 0 <=? p then Z.abs (s * den - num * 10 ^ p)
        else Z.abs (s * den * 10 ^ (- p) - num) in
      match reads lo, reads hi with
      | true, false => Some (lo, p)
      | false, true => Some (hi, p)
      | true, true =>
          if distance lo <? distance hi then Some (lo, p)
          else if distance hi <? distance lo then Some (hi, p)
          else if Z.even lo then Some (lo, p) else Some (hi, p)
      | false, false => shortest fuel' (k + 1) x num den nx
      end
  end.

Fixpoint strip_zeros (fuel : nat) (s p : Z) : Z * Z :=
  match fuel with
  | O => (s, p)
  | S fuel' =>
      if ((s mod 10 =? 0) && negb (s =? 0))%bool
      then strip_zeros fuel' (s / 10) (p - 1)
      else (s, p)
  end.

Fixpoint zeros (n : nat) : string :=
  match n with
  | O => ""
  | S n' => String "0" (zeros n')
  end.

(** The digits [s] with the point [p] places from their end, as
    [Number.prototype.toString] writes them. *)
Definition place_point (s p : Z) : string :=
  let d := string_of_Z s in
  let k := Z.of_nat (String.length d) in
  let n := k - p in
  let e := n - 1 in
  let sign := if e <? 0 then "-" else "+" in
  let exponent := (sign ++ string_of_Z (Z.abs e))%string in
  if (k <=? n) && (n <=? 21) then (d ++ zeros (Z.to_nat (n - k)))%string
  else if (0 <? n) && (n <=? 21) then
    (substring 0 (Z.to_nat n) d ++ "."
     ++ substring (Z.to_nat n) (Z.to_nat (k - n)) d)%string
  else if (-6 <? n) && (n <=? 0) then
    ("0." ++ zeros (Z.to_nat (- n)) ++ d)%string
  else if k =? 1 then (d ++ "e" ++ exponent)%string
  else (substring 0 1 d ++ "." ++ substring 1 (Z.to_nat (k - 1)) d
        ++ "e" ++ exponent)%string.

(** [x.toString()] for a double. *)
Definition number_text (x : double) : string :=
  match x with
  | S754_nan => "NaN"
  | S754_zero _ => "0"
  | S754_infinity s => if s then "-Infinity" else "Infinity"
  | S754_finite sign m e =>
      let num := if 0 <=? e then Z.pos m * 2 ^ e else Z.pos m in
      let den := if 0 <=? e then 1 else 2 ^ (- e) in
      let nx := magnitude 700 num den (-330) in
      match shortest 18 1 (S754_finite false m e) num den nx with
      | Some (s, p) =>
          let '(s', p') := strip_zeros 400 s p in
          ((if sign then "-" else "") ++ place_point s' p')%string
      | None => ""
      end
  end.

(** *** A decimal text read for a [NUMERIC(10, 2)] column *)

(** The digits at the head of [s], read after [acc]: their value, their
    number and the rest of [s]. *)
Fixpoint read_digits (acc count : Z) (s : string) : Z * Z * string :=
  match s with
  | EmptyString => (acc, count, s)
  | String c s' =>
      match digit_value c with
      | Some v => read_digits (10 * acc + v) (count + 1) s'
      | None => (acc, count, s)
      end
  end.

(** [num / den] rounded to the nearest integer, a half away from zero,
    for [0 <= num] and [0 < den]. *)
Definition round_half_up (num den : Z) : Z := (2 * num + den) / (2 * den).

Definition read_sign (s : string) : bool * string :=
  match s with
  | String "-" r => (true, r)
  | String "+" r => (false, r)
  | _ => (false, s)
  end.

(** An optional sign, digits with an optional fraction, an optional
    exponent; the value is rounded to hundredths. *)
Definition decimal_hundredths (s : string) : option Z :=
  let '(negative, s1) := read_sign s in
  let '(int_part, int_count, s2) := read_digits 0 0 s1 in
  let '(frac_part, frac_count, s3) :=
    match s2 with
    | String "." r => read_digits 0 0 r
    | _ => (0, 0, s2)
    end in
  if int_count + frac_count =? 0 then None
  else
    let exponent :=
      match s3 with
      | EmptyString => Some 0
      | String c r =>
          if (Ascii.eqb c "e" || Ascii.eqb c "E")%bool then
            let '(down, r1) := read_sign r in
            match read_digits 0 0 r1 with
            | (e, count, EmptyString) =>
                if count =? 0 then None else Some (if down then - e else e)
            | _ => None
            end
          else None
      end in
    match exponent with
    | None => None
    | Some e =>
        (* the value is (int_part * 10^frac_count + frac_part)
           * 10^(e - frac_count) *)
        let m := int_part * 10 ^ frac_count + frac_part in
        let p := e - frac_count + 2 in
        let h := if 0 <=? p then m * 10 ^ p
                 else round_half_up m (10 ^ (- p)) in
        Some (if negative then - h else h)
    end.

(** A runtime to evaluate the scenarios with: dates are read from
    [YYYY-MM-DD], a number that is not an integer is sent as the shortest
    decimal that reads as it, a text is numeric when it is a decimal, a
    date parameter is accepted when it is a [Date] or reads as a date of
    the years 1 to 9999. *)
#[export] Instance runtime : Runtime := {|
  Date_ctor := date_only;
  object_toString := fun _ => "[object Object]";
  Number_toString := number_text;
  driver_text := fun v =>
    match v with
    | VFloat x => number_text x
    | _ => ""
    end;
  numeric_text := decimal_hundredths;
  pg_date_ok := fun v =>
    match v with
    | VDate _ => true
    | VStr _ =>
        match date_only v with
        | Some d => (1 <=? year d) && (year d <=? 9999)
        | None => false
        end
    | _ => false
    end
|}.

Definition empty_tables : Tables := mkTables [] [] [] [] [] [] [] [].
Definition zero_sequences : Sequences := mkSequences 0 0 0 0.

(** The document of the specification's scenario. *)
Definition plan_p1 : value :=
  VObj [("objectId", VStr "p1"); ("_org", VStr "acme");
        ("planType", VStr "inNetwork"); ("creationDate", VStr "2024-01-15");
        ("planCostShares",
         VObj [("deductible", VNum 2000); ("copay", VNum 23)]);
        ("linkedPlanServices", VArr [])].





(** A plan without organization and plan type. *)
Definition plan_anonymous : value :=
  VObj [("objectId", VStr "p3"); ("creationDate", VStr "2024-02-01");
        ("planCostShares",
         VObj [("deductible", VNum 100); ("copay", VNum 5)])].

(** The plan that [test_cdc.js] posts: its cost shares are lists of
    amounts, its two linked services carry no cost data. *)
Definition plan_cdc : value :=
  VObj [("planCostShares",
         VObj [("deductible",
                VArr [VObj [("amount", VNum 3000);
                            ("network", VStr "inNetwork")]]);
               ("copay",
                VArr [VObj [("amount", VNum 50);
                            ("service", VStr "Primary Care")];
                      VObj [("amount", VNum 100);
                            ("service", VStr "Specialist")]])]);
        ("linkedPlanServices",
         VArr [VObj [("_org", VStr "example.com"); ("name", VStr "Cardiology");
                     ("linkedService", VStr "507f1f77bcf86cd799439011")];
               VObj [("_org", VStr "example.com"); ("name", VStr "Radiology");
                     ("linkedService", VStr "507f1f77bcf86cd799439012")]]);
        ("_org", VStr "healthcorp.com"); ("objectId", VStr "new-plan-001");
        ("objectType", VStr "plan"); ("planType", VStr "outOfNetwork");
        ("creationDate", VStr "2025-01-15")].

(** The same plan with numbers for its cost shares. *)
Definition plan_with_services : value :=
  VObj [("planCostShares",
         VObj [("deductible", VNum 3000); ("copay", VNum 50)]);
        ("linkedPlanServices",
         VArr [VObj [("_org", VStr "example.com"); ("name", VStr "Cardiology");
                     ("linkedService", VStr "507f1f77bcf86cd799439011")];
               VObj [("_org", VStr "example.com"); ("name", VStr "Radiology");
                     ("linkedService", VStr "507f1f77bcf86cd799439012")]]);
        ("_org", VStr "healthcorp.com"); ("objectId", VStr "new-plan-001");
        ("objectType", VStr "plan"); ("planType", VStr "outOfNetwork");
        ("creationDate", VStr "2025-01-15")].

(** A plan with two linked services: one that carries a name, and
    [null]. *)
Definition plan_null_service : value :=
  VObj [("objectId", VStr "p4"); ("_org", VStr "acme");
        ("planType", VStr "hmo"); ("creationDate", VStr "2024-01-15");
        ("planCostShares",
         VObj [("deductible", VNum 2000); ("copay", VNum 23)]);
        ("linkedPlanServices",
         VArr [VObj [("name", VStr "Cardiology")]; VNull])].

Definition noon (y m d : Z) : Date := mkDate y m d 12 0 0 0.

(** A run over [docs] that reaches both stores, starts at
    2024-01-15T10:00:00Z, ends 1500 ms later and reads [today] from the
    clock. *)
Definition env_of (docs : list value) (today : Date) : Environment :=
  mkEnvironment true true docs 1705312800000 1705312801500 (fun _ => today).

(** A run that cannot reach MongoDB. *)
Definition env_mongo_down (docs : list value) (today : Date) : Environment :=
  mkEnvironment false true docs 1705312800000 1705312801500 (fun _ => today).

(** The warehouse after a first run over [docs]. *)
Definition after_run (docs : list value) (today : Date) : World :=
  snd (main (env_of docs today) empty_tables zero_sequences).

End Scenario.

(* ===================================================================== *)
(** * The watcher process: notifications, signals and exit                *)
(* ===================================================================== *)

Module Lifecycle.
Import Watcher.

(** ** Notifications and the runs that serve them *)

(** A notification is served by a run that is spawned after it.  [stale]
    tells that a change was notified since the last call of [spawn]; this
    is its value after the event [e] took the coordinator from [s] to
    [s']. *)
Definition stale_after (s : state) (stale : bool) (e : event) (s' : state)
  : bool :=
  if Nat.ltb (spawned s) (spawned s') then false
  else
    match e with
    | Change _ => true
    | _ => stale
    end.

(** The coordinator and the flag along a sequence of events. *)
Fixpoint follow (s : state) (stale : bool) (evs : list event)
  : option (state * bool) :=
  match evs with
  | [] => Some (s, stale)
  | e :: rest =>
      match step s e with
      | Some s' => follow s' (stale_after s stale e s') rest
      | None => None
      end
  end.

(** Something is left that will start a run: a child is running with
    notifications held back, or a timer is pending. *)
Definition run_pending (s : state) : Prop :=
  (etlRunning s = true /\ etlQueue s <> []) \/ timers s <> [].

(** The events that need no new notification: the end of the child and
    the timer. *)
Definition quiet (e : event) : Prop :=
  match e with
  | Close _ | Timer _ => True
  | Change _ | SpawnError _ => False
  end.

(** ** Connection, signals and exit *)

(** The process: the coordinator, the calls of [setupChangeStream] whose
    promise has not settled yet, the pending
    [setTimeout(() => setupChangeStream(), 5000)] of the change streams
    that reported an error, the variable [shuttingDown], the calls of
    [watcherConnection.close()] made so far, whether one of them has not
    settled yet, and the status given to [process.exit] once it was
    called. *)
Record process : Type := mkProcess {
  coordinator : state;
  awaiting : nat;
  reconnects : nat;
  shuttingDown : bool;
  close_calls : nat;
  closing : bool;
  exit_status : option Z
}.

(** The script has been loaded: the handlers of [process] are registered
    and the first call of [setupChangeStream()] waits for the
    connection. *)
Definition loaded : process := mkProcess init_state 1 0 false 0 false None.

Inductive signal : Type := SIGINT | SIGTERM.

(** What can happen to the process.
    - [Ready opened now]: [watcherConnection] emits ['open'] or ['error'];
      every promise awaited by a call of [setupChangeStream] settles, and
      the calls go on in their [try] block or end in its [catch];
    - [StreamError]: a change stream emits ['error'];
    - [Reconnect]: the oldest of the timers set by that handler fires;
    - [Coordinator e]: an event of the coordinator;
    - [Signal sig]: [SIGINT] or [SIGTERM] is delivered;
    - [Closed], [CloseFailed]: the promise of [watcherConnection.close()]
      resolves or rejects;
    - [UncaughtException], [UnhandledRejection]: an error reaches the
      process. *)
Inductive occurrence : Type :=
| Ready (opened : bool) (now : Z)
| StreamError
| Reconnect
| Coordinator (e : event)
| Signal (sig : signal)
| Closed
| CloseFailed
| UncaughtException
| UnhandledRejection.

(** [process.on('SIGINT', async () => ...)] and the handler of [SIGTERM],
    which has the same body, up to [await watcherConnection.close()]. *)
Definition on_signal (sig : signal) (p : process) : process :=
  if shuttingDown p then p
  else mkProcess (coordinator p) (awaiting p) (reconnects p) true
                 (S (close_calls p)) true (exit_status p).

(** The rest of the handler: [process.exit(0)]. *)
Definition on_closed (p : process) : process :=
  mkProcess (coordinator p) (awaiting p) (reconnects p) (shuttingDown p)
            (close_calls p) false (Some 0).

(** The handler's promise rejects; the ['unhandledRejection'] handler logs
    it and the process goes on. *)
Definition on_close_failed (p : process) : process :=
  mkProcess (coordinator p) (awaiting p) (reconnects p) (shuttingDown p)
            (close_calls p) false (exit_status p).

(** One call of [setupChangeStream()] from its [await] on, after
    ['open']: a change stream with its listeners, and [runETL()]. *)
Definition resume (now : Z) (s : state) : state :=
  match setupChangeStream true now s with
  | Some s' => s'
  | None => s
  end.

(** The calls of [setupChangeStream()] that await the connection, from
    their [await] on: after ['open'] each of them goes on; after ['error']
    the first one ends in [process.exit(1)]. *)
Definition on_ready (opened : bool) (now : Z) (p : process) : process :=
  if opened then
    mkProcess (Nat.iter (awaiting p) (resume now) (coordinator p)) 0
              (reconnects p) (shuttingDown p) (close_calls p) (closing p)
              (exit_status p)
  else
    mkProcess (coordinator p) (awaiting p) (reconnects p) (shuttingDown p)
              (close_calls p) (closing p) (Some 1).

(** [changeStream.on('error', ...)]: [setTimeout(..., 5000)]. *)
Definition on_stream_error (p : process) : process :=
  mkProcess (coordinator p) (awaiting p) (S (reconnects p)) (shuttingDown p)
            (close_calls p) (closing p) (exit_status p).

(** The callback of that timer: [setupChangeStream()], up to its
    [await]. *)
Definition on_reconnect (p : process) : process :=
  mkProcess (coordinator p) (S (awaiting p)) (pred (reconnects p))
            (shuttingDown p) (close_calls p) (closing p) (exit_status p).

(** One occurrence; [None] when it cannot happen: nothing happens to a
    process that has exited, a change stream reports an error only once
    there is one, a timer fires only while one is pending, a call of
    [close()] settles only while one is pending.  An event of the
    connection that no call of [setupChangeStream] awaits changes
    nothing. *)
Definition occur (p : process) (o : occurrence) : option process :=
  match exit_status p with
  | Some _ => None
  | None =>
      match o with
      | Ready opened now =>
          match awaiting p with
          | O => Some p
          | S _ => Some (on_ready opened now p)
          end
      | StreamError =>
          if watching (coordinator p) then Some (on_stream_error p) else None
      | Reconnect =>
          match reconnects p with
          | O => None
          | S _ => Some (on_reconnect p)
          end
      | Coordinator e =>
          match step (coordinator p) e with
          | Some s =>
              Some (mkProcess s (awaiting p) (reconnects p) (shuttingDown p)
                              (close_calls p) (closing p) (exit_status p))
          | None => None
          end
      | Signal sig => Some (on_signal sig p)
      | Closed => if closing p then Some (on_closed p) else None
      | CloseFailed => if closing p then Some (on_close_failed p) else None
      | UncaughtException | UnhandledRejection => Some p
      end
  end.

Fixpoint live (p : process) (os : list occurrence) : option process :=
  match os with
  | [] => Some p
  | o :: rest =>
      match occur p o with
      | Some p' => live p' rest
      | None => None
      end
  end.

(** What the process keeps true of its shutdown. *)
Definition Shutdown (p : process) : Prop :=
  (shuttingDown p = false -> close_calls p = 0%nat /\ closing p = false) /\
  (shuttingDown p = true -> close_calls p = 1%nat) /\
  (exit_status p = Some 0 -> shuttingDown p = true /\ closing p = false) /\
  (forall c, exit_status p = Some c -> c = 0 \/ c = 1).

(** The process ended in the [catch] of [setupChangeStream]: the last
    occurrence of [os] is an ['error'] of the connection, and a call of
    [setupChangeStream] was awaiting the connection when it came. *)
Definition failed_to_connect (p : process) (os : list occurrence) : Prop :=
  exists os' q now,
    os = os' ++ [Ready false now] /\ live p os' = Some q /\
    (0 < awaiting q)%nat.

End Lifecycle.

(* ===================================================================== *)
(** * The warehouse as the schema script leaves it                        *)
(* ===================================================================== *)

Module Warehouse.
Import ETL.
Local Open Scope etl_scope.

(** One row of
    [INSERT INTO dim_plan_type (plan_type_code, plan_type_name,
     plan_type_description) VALUES ... ON CONFLICT (plan_type_code)
     DO NOTHING].  The description is not among the columns that the rows
    of [dim_plan_type] keep here. *)
Definition insert_plan_type_or_nothing (code name : string) : M unit :=
  c <- lift (varchar 50 code) ;;
  n <- lift (varchar 255 name) ;;
  k <- nextval_plan_type_key ;;
  rows <- gets (fun w => dim_plan_type (tables w)) ;;
  if existsb (has_plan_type_code c) rows then ret tt
  else update_tables (set_dim_plan_type (rows ++ [mkPlanType k c n])).

(** [INSERT INTO dim_organization (org_id, org_name) VALUES ...
     ON CONFLICT (org_id) DO NOTHING]. *)
Definition insert_organization_or_nothing (id name : string) : M unit :=
  i <- lift (varchar 255 id) ;;
  n <- lift (varchar 255 name) ;;
  k <- nextval_org_key ;;
  rows <- gets (fun w => dim_organization (tables w)) ;;
  if existsb (has_org_id i) rows then ret tt
  else update_tables (set_dim_organization (rows ++ [mkOrg k i n])).

(** The section [INITIAL REFERENCE DATA] of the schema script. *)
Definition initial_reference_data : M unit :=
  (* Insert common plan types *)
  insert_plan_type_or_nothing "inNetwork" "In Network" ;;
  insert_plan_type_or_nothing "outOfNetwork" "Out of Network" ;;
  insert_plan_type_or_nothing "hmo" "HMO" ;;
  insert_plan_type_or_nothing "ppo" "PPO" ;;
  insert_plan_type_or_nothing "epo" "EPO" ;;
  (* Insert example organization *)
  insert_organization_or_nothing "example.com"
                                 "Example Healthcare Organization".

(** The warehouse right after the script ran on an empty database, in
    front of a process that has just loaded [etl_runner.js]. *)
Definition installed : World :=
  snd (initial_reference_data
         (fresh_process Scenario.empty_tables Scenario.zero_sequences)).

(** An upper-case letter of ASCII. *)
Definition is_upper (c : ascii) : bool :=
  let n := nat_of_ascii c in
  (Nat.leb 65 n && Nat.leb n 90)%bool.

(** A text without upper-case letters and without blanks. *)
Fixpoint normalized (s : string) : bool :=
  match s with
  | EmptyString => true
  | String c s' => negb (is_upper c) && negb (is_space c) && normalized s'
  end.

(** The plan of the specification's scenario, owned by the organization
    that the schema script inserts. *)
Definition plan_of_example_org : value :=
  VObj [("objectId", VStr "p7"); ("_org", VStr "example.com");
        ("planType", VStr "hmo"); ("creationDate", VStr "2024-01-15");
        ("planCostShares",
         VObj [("deductible", VNum 2000); ("copay", VNum 23)]);
        ("linkedPlanServices", VArr [])].

(** The plan [p1] of the scenario after its type was changed. *)
Definition plan_p1_retyped : value :=
  VObj [("objectId", VStr "p1"); ("_org", VStr "acme");
        ("planType", VStr "hmo"); ("creationDate", VStr "2024-01-15");
        ("planCostShares",
         VObj [("deductible", VNum 2000); ("copay", VNum 23)]);
        ("linkedPlanServices", VArr [])].

(** The upsert of [dim_organization] on its rows: the name of every row of
    that [org_id] is replaced. *)
Definition rename_organization (id name : string) (rows : list org_row)
  : list org_row :=
  map (fun r => if has_org_id id r then mkOrg (org_key r) (org_id r) name
                else r) rows.

(** The number of rows of [fact_service_costs]. *)
Definition service_rows (w : World) : Z :=
  Z.of_nat (List.length (fact_service_costs (tables w))).

(** Between [w] and [w'], [stats.servicesLoaded] went up by the number of
    rows that [fact_service_costs] gained. *)
Definition counted (w w' : World) : Prop :=
  service_rows w' - service_rows w
  = servicesLoaded (stats w') - servicesLoaded (stats w) /\
  0 <= servicesLoaded (stats w') - servicesLoaded (stats w).

Definition counts {A} (m : M A) : Prop :=
  forall w o w', m w = (o, w') -> counted w w'.

(** Between [w] and [w'], [stats.servicesLoaded] went up by at least the
    number of rows that [fact_service_costs] gained. *)
Definition overcounted (w w' : World) : Prop :=
  service_rows w' - service_rows w
  <= servicesLoaded (stats w') - servicesLoaded (stats w).

(** A plan whose first linked service is well formed and whose second one
    is [null]. *)
Definition plan_half_loaded : value :=
  VObj [("objectId", VStr "p9"); ("_org", VStr "acme");
        ("planType", VStr "hmo"); ("creationDate", VStr "2024-01-15");
        ("planCostShares",
         VObj [("deductible", VNum 2000); ("copay", VNum 23)]);
        ("linkedPlanServices",
         VArr [VObj [("name", VStr "Cardiology")]; VNull])].

End Warehouse.

(* ===================================================================== *)
(** * Time values and the local calendar                                  *)
(* ===================================================================== *)

Module Calendar.
Import ETL.

(** ** Days and years, as ECMAScript counts them *)

Definition msPerDay : Z := 86400000.

Definition Day (t : Z) : Z := t / msPerDay.

Definition TimeWithinDay (t : Z) : Z := t mod msPerDay.

Definition DayFromYear (y : Z) : Z :=
  365 * (y - 1970) + (y - 1969) / 4 - (y - 1901) / 100 + (y - 1601) / 400.

Definition InLeapYear (y : Z) : bool :=
  ((y mod 4 =? 0) && negb (y mod 100 =? 0) || (y mod 400 =? 0))%bool.

(** The year of a day number: the year [y] with
    [DayFromYear y <= d < DayFromYear (y + 1)], found from the mean length
    of a year and corrected by one if needed. *)
Definition YearFromDay (d : Z) : Z :=
  let y := 1970 + (400 * d) / 146097 in
  if d <? DayFromYear y then y - 1
  else if DayFromYear (y + 1) <=? d then y + 1
  else y.

Definition YearFromTime (t : Z) : Z := YearFromDay (Day t).

Definition DayWithinYear (t : Z) : Z := Day t - DayFromYear (YearFromTime t).

Definition leap_day (y : Z) : Z := if InLeapYear y then 1 else 0.

(** The month, from 0 for January. *)
Definition MonthFromTime (t : Z) : Z :=
  let d := DayWithinYear t in
  let l := leap_day (YearFromTime t) in
  if d <? 31 then 0
  else if d <? 59 + l then 1
  else if d <? 90 + l then 2
  else if d <? 120 + l then 3
  else if d <? 151 + l then 4
  else if d <? 181 + l then 5
  else if d <? 212 + l then 6
  else if d <? 243 + l then 7
  else if d <? 273 + l then 8
  else if d <? 304 + l then 9
  else if d <? 334 + l then 10
  else 11.

(** The day of the month, from 1. *)
Definition DateFromTime (t : Z) : Z :=
  let d := DayWithinYear t in
  let l := leap_day (YearFromTime t) in
  match MonthFromTime t with
  | 0 => d + 1
  | 1 => d - 30
  | 2 => d - 58 - l
  | 3 => d - 89 - l
  | 4 => d - 119 - l
  | 5 => d - 150 - l
  | 6 => d - 180 - l
  | 7 => d - 211 - l
  | 8 => d - 242 - l
  | 9 => d - 272 - l
  | 10 => d - 303 - l
  | _ => d - 333 - l
  end.

(** The day of the week, from 0 for Sunday. *)
Definition WeekDay (t : Z) : Z := (Day t + 4) mod 7.

(** The days of the year before the first of month [m], from 1 for
    January. *)
Definition days_before_month (y m : Z) : Z :=
  match m with
  | 2 => 31 | 3 => 59 | 4 => 90 | 5 => 120 | 6 => 151 | 7 => 181
  | 8 => 212 | 9 => 243 | 10 => 273 | 11 => 304 | 12 => 334
  | _ => 0
  end
  + (if (InLeapYear y && (2 <? m))%bool then 1 else 0).

(** The time value of a date: milliseconds since 1970-01-01T00:00:00Z. *)
Definition time_value (d : Date) : Z :=
  (DayFromYear (year d) + days_before_month (year d) (month d) + (day d - 1))
  * msPerDay
  + hours d * 3600000 + minutes d * 60000 + seconds d * 1000 + millis d.

(** ** Local time *)

(** The time zone of the process: the offset of local time, in
    milliseconds, at a time value ([true]) or at a local time
    ([false]). *)
Class Zone : Type := {
  LocalTZA : Z -> bool -> Z
}.

Definition LocalTime `{Zone} (t : Z) : Z := t + LocalTZA t true.

Definition UTC `{Zone} (t : Z) : Z := t - LocalTZA t false.

(** The methods of a [Date] that the pipeline calls, on its time value. *)
Definition getFullYear `{Zone} (t : Z) : Z := YearFromTime (LocalTime t).
Definition getMonth `{Zone} (t : Z) : Z := MonthFromTime (LocalTime t).
Definition getDate `{Zone} (t : Z) : Z := DateFromTime (LocalTime t).
Definition getDay `{Zone} (t : Z) : Z := WeekDay (LocalTime t).

(** [d.setHours(0, 0, 0, 0)]: the new time value. *)
Definition setHours_midnight `{Zone} (t : Z) : Z :=
  UTC (Day (LocalTime t) * msPerDay).

(** [d.setDate(dt)]: the day number of the first of the month, plus
    [dt - 1], at the same time of the day. *)
Definition setDate `{Zone} (dt : Z) (t : Z) : Z :=
  let local := LocalTime t in
  let first_of_month := Day local - (DateFromTime local - 1) in
  UTC ((first_of_month + dt - 1) * msPerDay + TimeWithinDay local).

(** [new Date(y, 0, 1)]: a year from 0 to 99 stands for 1900 + y. *)
Definition new_Date_january_first `{Zone} (y : Z) : Z :=
  let yr := if ((0 <=? y) && (y <=? 99))%bool then 1900 + y else y in
  UTC (DayFromYear yr * msPerDay).

(** [Math.ceil(a / b)] for integers [a] and [b > 0]. *)
Definition ceil_div (a b : Z) : Z := - ((- a) / b).

(** [function getWeekNumber(date)]. *)
Definition getWeekNumber `{Zone} (date : Date) : Z :=
  let d0 := time_value date in
  let d1 := setHours_midnight d0 in
  let d := setDate (getDate d1 + 4 - (if getDay d1 =? 0 then 7 else getDay d1))
                   d1 in
  let yearStart := new_Date_january_first (getFullYear d) in
  (* Math.ceil((((d - yearStart) / 86400000) + 1) / 7): the quotient is
     that of the rationals; its distance to the next integer, when it is
     not one, is far above the rounding of the two float divisions. *)
  ceil_div (d - yearStart + 86400000) (7 * 86400000).

(** [date.toLocaleString('en-US', { month: 'long' })], by the month from
    0, and [{ weekday: 'long' }], by the day of the week. *)
Definition month_name (m : Z) : string :=
  nth (Z.to_nat m)
      ["January"; "February"; "March"; "April"; "May"; "June"; "July";
       "August"; "September"; "October"; "November"; "December"] "".

Definition day_name (wd : Z) : string :=
  nth (Z.to_nat wd)
      ["Sunday"; "Monday"; "Tuesday"; "Wednesday"; "Thursday"; "Friday";
       "Saturday"] "".

(** The parameters [$3] to [$11] of the [INSERT INTO dim_date] of
    [getOrCreateDateKey]. *)
Record description : Type := mkDescription {
  d_year : Z;
  d_quarter : Z;
  d_month : Z;
  d_month_name : string;
  d_day : Z;
  d_day_of_week : Z;
  d_day_name : string;
  d_week_of_year : Z;
  d_is_weekend : bool
}.

Definition date_description `{Zone} (date : Date) : description :=
  let t := time_value date in
  mkDescription
    (getFullYear t)
    (getMonth t / 3 + 1)
    (getMonth t + 1)
    (month_name (getMonth t))
    (getDate t)
    (getDay t)
    (day_name (getDay t))
    (getWeekNumber date)
    ((getDay t =? 0) || (getDay t =? 6))%bool.

(** ** Dates and zones of the statements *)

Definition days_in_month (y m : Z) : Z :=
  if m =? 2 then (if InLeapYear y then 29 else 28)
  else if ((m =? 4) || (m =? 6) || (m =? 9) || (m =? 11))%bool then 30
  else 31.

(** A date of the calendar, with a time of the day. *)
Definition civil (d : Date) : Prop :=
  1 <= month d <= 12 /\ 1 <= day d <= days_in_month (year d) (month d) /\
  0 <= hours d < 24 /\ 0 <= minutes d < 60 /\ 0 <= seconds d < 60 /\
  0 <= millis d < 1000.

(** The time of the day, in milliseconds. *)
Definition time_of_day (d : Date) : Z :=
  hours d * 3600000 + minutes d * 60000 + seconds d * 1000 + millis d.

(** A zone with the same offset [c] at all times. *)
Definition fixed_offset `{Zone} (c : Z) : Prop :=
  forall t b, LocalTZA t b = c.

(** A zone whose offsets differ by less than a day. *)
Definition offsets_within_a_day `{Zone} : Prop :=
  forall t1 b1 t2 b2, Z.abs (LocalTZA t1 b1 - LocalTZA t2 b2) < msPerDay.

(** The zones of the scenarios: UTC, and five hours west of it. *)
Definition utc : Zone := {| LocalTZA := fun _ _ => 0 |}.
Definition new_york_winter : Zone := {| LocalTZA := fun _ _ => -18000000 |}.

End Calendar.

(* ===================================================================== *)
(** * The data-quality validator                                          *)
(* ===================================================================== *)

Module Validator.
Import ETL.

(** A number to compare: an integer, or a double. *)
Inductive number : Type :=
| Int (n : Z)
| Double (x : double).

(** What the validator needs of JavaScript numbers beyond their sums and
    comparisons: how a text reads as a number ([None] is [NaN]) and how a
    ratio prints with two decimals.  Every statement below holds for every
    such reading. *)
Class Numbers : Type := {
  (** ToNumber on a string. *)
  StringToNumber : string -> option number;
  (** [(p / t * 100).toFixed(2)]. *)
  percent_toFixed2 : Z -> Z -> string
}.

(** ** Expressions *)

Definition obind {A B} (o : outcome A) (k : A -> outcome B) : outcome B :=
  match o with
  | Ret a => k a
  | Throw e => Throw e
  end.

Declare Scope outcome_scope.
Delimit Scope outcome_scope with outcome.
Notation "x <- c1 ;; c2" := (obind c1 (fun x => c2))
  (at level 100, c1 at next level, right associativity) : outcome_scope.
Local Open Scope outcome_scope.

(** [typeof v]. *)
Definition typeof (v : value) : string :=
  match v with
  | VUndefined => "undefined"
  | VBool _ => "boolean"
  | VNum _ | VNaN | VFloat _ => "number"
  | VStr _ => "string"
  | VNull | VObjectId _ | VDate _ | VArr _ | VObj _ => "object"
  end.

(** ToPrimitive with hint [number]: a [Date] gives its time value, any
    other object its text. *)
Definition to_primitive_number `{Runtime} (v : value) : value :=
  match v with
  | VDate d => VNum (Calendar.time_value d)
  | VObjectId _ | VArr _ | VObj _ => VStr (js_toString v)
  | _ => v
  end.

(** ToNumber on a primitive; [None] is [NaN]. *)
Definition ToNumber `{Numbers} (v : value) : option number :=
  match v with
  | VNum n => Some (Int n)
  | VFloat x => Some (Double x)
  | VBool true => Some (Int 1)
  | VBool false => Some (Int 0)
  | VNull => Some (Int 0)
  | VStr s => StringToNumber s
  | _ => None
  end.

Definition double_of (a : number) : double :=
  match a with
  | Int n => double_of_Z n
  | Double x => x
  end.

(** [a < b] on numbers: integers are compared as integers, other numbers
    as doubles; [None] when one of them is [NaN]. *)
Definition number_lt (a b : number) : option bool :=
  match a, b with
  | Int x, Int y => Some (x <? y)
  | _, _ =>
      match SFcompare (double_of a) (double_of b) with
      | Some Lt => Some true
      | Some _ => Some false
      | None => None
      end
  end.

(** The comparison behind [<], [>], [<=] and [>=]: [Some b] when [a < b]
    is decided, [None] when one side is [NaN]. *)
Definition less_than `{Runtime} `{Numbers} (a b : value) : option bool :=
  match to_primitive_number a, to_primitive_number b with
  | VStr x, VStr y => Some (String.ltb x y)
  | pa, pb =>
      match ToNumber pa, ToNumber pb with
      | Some x, Some y => number_lt x y
      | _, _ => None
      end
  end.

(** [a < b]. *)
Definition js_lt `{Runtime} `{Numbers} (a b : value) : bool :=
  match less_than a b with
  | Some r => r
  | None => false
  end.

(** [a >= b]. *)
Definition js_ge `{Runtime} `{Numbers} (a b : value) : bool :=
  match less_than a b with
  | Some r => negb r
  | None => false
  end.

(** [a <= b]. *)
Definition js_le `{Runtime} `{Numbers} (a b : value) : bool :=
  match less_than b a with
  | Some r => negb r
  | None => false
  end.

(** [new Date(v)]; [None] is [Invalid Date]. *)
Definition new_Date `{Runtime} (v : value) : option Date :=
  match v with
  | VDate d => Some d
  | _ => Date_ctor v
  end.

(** [l.join(sep)] on a list of texts. *)
Fixpoint join (sep : string) (l : list string) : string :=
  match l with
  | [] => ""
  | [x] => x
  | x :: rest => x ++ sep ++ join sep rest
  end.

(** [l.includes(v)] on a list of texts: only a text can be found. *)
Definition includes (l : list string) (v : value) : bool :=
  match v with
  | VStr s => existsb (String.eqb s) l
  | _ => false
  end.

(** [v.length]. *)
Definition js_length (v : value) : outcome value :=
  match v with
  | VUndefined | VNull =>
      Throw (TypeError "Cannot read properties of undefined or null: length")
  | VArr l => Ret (VNum (Z.of_nat (List.length l)))
  | VStr s => Ret (VNum (Z.of_nat (String.length s)))
  | VObj fs => Ret (lookup "length" fs)
  | _ => Ret VUndefined
  end.

(** A number in the form it has when it is an integer. *)
Definition canonical (v : value) : value :=
  match v with
  | VFloat x => number_of_double x
  | _ => v
  end.

(** [v === n] for a number [n]. *)
Definition is_number (n : Z) (v : value) : bool :=
  match canonical v with
  | VNum m => m =? n
  | _ => false
  end.

(** The values that [for (const x of v)] goes through: the items of a
    list, the characters of a text; nothing else in a document can be
    iterated. *)
Definition iterate (v : value) : outcome (list value) :=
  match v with
  | VArr l => Ret l
  | VStr s => Ret (map (fun c => VStr (String c "")) (list_ascii_of_string s))
  | _ => Throw (TypeError "is not iterable")
  end.

Fixpoint map_outcome (f : value -> outcome value) (l : list value)
  : outcome (list value) :=
  match l with
  | [] => Ret []
  | x :: rest => y <- f x ;; ys <- map_outcome f rest ;; Ret (y :: ys)
  end.

(** [...(x?.map(f) || [])]. *)
Definition optional_map (f : value -> outcome value) (x : value)
  : outcome (list value) :=
  match x with
  | VUndefined | VNull => Ret []
  | VArr l => map_outcome f l
  | _ => Throw (TypeError "map is not a function")
  end.

(** SameValueZero, the equality of [Set].  Primitives are compared by
    value; the objects of a document are all different objects. *)
Definition same_value_zero (a b : value) : bool :=
  match canonical a, canonical b with
  | VUndefined, VUndefined | VNull, VNull | VNaN, VNaN => true
  | VBool x, VBool y => Bool.eqb x y
  | VNum x, VNum y => x =? y
  | VFloat x, VFloat y => SFeqb x y
  | VStr x, VStr y => String.eqb x y
  | _, _ => false
  end.

(** [new Set(l)], as the list of its members in insertion order. *)
Fixpoint Set_of (seen l : list value) : list value :=
  match l with
  | [] => seen
  | v :: rest =>
      Set_of (if existsb (same_value_zero v) seen then seen else seen ++ [v])
             rest
  end.

(** ** The rules *)

(** What a [check] returns.  [passed] is whatever the expression of the
    rule evaluates to, not always a boolean. *)
Record check_result : Type := mkCheck {
  passed : value;
  message : string
}.

(** A rule; [check] takes the value of [new Date()] at the call. *)
Record rule : Type := mkRule {
  name : string;
  description : string;
  severity : string;
  check : Date -> value -> outcome check_result
}.

(** [required.filter(field => !plan[field])]. *)
Fixpoint missing_fields (plan : value) (fields : list string)
  : outcome (list string) :=
  match fields with
  | [] => Ret []
  | field :: rest =>
      v <- prop plan field ;;
      missing <- missing_fields plan rest ;;
      Ret (if truthy v then missing else field :: missing)
  end.

Definition required : list string :=
  ["objectId"; "objectType"; "planType"; "creationDate"; "_org"].

Definition required_fields_present (plan : value) : outcome check_result :=
  missing <- missing_fields plan required ;;
  Ret (mkCheck (VBool (Nat.eqb (List.length missing) 0))
               (if Nat.ltb 0 (List.length missing)
                then "Missing fields: " ++ join ", " missing
                else "All required fields present")).

Definition cost_shares_present (plan : value) : outcome check_result :=
  pcs <- prop plan "planCostShares" ;;
  hasCostShares <-
    (if truthy pcs then
       d <- prop pcs "deductible" ;;
       if String.eqb (typeof d) "number" then
         c <- prop pcs "copay" ;;
         Ret (VBool (String.eqb (typeof c) "number"))
       else Ret (VBool false)
     else Ret pcs) ;;
  Ret (mkCheck hasCostShares
               (if truthy hasCostShares then "Cost shares defined"
                else "Missing or invalid cost shares")).

Definition allowedTypes : list string :=
  ["inNetwork"; "outOfNetwork"; "hmo"; "ppo"; "epo"].

Definition valid_plan_type `{Runtime} (plan : value) : outcome check_result :=
  planType <- prop plan "planType" ;;
  let isValid := includes allowedTypes planType in
  Ret (mkCheck (VBool isValid)
               (if isValid then "Valid plan type"
                else "Invalid plan type: " ++ js_toString planType)).

Definition valid_date_format `{Runtime} (plan : value) : outcome check_result :=
  match prop plan "creationDate" with
  | Ret creationDate =>
      let isValid :=
        match new_Date creationDate with
        | Some _ => true
        | None => false
        end in
      Ret (mkCheck (VBool isValid)
                   (if isValid then "Valid date format"
                    else "Invalid date format"))
  | Throw _ => Ret (mkCheck (VBool false) "Date parsing error")
  end.

Definition object_id_format (plan : value) : outcome check_result :=
  objectId <- prop plan "objectId" ;;
  let isValid :=
    if truthy objectId then
      match objectId with
      | VStr s => VBool (Nat.ltb 5 (String.length s))
      | _ => VBool false
      end
    else objectId in
  Ret (mkCheck isValid
               (if truthy isValid then "Valid objectId format"
                else "Invalid objectId format")).

Definition positive_costs `{Runtime} `{Numbers} (plan : value)
  : outcome check_result :=
  pcs <- prop plan "planCostShares" ;;
  let deductible := or_else (opt_prop pcs "deductible") (VNum 0) in
  let copay := or_else (opt_prop pcs "copay") (VNum 0) in
  let isValid := (js_ge deductible (VNum 0) && js_ge copay (VNum 0))%bool in
  Ret (mkCheck (VBool isValid)
               (if isValid then "All costs are positive"
                else "Negative cost values detected")).

Definition reasonable_cost_ranges `{Runtime} `{Numbers} (plan : value)
  : outcome check_result :=
  pcs <- prop plan "planCostShares" ;;
  let deductible := or_else (opt_prop pcs "deductible") (VNum 0) in
  let copay := or_else (opt_prop pcs "copay") (VNum 0) in
  let totalCost := js_add deductible copay in
  let isReasonable :=
    (js_ge totalCost (VNum 0) && js_le totalCost (VNum 50000))%bool in
  Ret (mkCheck (VBool isReasonable)
               (if isReasonable then "Costs within reasonable range"
                else "Unusually high cost: $" ++ js_toString totalCost)).

(** The loop of [service_costs_consistency]: the value of [allValid] when
    the loop ends or breaks. *)
Fixpoint all_services_valid `{Runtime} `{Numbers} (services : list value)
  : outcome bool :=
  match services with
  | [] => Ret true
  | service :: rest =>
      serviceCosts <- prop service "planserviceCostShares" ;;
      if truthy serviceCosts then
        d <- prop serviceCosts "deductible" ;;
        if js_lt d (VNum 0) then Ret false
        else
          c <- prop serviceCosts "copay" ;;
          if js_lt c (VNum 0) then Ret false
          else all_services_valid rest
      else all_services_valid rest
  end.

Definition service_costs_consistency `{Runtime} `{Numbers} (plan : value)
  : outcome check_result :=
  lps <- prop plan "linkedPlanServices" ;;
  len <- (if truthy lps then js_length lps else Ret VUndefined) ;;
  if (negb (truthy lps) || is_number 0 len)%bool then
    Ret (mkCheck (VBool true) "No services to validate")
  else
    services <- iterate lps ;;
    allValid <- all_services_valid services ;;
    Ret (mkCheck (VBool allValid)
                 (if allValid then "All service costs consistent"
                  else "Inconsistent service costs")).

(** The list [ids] of [unique_object_ids], before and after
    [.filter(id => id)]. *)
Definition object_ids (plan : value) : outcome (list value) :=
  objectId <- prop plan "objectId" ;;
  pcs <- prop plan "planCostShares" ;;
  lps <- prop plan "linkedPlanServices" ;;
  serviceIds <- optional_map (fun s => prop s "objectId") lps ;;
  linkedIds <-
    optional_map (fun s => ls <- prop s "linkedService" ;;
                           Ret (opt_prop ls "objectId")) lps ;;
  Ret (filter truthy
         ([objectId; opt_prop pcs "objectId"] ++ serviceIds ++ linkedIds)).

Definition unique_object_ids (plan : value) : outcome check_result :=
  ids <- object_ids plan ;;
  let uniqueIds := Set_of [] ids in
  let isUnique := Nat.eqb (List.length ids) (List.length uniqueIds) in
  Ret (mkCheck (VBool isUnique)
               (if isUnique then "All IDs unique"
                else "Duplicate IDs detected")).

Definition recent_creation_date `{Runtime} (now : Date) (plan : value)
  : outcome check_result :=
  match prop plan "creationDate" with
  | Ret v =>
      let isValid :=
        match new_Date v with
        | Some creationDate =>
            Calendar.time_value creationDate <=? Calendar.time_value now
        | None => false
        end in
      Ret (mkCheck (VBool isValid)
                   (if isValid then "Creation date valid"
                    else "Creation date is in the future"))
  | Throw _ => Ret (mkCheck (VBool false) "Unable to validate date")
  end.

(** [defineValidationRules()]: the categories in the order of the object
    literal, each with its rules. *)
Definition defineValidationRules `{Runtime} `{Numbers}
  : list (string * list rule) :=
  [ (* Completeness checks *)
    ("completeness",
     [mkRule "required_fields_present" "All required fields must be present"
             "critical" (fun _ => required_fields_present);
      mkRule "cost_shares_present" "Plan cost shares must be defined"
             "high" (fun _ => cost_shares_present)]);
    (* Validity checks *)
    ("validity",
     [mkRule "valid_plan_type" "Plan type must be from allowed values"
             "high" (fun _ => valid_plan_type);
      mkRule "valid_date_format" "Creation date must be valid ISO date"
             "critical" (fun _ => valid_date_format);
      mkRule "object_id_format" "ObjectId should follow expected pattern"
             "medium" (fun _ => object_id_format)]);
    (* Consistency checks *)
    ("consistency",
     [mkRule "positive_costs" "All cost values must be non-negative"
             "high" (fun _ => positive_costs);
      mkRule "reasonable_cost_ranges"
             "Costs should be within reasonable ranges"
             "medium" (fun _ => reasonable_cost_ranges);
      mkRule "service_costs_consistency" "Service costs must be consistent"
             "medium" (fun _ => service_costs_consistency)]);
    (* Uniqueness checks *)
    ("uniqueness",
     [mkRule "unique_object_ids" "Object IDs within plan should be unique"
             "high" (fun _ => unique_object_ids)]);
    (* Timeliness checks *)
    ("timeliness",
     [mkRule "recent_creation_date" "Creation date should not be in future"
             "high" recent_creation_date]) ].

(** ** [validatePlan] *)

Record rule_result : Type := mkRuleResult {
  rr_name : string;
  rr_description : string;
  rr_severity : string;
  rr_passed : value;
  rr_message : string
}.

(** [results.categories[category]]. *)
Record category_result : Type := mkCategory {
  cat_passed : Z;
  cat_failed : Z;
  cat_warnings : Z;
  cat_rules : list rule_result
}.

(** The object [results]; [categories] in the order of their creation. *)
Record results : Type := mkResults {
  planId : value;
  timestamp : string;
  overallStatus : string;
  categories : list (string * category_result);
  failedRules : list rule_result;
  warnings : list rule_result
}.

(** The part of [results] that a rule may change besides its category. *)
Record verdicts : Type := mkVerdicts {
  v_status : string;
  v_failedRules : list rule_result;
  v_warnings : list rule_result
}.

Definition is_hard (sev : string) : bool :=
  (String.eqb sev "critical" || String.eqb sev "high")%bool.

(** The body of [for (const rule of rules)]. *)
Definition run_rule (now : Date) (plan : value) (r : rule)
    (acc : category_result * verdicts) : category_result * verdicts :=
  let (c, v) := acc in
  match check r now plan with
  | Ret result =>
      let ruleResult :=
        mkRuleResult (name r) (description r) (severity r)
                     (passed result) (message result) in
      let rules := cat_rules c ++ [ruleResult] in
      if truthy (passed result) then
        (mkCategory (cat_passed c + 1) (cat_failed c) (cat_warnings c) rules,
         v)
      else if is_hard (severity r) then
        (mkCategory (cat_passed c) (cat_failed c + 1) (cat_warnings c) rules,
         mkVerdicts "failed" (v_failedRules v ++ [ruleResult]) (v_warnings v))
      else
        (mkCategory (cat_passed c) (cat_failed c) (cat_warnings c + 1) rules,
         mkVerdicts (if String.eqb (v_status v) "passed" then "warning"
                     else v_status v)
                    (v_failedRules v) (v_warnings v ++ [ruleResult]))
  | Throw _ =>
      (mkCategory (cat_passed c) (cat_failed c + 1) (cat_warnings c)
                  (cat_rules c),
       mkVerdicts "error" (v_failedRules v) (v_warnings v))
  end.

Definition run_rules (now : Date) (plan : value) (rules : list rule)
    (acc : category_result * verdicts) : category_result * verdicts :=
  fold_left (fun a r => run_rule now plan r a) rules acc.

(** The body of [for (const [category, rules] of Object.entries(...))]. *)
Definition run_category (now : Date) (plan : value)
    (acc : list (string * category_result) * verdicts)
    (entry : string * list rule)
  : list (string * category_result) * verdicts :=
  let (cats, v) := acc in
  let (category, rules) := entry in
  let (c, v') := run_rules now plan rules (mkCategory 0 0 0 [], v) in
  (cats ++ [(category, c)], v').

(** The validator object: its rules are fixed, its history grows. *)
Record validator : Type := mkValidator {
  validationResults : list results
}.

(** [validatePlan(plan)]; [stamp] is the value of [new Date()] for the
    time stamp, [now] the one that the rules read. *)
Definition validatePlan `{Runtime} `{Numbers} (stamp now : Date)
    (plan : value) (this : validator) : outcome results * validator :=
  match prop plan "objectId" with
  | Throw e => (Throw e, this)
  | Ret planId =>
      let (cats, v) :=
        fold_left (run_category now plan) defineValidationRules
                  ([], mkVerdicts "passed" [] []) in
      let results :=
        mkResults planId (toISOString stamp) (v_status v) cats
                  (v_failedRules v) (v_warnings v) in
      (* Store result *)
      (Ret results, mkValidator (validationResults this ++ [results]))
  end.

(** ** [validateBatch], [getStatistics] and [clearResults] *)

Record summary : Type := mkSummary {
  totalPlans : Z;
  sum_passed : Z;
  sum_warnings : Z;
  sum_failed : Z;
  sum_errors : Z
}.

(** [l.filter(r => r.overallStatus === s).length]. *)
Definition count_status (s : string) (l : list results) : Z :=
  Z.of_nat (List.length
              (filter (fun r => String.eqb (overallStatus r) s) l)).

(** [plans.map(plan => this.validatePlan(plan))]; [clock i] holds the two
    readings of the clock while [plans[i]] is validated. *)
Fixpoint validate_each `{Runtime} `{Numbers} (clock : nat -> Date * Date)
    (i : nat) (plans : list value) (this : validator)
  : outcome (list results) * validator :=
  match plans with
  | [] => (Ret [], this)
  | plan :: rest =>
      match validatePlan (fst (clock i)) (snd (clock i)) plan this with
      | (Ret r, this1) =>
          match validate_each clock (S i) rest this1 with
          | (Ret rs, this2) => (Ret (r :: rs), this2)
          | (Throw e, this2) => (Throw e, this2)
          end
      | (Throw e, this1) => (Throw e, this1)
      end
  end.

Definition validateBatch `{Runtime} `{Numbers} (clock : nat -> Date * Date)
    (plans : list value) (this : validator)
  : outcome (summary * list results) * validator :=
  match validate_each clock 0 plans this with
  | (Ret results, this') =>
      (Ret (mkSummary (Z.of_nat (List.length plans))
                      (count_status "passed" results)
                      (count_status "warning" results)
                      (count_status "failed" results)
                      (count_status "error" results),
            results),
       this')
  | (Throw e, this') => (Throw e, this')
  end.

Inductive statistics : Type :=
| NoValidations (message : string)
| Statistics (totalValidations passed warnings failed errors : Z)
             (passRate : string).

Definition getStatistics `{Numbers} (this : validator) : statistics :=
  let totalValidations := Z.of_nat (List.length (validationResults this)) in
  if totalValidations =? 0 then NoValidations "No validations performed yet"
  else
    Statistics totalValidations
               (count_status "passed" (validationResults this))
               (count_status "warning" (validationResults this))
               (count_status "failed" (validationResults this))
               (count_status "error" (validationResults this))
               (percent_toFixed2
                  (count_status "passed" (validationResults this))
                  totalValidations ++ "%").

Definition clearResults (this : validator) : validator := mkValidator [].

(** [module.exports = new DataQualityValidator()]. *)
Definition new_DataQualityValidator : validator := mkValidator [].

(** ** How a rule ends *)

(** The four ways in which [validatePlan] can account for a rule. *)
Inductive verdict : Type := Pass | Warn | Fail | Error.

Definition judge (now : Date) (plan : value) (r : rule) : verdict :=
  match check r now plan with
  | Ret result =>
      if truthy (passed result) then Pass
      else if is_hard (severity r) then Fail
      else Warn
  | Throw _ => Error
  end.

Definition is_failure (v : verdict) : bool :=
  match v with
  | Fail | Error => true
  | Pass | Warn => false
  end.

Definition is_warning (v : verdict) : bool :=
  match v with
  | Warn => true
  | _ => false
  end.

(** The status that a sequence of verdicts leads to: the last failure or
    error decides; without any, one warning is enough for [warning]. *)
Definition status_of (vs : list verdict) : string :=
  match find is_failure (rev vs) with
  | Some Error => "error"
  | Some _ => "failed"
  | None => if existsb is_warning vs then "warning" else "passed"
  end.

(** All rules, in the order in which [validatePlan] runs them. *)
Definition all_rules `{Runtime} `{Numbers} : list rule :=
  flat_map snd defineValidationRules.

(** All rule results that [results] holds, category after category. *)
Definition recorded (r : results) : list rule_result :=
  flat_map (fun c => cat_rules (snd c)) (categories r).

(** The status after one more verdict. *)
Definition next_status (s : string) (v : verdict) : string :=
  match v with
  | Pass => s
  | Warn => if String.eqb s "passed" then "warning" else s
  | Fail => "failed"
  | Error => "error"
  end.

(** The sum of a counter over the categories. *)
Definition total (f : category_result -> Z)
    (cats : list (string * category_result)) : Z :=
  fold_right (fun c acc => f (snd c) + acc) 0 cats.

(** The truthy identifiers are pairwise different for [Set]. *)
Fixpoint pairwise_different (l : list value) : Prop :=
  match l with
  | [] => True
  | v :: rest =>
      Forall (fun u => same_value_zero u v = false) rest /\
      pairwise_different rest
  end.

(** A plan that is neither [undefined] nor [null]. *)
Definition defined (v : value) : Prop := v <> VUndefined /\ v <> VNull.

(** The [passed] of a check that returned. *)
Definition passed_of (o : outcome check_result) : option value :=
  match o with
  | Ret result => Some (passed result)
  | Throw _ => None
  end.

(** One of the four values of [overallStatus]. *)
Definition is_status (s : string) : Prop :=
  s = "passed" \/ s = "warning" \/ s = "failed" \/ s = "error".

(** The number of rules that returned a result. *)
Definition answered (vs : list verdict) : nat :=
  List.length
    (filter (fun v => match v with Error => false | _ => true end) vs).

(** The number of rules that threw. *)
Definition thrown (vs : list verdict) : nat :=
  List.length
    (filter (fun v => match v with Error => true | _ => false end) vs).

(** The counters of a category account for each of its rules once, and
    its list of results holds the rules that returned. *)
Definition accounts_for (now : Date) (plan : value)
    (entry : string * list rule) (c : string * category_result) : Prop :=
  fst c = fst entry /\
  cat_passed (snd c) + cat_failed (snd c) + cat_warnings (snd c)
  = Z.of_nat (List.length (snd entry)) /\
  0 <= cat_passed (snd c) /\ 0 <= cat_failed (snd c) /\
  0 <= cat_warnings (snd c) /\
  List.length (cat_rules (snd c))
  = answered (map (judge now plan) (snd entry)).

(** [linkedPlanServices] is missing, [null], or a list without
    [undefined] and [null] entries. *)
Definition well_listed (lps : value) : Prop :=
  match lps with
  | VUndefined | VNull => True
  | VArr l => Forall defined l
  | _ => False
  end.

End Validator.

(** Numbers and plans to evaluate the validator with. *)
Module Samples.
Import ETL Validator.

(** A reading of numbers: a text reads as a number when it is a run of
    digits, and a ratio is printed rounded to two decimals. *)
#[export] Instance numbers : Numbers := {|
  StringToNumber := fun s =>
    if Scenario.all_digits s then option_map Int (parse_digits false 0 s)
    else None;
  percent_toFixed2 := fun p t =>
    let n := (2 * p * 10000 + t) / (2 * t) in
    (string_of_Z (n / 100) ++ "." ++ pad2 (n mod 100) "")%string
|}.

(** A complete plan: every rule passes. *)
Definition plan_complete : value :=
  VObj [("objectId", VStr "plan-2024-001"); ("objectType", VStr "plan");
        ("planType", VStr "inNetwork"); ("creationDate", VStr "2024-01-15");
        ("_org", VStr "example.com");
        ("planCostShares",
         VObj [("objectId", VStr "costs-2024-001");
               ("deductible", VNum 2000); ("copay", VNum 23)]);
        ("linkedPlanServices",
         VArr [VObj [("objectId", VStr "entry-2024-001");
                     ("name", VStr "Cardiology");
                     ("linkedService",
                      VObj [("objectId", VStr "service-2024-001")])]])].

(** The complete plan with a [null] entry among its services and a
    creation date one year ahead. *)
Definition plan_null_entry : value :=
  VObj [("objectId", VStr "plan-2024-002"); ("objectType", VStr "plan");
        ("planType", VStr "inNetwork"); ("creationDate", VStr "2025-01-15");
        ("_org", VStr "example.com");
        ("planCostShares",
         VObj [("deductible", VNum 2000); ("copay", VNum 23)]);
        ("linkedPlanServices", VArr [VNull])].

(** A plan whose only service carries negative amounts, where the loader
    reads them. *)
Definition plan_negative_service : value :=
  VObj [("objectId", VStr "plan-2024-003"); ("objectType", VStr "plan");
        ("planType", VStr "inNetwork"); ("creationDate", VStr "2024-01-15");
        ("_org", VStr "example.com");
        ("planCostShares",
         VObj [("deductible", VNum 2000); ("copay", VNum 23)]);
        ("linkedPlanServices",
         VArr [VObj [("name", VStr "Cardiology");
                     ("linkedService",
                      VObj [("planserviceCostShares",
                             VObj [("deductible", VNum (-500));
                                   ("copay", VNum (-5))])])]])].

(** A plan whose cost shares carry the identifier of the plan. *)
Definition plan_duplicate_id : value :=
  VObj [("objectId", VStr "plan-2024-004");
        ("planCostShares",
         VObj [("objectId", VStr "plan-2024-004");
               ("deductible", VNum 2000); ("copay", VNum 23)])].

(** The clock of the scenarios: 2024-01-20, noon. *)
Definition at_noon (i : nat) : Date * Date :=
  (Scenario.noon 2024 1 20, Scenario.noon 2024 1 20).

End Samples.


(* ===================================================================== *)
(** * Properties of the watcher                                           *)
(* ===================================================================== *)

Module WatcherSpec.
Import Watcher.

Lemma Inv_startup now s :
  setupChangeStream true now init_state = Some s -> Inv s.
Proof.
  cbn. intros [= <-]. unfold Inv; cbn.
  repeat split; auto; discriminate.
Qed.

Lemma Inv_step s e s' : Inv s -> step s e = Some s' -> Inv s'.
Proof.
  intros (Hw & Hr & Hi & Ht) Hs.
  destruct e as [now | code | code | now]; cbn in Hs.
  - rewrite Hw in Hs. injection Hs as <-. unfold runETL.
    destruct (etlRunning s) eqn:R; unfold Inv; cbn.
    + repeat split; auto; discriminate.
    + destruct (Hi eq_refl) as [Hc Hq]. rewrite Hc.
      repeat split; auto; discriminate.
  - destruct (children s) as [|n] eqn:C; [discriminate|].
    injection Hs as <-.
    destruct (etlRunning s) eqn:R.
    + specialize (Hr eq_refl). assert (n = 0%nat) by lia. subst n.
      unfold on_close, Inv. rewrite C.
      destruct (etlQueue s); cbn; repeat split; auto; try discriminate.
      apply Forall_app; split; auto.
    + destruct (Hi eq_refl); lia.
  - destruct (children s) as [|n] eqn:C; [discriminate|].
    injection Hs as <-.
    destruct (etlRunning s) eqn:R.
    + specialize (Hr eq_refl). assert (n = 0%nat) by lia. subst n.
      unfold on_close, on_error, Inv; cbn. rewrite C.
      destruct (etlQueue s); cbn; repeat split; auto; try discriminate.
      apply Forall_app; split; auto.
    + destruct (Hi eq_refl); lia.
  - destruct (timers s) as [|d rest] eqn:T; [discriminate|].
    injection Hs as <-. inversion Ht; subst.
    unfold runETL; cbn.
    destruct (etlRunning s) eqn:R; unfold Inv; cbn.
    + repeat split; auto; discriminate.
    + destruct (Hi eq_refl) as [Hc Hq]. rewrite Hc.
      repeat split; auto; discriminate.
Qed.

Lemma Inv_run evs : forall s s', Inv s -> run s evs = Some s' -> Inv s'.
Proof.
  induction evs as [|e evs IH]; cbn; intros s s' HI Hr.
  - injection Hr as <-. exact HI.
  - destruct (step s e) as [s1|] eqn:E; [|discriminate].
    eapply IH; [eapply Inv_step; eauto | exact Hr].
Qed.

(** Notifications that arrive during a run are appended to the queue and
    change nothing else. *)
Lemma run_changes_while_running nows : forall s,
  watching s = true -> etlRunning s = true ->
  run s (map Change nows)
  = Some (mkState true (etlQueue s ++ nows) (children s) (spawned s)
                  (timers s) true).
Proof.
  induction nows as [|n nows IH]; intros s Hw Hr; cbn.
  - rewrite app_nil_r. destruct s; cbn in *; subst; reflexivity.
  - rewrite Hw. unfold runETL at 1. rewrite Hr.
    rewrite IH by (cbn; auto). cbn. rewrite <- app_assoc. reflexivity.
Qed.

Lemma run_app evs1 : forall s evs2,
  run s (evs1 ++ evs2)
  = match run s evs1 with Some s1 => run s1 evs2 | None => None end.
Proof.
  induction evs1 as [|e evs1 IH]; intros s evs2; cbn; [reflexivity|].
  destruct (step s e); [apply IH | reflexivity].
Qed.


(** The burst scenario: the watcher starts (initial run), five change
    notifications arrive while that run is in progress, the run ends and the
    debounce timer fires.  Two children were spawned in total. *)
Example burst_of_five :
  match setupChangeStream true 0 init_state with
  | Some s0 =>
      option_map spawned
        (run s0 [Change 10; Change 20; Change 30; Change 40; Change 50;
                 Close 0; Timer 2060])
  | None => None
  end = Some 2%nat.
Proof. reflexivity. Qed.

(** C1.  In every state the started watcher can reach: at most one ETL child
    is in progress; a change notification that arrives while a run is in
    progress is only recorded (nothing is spawned, nothing is scheduled);
    when the run in flight ends with at least one recorded notification, the
    record is cleared and exactly one [runETL] is scheduled, with the fixed
    delay of 2000 ms, and no child is started at that point; and any number
    N >= 1 of notifications during one run followed by its end leaves
    exactly one more pending timer, whose firing starts exactly one run. *)
Theorem coordinator_single_flight :
  forall (t0 : Z) (s0 s : state) (evs : list event),
    setupChangeStream true t0 init_state = Some s0 ->
    run s0 evs = Some s ->
    (children s <= 1)%nat /\
    (forall now, etlRunning s = true ->
       exists s', step s (Change now) = Some s' /\
         spawned s' = spawned s /\ children s' = children s /\
         timers s' = timers s /\ etlRunning s' = true /\
         etlQueue s' = etlQueue s ++ [now]) /\
    (forall code, etlRunning s = true -> etlQueue s <> [] ->
       exists s', step s (Close code) = Some s' /\
         etlRunning s' = false /\ children s' = 0%nat /\
         etlQueue s' = [] /\ timers s' = timers s ++ [2000] /\
         spawned s' = spawned s) /\
    (forall nows code t, etlRunning s = true -> etlQueue s = [] ->
       nows <> [] ->
       exists s1 s2,
         run s (map Change nows ++ [Close code]) = Some s1 /\
         etlRunning s1 = false /\ children s1 = 0%nat /\
         etlQueue s1 = [] /\ spawned s1 = spawned s /\
         timers s1 = timers s ++ [2000] /\
         (timers s = [] ->
          run s1 [Timer t] = Some s2 /\
          spawned s2 = S (spawned s) /\ children s2 = 1%nat /\
          timers s2 = [] /\ etlQueue s2 = [])).
Proof.
  intros t0 s0 s evs H0 Hrun.
  assert (HI : Inv s) by (eapply Inv_run; [eapply Inv_startup|]; eauto).
  destruct HI as (Hw & Hr & Hi & Ht).
  split; [|split; [|split]].
  - destruct (etlRunning s) eqn:R.
    + rewrite (Hr eq_refl). lia.
    + destruct (Hi eq_refl) as [-> _]. lia.
  - intros now R. cbn. rewrite Hw. unfold runETL. rewrite R.
    eexists; split; [reflexivity|]. cbn. repeat split; reflexivity.
  - intros code R Q. cbn. rewrite (Hr R). unfold on_close.
    destruct (etlQueue s) as [|q qs] eqn:EQ; [congruence|].
    eexists; split; [reflexivity|]. cbn. rewrite (Hr R).
    repeat split; reflexivity.
  - intros nows code t R Q Hne.
    rewrite run_app, (run_changes_while_running nows s Hw R), Q.
    cbn [app run step children]. rewrite (Hr R). unfold on_close.
    cbn [etlQueue children spawned timers watching].
    destruct nows as [|n nows]; [congruence|].
    eexists. exists (mkState true [] 1 (S (spawned s)) [] true).
    split; [reflexivity|].
    cbn. repeat split; try reflexivity.
    rewrite H. reflexivity.
Qed.

(** C1, at a concrete trace: the started watcher receives one notification
    during its initial run. *)
Lemma coordinator_single_flight_witness :
  run (mkState true [] 1 1 [] true) [Change 7]
  = Some (mkState true [7] 1 1 [] true) /\
  (children (mkState true [7%Z] 1 1 [] true) <= 1)%nat.
Proof.
  split; [reflexivity|].
  exact (proj1 (coordinator_single_flight 0
                  (mkState true [] 1 1 [] true)
                  (mkState true [7] 1 1 [] true)
                  [Change 7] eq_refl eq_refl)).
Defined.

(** C9.  A watcher that starts and gets its connection opened registers its
    listeners and starts one pipeline run in the same turn: before startup
    no change notification can be delivered, and right after it exactly one
    child has been spawned and is in progress, with nothing queued and
    nothing scheduled. *)
Theorem initial_run_on_startup :
  forall now : Z,
    (forall t, step init_state (Change t) = None) /\
    exists s, setupChangeStream true now init_state = Some s /\
      spawned s = 1%nat /\ children s = 1%nat /\ etlRunning s = true /\
      etlQueue s = [] /\ timers s = [] /\ watching s = true.
Proof.
  intros now. split; [reflexivity|].
  eexists; split; [reflexivity|]. cbn. repeat split; reflexivity.
Qed.

End WatcherSpec.

(* ===================================================================== *)
(** * Properties of the load pipeline                                     *)
(* ===================================================================== *)

Module ETLSpec.
Import ETL.
Local Open Scope etl_scope.

(** ** Calendar dates and their keys *)

(** A date of the years 0 to 9999, as [toISOString] prints it with four
    digits. *)
Definition calendar_date (d : Date) : Prop :=
  0 <= year d <= 9999 /\ 1 <= month d <= 12 /\ 1 <= day d <= 31.

Definition same_day (d1 d2 : Date) : Prop :=
  year d1 = year d2 /\ month d1 = month d2 /\ day d1 = day d2.

(** Year, month and day written one after the other in base ten. *)
Definition yyyymmdd (d : Date) : Z :=
  year d * 10000 + month d * 100 + day d.

(** The text [YYYY-MM-DD]. *)
Definition date_text (d : Date) : string :=
  pad4 (year d) (String "-" (pad2 (month d) (String "-" (pad2 (day d) "")))).

(** Every row of [dim_date] carries the key of its date. *)
Definition date_dim_ok (rows : list date_row) : Prop :=
  Forall (fun r => exists d, calendar_date d /\
                     date_value r = date_text d /\ date_key r = yyyymmdd d)
         rows.

(** The measure [plan.planCostShares?.<name> || 0] of a document whose
    [planCostShares] is [pcs]. *)
Definition measure (pcs : value) (name : string) : value :=
  or_else (opt_prop pcs name) (VNum 0).

(** [stats.servicesLoaded++]. *)
Definition count_service (st : Stats) : Stats :=
  mkStats (plansExtracted st) (plansLoaded st) (servicesLoaded st + 1)
          (errors st) (startTime st) (endTime st).

(** The second load is dated like the first: the document carries a
    creation date, or both loads happen on the same day. *)
Definition dated_alike (now1 now2 : Date) (plan : value) : Prop :=
  (exists cd, prop plan "creationDate" = Ret cd /\ truthy cd = true) \/
  before_T (toISOString now1) = before_T (toISOString now2).

(** The four keys are keys of rows of their dimensions. *)
Definition keys_present (keys : Keys) (T : Tables) : Prop :=
  references (keys_plan_key keys) (map plan_key (dim_plan T)) = Ret tt /\
  references (keys_plan_type_key keys) (map plan_type_key (dim_plan_type T))
  = Ret tt /\
  references (keys_org_key keys) (map org_key (dim_organization T)) = Ret tt /\
  references (keys_creation_date_key keys) (map date_key (dim_date T))
  = Ret tt.

Definition prefix {A} (l l' : list A) : Prop := exists more, l' = l ++ more.

(** What a lookup in [dim_organization] depends on: the natural key and
    the surrogate key of every row, in order.  The upsert may rewrite the
    names. *)
Definition org_index (rows : list org_row) : list (string * Z) :=
  map (fun r => (org_id r, org_key r)) rows.

(** [T'] holds every dimension row of [T], under the same keys. *)
Record extends (T T' : Tables) : Prop := mkExtends {
  ext_org : prefix (org_index (dim_organization T))
                   (org_index (dim_organization T'));
  ext_plan_type : prefix (dim_plan_type T) (dim_plan_type T');
  ext_service : prefix (dim_service T) (dim_service T');
  ext_date : prefix (dim_date T) (dim_date T');
  ext_plan : prefix (dim_plan T) (dim_plan T')
}.

(** A document of the collection is an object. *)
Definition is_document (v : value) : Prop :=
  match v with
  | VObj _ => True
  | _ => False
  end.

(** What the statements of one document never touch: the transaction
    snapshot, the connections, the audit log and every counter of [stats]
    but [servicesLoaded]. *)
Definition frame (w w' : World) : Prop :=
  snapshot w' = snapshot w /\
  connections w' = connections w /\
  etl_audit_log (tables w') = etl_audit_log (tables w) /\
  plansExtracted (stats w') = plansExtracted (stats w) /\
  plansLoaded (stats w') = plansLoaded (stats w) /\
  errors (stats w') = errors (stats w) /\
  startTime (stats w') = startTime (stats w) /\
  endTime (stats w') = endTime (stats w).

Definition keeps {A} (m : M A) : Prop :=
  forall w o w', m w = (o, w') -> frame w w'.

(** A linked-service entry of the expected shape: an object whose name is
    a text of at most 255 characters (or is missing), whose identifier is
    such a text or is missing, and whose cost data is missing or holds
    amounts that fit the column. *)
Definition plain_entry (sd : value) : Prop :=
  exists fs s d c,
    sd = VObj fs /\
    or_else (lookup "name" fs) (VStr "Unknown Service") = VStr s /\
    (String.length s <= 255)%nat /\
    (truthy (lookup "objectId" fs) = false \/
     exists i, lookup "objectId" fs = VStr i /\ (String.length i <= 255)%nat) /\
    or_else
      (opt_prop
         (or_else (opt_prop (lookup "linkedService" fs) "planserviceCostShares")
                  (VObj []))
         "deductible") (VNum 0) = VNum d /\
    or_else
      (opt_prop
         (or_else (opt_prop (lookup "linkedService" fs) "planserviceCostShares")
                  (VObj []))
         "copay") (VNum 0) = VNum c /\
    Z.abs d < 100000000 /\ Z.abs c < 100000000 /\ Z.abs (d + c) < 100000000.

(** The three keys a service-cost fact takes from [keys] are keys of rows
    of their dimensions. *)
Definition service_keys_present (keys : Keys) (T : Tables) : Prop :=
  references (keys_plan_key keys) (map plan_key (dim_plan T)) = Ret tt /\
  references (keys_org_key keys) (map org_key (dim_organization T)) = Ret tt /\
  references (keys_creation_date_key keys) (map date_key (dim_date T))
  = Ret tt.

(** A value that is truthy and that PostgreSQL cannot read as a number
    whatever the runtime: [true], an identifier, a date, a list, an
    object. *)
Definition not_an_amount (v : value) : Prop :=
  match v with
  | VBool true | VObjectId _ | VDate _ | VArr _ | VObj _ => True
  | _ => False
  end.

(** The load of [plan] inside its transaction throws. *)
Definition fails `{Runtime} (now : Date) (plan : value) (w : World) : bool :=
  match load_plan now plan (with_snapshot (Some (tables w)) w) with
  | (Throw _, _) => true
  | (Ret _, _) => false
  end.

(** The number of documents of [plans] whose load throws, each in front of
    the warehouse that the documents before it left. *)
Fixpoint failures `{Runtime} (clock : nat -> Date) (i : nat)
    (plans : list value) (w : World) : Z :=
  match plans with
  | [] => 0
  | plan :: rest =>
      (if fails (clock i) plan w then 1 else 0)
      + failures clock (S i) rest (snd (process_plan (clock i) plan w))
  end.

(** The process when the loop of [runETL] starts: both connections are
    open, the start time and the number of documents are recorded. *)
Definition loading `{Runtime} (env : Environment) (t : Tables) (q : Sequences)
  : World :=
  mkWorld t None q
          (mkStats (Z.of_nat (List.length (documents env))) 0 0 0
                   (Some (t_start env)) None)
          (mkConnections true true false).

(** The audit row of a run that found [k] failing documents among [n]. *)
Definition audit_of (env : Environment) (n k : Z) : audit_row :=
  mkAudit "MongoDB to PostgreSQL ETL" "FULL_LOAD"
          (t_start env) 0
          (if k =? 0 then "SUCCESS" else "PARTIAL_SUCCESS")
          n (n - k) 0 k
          (if k >? 0
           then Some (string_of_Z k ++ " plans failed to load")%string
           else None).

Lemma digit_facts n :
  digit_value (digit n) = Some (n mod 10) /\
  Ascii.eqb (digit n) "-" = false /\
  Ascii.eqb (digit n) ":" = false /\
  Ascii.eqb (digit n) "T" = false /\
  forall s, parseInt (String (digit n) s)
            = parse_digits false 0 (String (digit n) s).
Proof.
  unfold digit.
  assert (Hr : 0 <= n mod 10 < 10) by (apply Z.mod_pos_bound; lia).
  remember (n mod 10) as k eqn:E. clear E.
  assert (Hk : k = 0 \/ k = 1 \/ k = 2 \/ k = 3 \/ k = 4 \/
               k = 5 \/ k = 6 \/ k = 7 \/ k = 8 \/ k = 9) by lia.
  clear Hr.
  repeat (destruct Hk as [Hk | Hk]); subst k;
    repeat split; reflexivity.
Qed.

Lemma before_T_digit n s :
  before_T (String (digit n) s) = String (digit n) (before_T s).
Proof.
  cbn [before_T]. destruct (digit_facts n) as (_ & _ & _ & -> & _).
  reflexivity.
Qed.

Lemma strip_separators_digit n s :
  strip_separators (String (digit n) s)
  = String (digit n) (strip_separators s).
Proof.
  cbn [strip_separators].
  destruct (digit_facts n) as (_ & -> & -> & _). reflexivity.
Qed.

Lemma parse_digits_digit seen acc n s :
  parse_digits seen acc (String (digit n) s)
  = parse_digits true (10 * acc + n mod 10) s.
Proof.
  cbn [parse_digits]. destruct (digit_facts n) as (-> & _). reflexivity.
Qed.

Lemma substring_0_0 s : substring 0 0 s = EmptyString.
Proof. destruct s; reflexivity. Qed.

Lemma two_digits n :
  0 <= n <= 99 -> 10 * ((n / 10) mod 10) + n mod 10 = n.
Proof. intros Hn. Z.div_mod_to_equations. lia. Qed.

Lemma four_digits n :
  0 <= n <= 9999 ->
  1000 * ((n / 1000) mod 10) + 100 * ((n / 100) mod 10)
  + 10 * ((n / 10) mod 10) + n mod 10 = n.
Proof. intros Hn. Z.div_mod_to_equations. lia. Qed.

Lemma four_digit_year d :
  calendar_date d -> (0 <=? year d) && (year d <=? 9999) = true.
Proof.
  intros ((Hy0 & Hy1) & _).
  apply andb_true_intro; split; apply Z.leb_le; lia.
Qed.

(** [date.toISOString().split('T')[0]] is the text [YYYY-MM-DD]. *)
Lemma dateStr_calendar d :
  calendar_date d -> before_T (toISOString d) = date_text d.
Proof.
  intros Hd. unfold toISOString. rewrite (four_digit_year d Hd).
  cbv beta iota zeta. unfold date_text, pad4, pad3, pad2.
  repeat match goal with
         | |- context [before_T (String (digit ?n) ?s)] =>
             rewrite (before_T_digit n s)
         | |- context [before_T (String "-" ?s)] =>
             change (before_T (String "-" s)) with (String "-" (before_T s))
         | |- context [before_T (String "T" ?s)] =>
             change (before_T (String "T" s)) with EmptyString
         end.
  reflexivity.
Qed.

(** [parseInt(date.toISOString().replace(/[-:]/g, '').substring(0, 8))]
    is the number [YYYYMMDD]. *)
Lemma dateKey_calendar d :
  calendar_date d ->
  parseInt (substring 0 8 (strip_separators (toISOString d)))
  = Some (yyyymmdd d).
Proof.
  intros Hd. unfold toISOString. rewrite (four_digit_year d Hd).
  cbv beta iota zeta. destruct Hd as (Hy & Hm & Hdd).
  unfold pad4, pad3, pad2.
  repeat match goal with
         | |- context [strip_separators (String (digit ?n) ?s)] =>
             rewrite (strip_separators_digit n s)
         | |- context [strip_separators (String "-" ?s)] =>
             change (strip_separators (String "-" s))
               with (strip_separators s)
         end.
  cbn [substring].
  destruct (digit_facts (year d / 1000)) as (_ & _ & _ & _ & ->).
  repeat match goal with
         | |- context [parse_digits ?b ?acc (String (digit ?n) ?s)] =>
             rewrite (parse_digits_digit b acc n s)
         end.
  replace (substring 0 0 _) with EmptyString
    by (symmetry; apply substring_0_0).
  cbn [parse_digits]. f_equal.
  unfold yyyymmdd.
  pose proof (four_digits (year d) Hy).
  pose proof (two_digits (month d) ltac:(lia)).
  pose proof (two_digits (day d) ltac:(lia)).
  lia.
Qed.

(** Two calendar dates with the same key are the same day. *)
Lemma yyyymmdd_inj d1 d2 :
  calendar_date d1 -> calendar_date d2 ->
  yyyymmdd d1 = yyyymmdd d2 -> same_day d1 d2.
Proof.
  unfold calendar_date, yyyymmdd, same_day. lia.
Qed.

Lemma same_day_text d1 d2 : same_day d1 d2 -> date_text d1 = date_text d2.
Proof.
  intros (Hy & Hm & Hd). unfold date_text. rewrite Hy, Hm, Hd. reflexivity.
Qed.

Lemma same_day_key d1 d2 : same_day d1 d2 -> yyyymmdd d1 = yyyymmdd d2.
Proof.
  intros (Hy & Hm & Hd). unfold yyyymmdd. rewrite Hy, Hm, Hd. reflexivity.
Qed.

Lemma same_day_calendar d1 d2 :
  same_day d1 d2 -> calendar_date d1 -> calendar_date d2.
Proof.
  unfold same_day, calendar_date. intros (<- & <- & <-). auto.
Qed.

Lemma digit_inj a b : digit a = digit b -> a mod 10 = b mod 10.
Proof.
  intros E. destruct (digit_facts a) as (Ha & _).
  destruct (digit_facts b) as (Hb & _). congruence.
Qed.

(** Two calendar dates with the same text are the same day. *)
Lemma date_text_inj d1 d2 :
  calendar_date d1 -> calendar_date d2 ->
  date_text d1 = date_text d2 -> same_day d1 d2.
Proof.
  intros (Hy1 & Hm1 & Hd1) (Hy2 & Hm2 & Hd2) E.
  unfold date_text, pad4, pad3, pad2 in E.
  injection E as E1 E2 E3 E4 E5 E6 E7 E8.
  apply digit_inj in E1, E2, E3, E4, E5, E6, E7, E8.
  pose proof (four_digits (year d1) Hy1).
  pose proof (four_digits (year d2) Hy2).
  pose proof (two_digits (month d1) ltac:(lia)).
  pose proof (two_digits (month d2) ltac:(lia)).
  pose proof (two_digits (day d1) ltac:(lia)).
  pose proof (two_digits (day d2) ltac:(lia)).
  unfold same_day. lia.
Qed.

(** ** Lists: what a [SELECT ... WHERE] finds *)

Lemma filter_nil_existsb {A} (f : A -> bool) (l : list A) :
  filter f l = [] -> existsb f l = false.
Proof.
  induction l as [|a l IH]; cbn; [reflexivity|].
  destruct (f a); [discriminate | exact IH].
Qed.

Lemma filter_cons_In {A} (f : A -> bool) (l : list A) a rest :
  filter f l = a :: rest -> In a l /\ f a = true.
Proof.
  intros E. apply filter_In. rewrite E. left; reflexivity.
Qed.

Lemma filter_app_new {A} (f : A -> bool) (l : list A) a :
  f a = true ->
  filter f (l ++ [a]) = filter f l ++ [a].
Proof.
  intros Ha. rewrite filter_app. cbn. rewrite Ha. reflexivity.
Qed.

Lemma filter_head_app {A} (f : A -> bool) (l l' : list A) a rest :
  filter f l = a :: rest ->
  exists rest', filter f (l ++ l') = a :: rest'.
Proof.
  intros E. rewrite filter_app, E. cbn. eauto.
Qed.

Lemma existsb_key {A} (key : A -> Z) (l : list A) a :
  In a l -> existsb (Z.eqb (key a)) (map key l) = true.
Proof.
  intros Hin. apply existsb_exists. exists (key a). split.
  - apply in_map; exact Hin.
  - apply Z.eqb_refl.
Qed.

(** ** Tables that only grow *)

Lemma prefix_refl {A} (l : list A) : prefix l l.
Proof. exists []. symmetry; apply app_nil_r. Qed.

Lemma prefix_trans {A} (l1 l2 l3 : list A) :
  prefix l1 l2 -> prefix l2 l3 -> prefix l1 l3.
Proof.
  intros [m1 ->] [m2 ->]. exists (m1 ++ m2). symmetry; apply app_assoc.
Qed.

Lemma prefix_app {A} (l more : list A) : prefix l (l ++ more).
Proof. exists more; reflexivity. Qed.

Lemma prefix_of_eq {A} (l l' : list A) : l' = l -> prefix l l'.
Proof. intros ->; apply prefix_refl. Qed.

Lemma extends_trans T1 T2 T3 : extends T1 T2 -> extends T2 T3 -> extends T1 T3.
Proof.
  intros [a1 b1 c1 d1 e1] [a2 b2 c2 d2 e2].
  constructor; eapply prefix_trans; eauto.
Qed.

Lemma filter_head_prefix {A} (f : A -> bool) (l l' : list A) a rest :
  filter f l = a :: rest -> prefix l l' ->
  exists rest', filter f l' = a :: rest'.
Proof.
  intros E [more ->]. eapply filter_head_app; eauto.
Qed.

Lemma references_prefix {A} (key : A -> Z) k (l l' : list A) :
  references k (map key l) = Ret tt -> prefix l l' ->
  references k (map key l') = Ret tt.
Proof.
  unfold references. intros E [more ->].
  destruct (existsb (Z.eqb k) (map key l)) eqn:X; [|discriminate].
  rewrite map_app, existsb_app, X. reflexivity.
Qed.

Lemma org_keys_of_index rows : map org_key rows = map snd (org_index rows).
Proof.
  unfold org_index. rewrite map_map. reflexivity.
Qed.

Lemma references_org_prefix k rows rows' :
  references k (map org_key rows) = Ret tt ->
  prefix (org_index rows) (org_index rows') ->
  references k (map org_key rows') = Ret tt.
Proof.
  rewrite !org_keys_of_index. apply references_prefix.
Qed.

Lemma find_org_prefix id : forall rows rows' r,
  find (has_org_id id) rows = Some r ->
  prefix (org_index rows) (org_index rows') ->
  exists r', find (has_org_id id) rows' = Some r' /\ org_key r' = org_key r.
Proof.
  induction rows as [|x rows IH]; intros rows' r Hf [more Hm]; [discriminate|].
  destruct rows' as [|x' rows']; [discriminate|].
  cbn in Hm. injection Hm as Hid Hkey Hrest.
  cbn [find] in *. unfold has_org_id at 1. unfold has_org_id at 1 in Hf.
  rewrite Hid. destruct (String.eqb (org_id x) id).
  - injection Hf as <-. eauto.
  - apply (IH rows' r Hf). exists more. exact Hrest.
Qed.

(** ** Reading a computation backwards *)

Lemma bind_inv {A B} (m : M A) (k : A -> M B) w b w' :
  bind m k w = (Ret b, w') ->
  exists a w1, m w = (Ret a, w1) /\ k a w1 = (Ret b, w').
Proof.
  unfold bind. destruct (m w) as [[a|e] w1]; [eauto | discriminate].
Qed.

Lemma lift_inv {A} (o : outcome A) w a w' :
  lift o w = (Ret a, w') -> o = Ret a /\ w' = w.
Proof. unfold lift. intros [= -> ->]. auto. Qed.

Lemma bind_lift {A B} (o : outcome A) (k : A -> M B) a w :
  o = Ret a -> bind (lift o) k w = k a w.
Proof. intros ->. reflexivity. Qed.

Lemma bind_run {A B} (m : M A) (k : A -> M B) a w w1 :
  m w = (Ret a, w1) -> bind m k w = k a w1.
Proof. unfold bind. intros ->. reflexivity. Qed.

Lemma bind_ret {A B} (a : A) (k : A -> M B) w : bind (ret a) k w = k a w.
Proof. reflexivity. Qed.

Lemma bind_bind {A B C} (m : M A) (f : A -> M B) (k : B -> M C) w :
  bind (bind m f) k w = bind m (fun x => bind (f x) k) w.
Proof. unfold bind. destruct (m w) as [[a|e] w1]; reflexivity. Qed.

(** Take the first step of a sequence apart; a step that only reads or
    writes the state is resolved on the spot. *)
Ltac step H :=
  let a := fresh "x" in
  let w := fresh "w" in
  let H1 := fresh "H" in
  apply bind_inv in H; destruct H as (a & w & H1 & H);
  try (apply lift_inv in H1; destruct H1 as [H1 ->];
       try (injection H1 as <-)).

Tactic Notation "first_step" hyp(H) "as" ident(a) ident(Hn) :=
  let w := fresh "w" in
  apply bind_inv in H; destruct H as (a & w & Hn & H);
  try (apply lift_inv in Hn; destruct Hn as [Hn ->];
       try (injection Hn as <-)).

Section WithRuntime.
Context `{RT : Runtime}.

(** ** The date dimension *)

Lemma select_date_key_eq s w :
  pg_date_ok (VStr s) = true ->
  select_date_key s w
  = (Ret (map date_key (filter (has_date_value s) (dim_date (tables w)))), w).
Proof.
  intros Hok. unfold select_date_key, bind, lift, gets, pg_date.
  rewrite Hok. reflexivity.
Qed.

(** A row with the key of [d] in a well-kept [dim_date] is the row of
    [d]'s day. *)
Lemma date_key_found_by_value rows d :
  date_dim_ok rows -> calendar_date d ->
  filter (has_date_value (date_text d)) rows = [] ->
  existsb (has_date_key (yyyymmdd d)) rows = false.
Proof.
  intros Hok Hd Hnone.
  destruct (existsb (has_date_key (yyyymmdd d)) rows) eqn:E; [|reflexivity].
  apply existsb_exists in E. destruct E as (r & Hin & Hk).
  unfold has_date_key in Hk. apply Z.eqb_eq in Hk.
  pose proof (proj1 (Forall_forall _ _) Hok r Hin) as (d' & Hd' & Hv & Hk').
  assert (Hs : same_day d' d).
  { apply yyyymmdd_inj; auto. congruence. }
  assert (Hf : In r (filter (has_date_value (date_text d)) rows)).
  { apply filter_In. split; [exact Hin|].
    unfold has_date_value. rewrite Hv, (same_day_text _ _ Hs).
    apply String.eqb_refl. }
  rewrite Hnone in Hf. destruct Hf.
Qed.

Lemma date_value_found_key rows d r rest :
  date_dim_ok rows -> calendar_date d ->
  filter (has_date_value (date_text d)) rows = r :: rest ->
  date_key r = yyyymmdd d.
Proof.
  intros Hok Hd Hf. apply filter_cons_In in Hf. destruct Hf as [Hin Hv].
  unfold has_date_value in Hv. apply String.eqb_eq in Hv.
  pose proof (proj1 (Forall_forall _ _) Hok r Hin) as (d' & Hd' & Hv' & Hk').
  rewrite Hk'. apply same_day_key. apply date_text_inj; auto. congruence.
Qed.

(** What [getOrCreateDateKey] does on a calendar date that the store
    accepts, in front of a well-kept [dim_date]: it returns [YYYYMMDD], and
    the only change it can make is the new row of that date. *)
Lemma getOrCreateDateKey_calendar v d w :
  to_Date v = Some d -> calendar_date d ->
  pg_date_ok (VStr (date_text d)) = true ->
  date_dim_ok (dim_date (tables w)) ->
  exists w1,
    getOrCreateDateKey v w = (Ret (yyyymmdd d), w1) /\
    date_dim_ok (dim_date (tables w1)) /\
    (exists r rest,
       filter (has_date_value (date_text d)) (dim_date (tables w1))
       = r :: rest) /\
    (w1 = w \/
     w1 = with_tables
            (set_dim_date
               (dim_date (tables w) ++ [mkDateRow (yyyymmdd d) (date_text d)])
               (tables w)) w /\
     filter (has_date_value (date_text d)) (dim_date (tables w)) = []).
Proof.
  intros Hv Hd Hpg Hok.
  unfold getOrCreateDateKey. rewrite Hv, (dateStr_calendar d Hd).
  unfold bind at 1. rewrite (select_date_key_eq _ _ Hpg).
  destruct (filter (has_date_value (date_text d)) (dim_date (tables w)))
    as [|r rest] eqn:F; cbn [map].
  - rewrite (dateKey_calendar d Hd).
    unfold insert_dim_date, bind, lift, gets, pg_date, update_tables, modify,
      ret, throw.
    rewrite Hpg, (filter_nil_existsb _ _ F),
      (date_key_found_by_value _ _ Hok Hd F).
    eexists. split; [reflexivity|]. cbn. split; [|split].
    + apply Forall_app; split; [exact Hok|].
      constructor; [|constructor]. exists d. cbn. auto.
    + rewrite filter_app_new, F by apply String.eqb_refl. cbn. eauto.
    + right. split; reflexivity.
  - exists w. split; [|split; [|split]].
    + unfold ret. rewrite (date_value_found_key _ _ _ _ Hok Hd F). reflexivity.
    + exact Hok.
    + eauto.
    + left; reflexivity.
Qed.

(** C4.  For two [Date] values of the same calendar day (year 0 to 9999),
    obtained from whatever the documents hold, in front of a [dim_date]
    whose rows all carry the key of their date and of a store that accepts
    the date: [getOrCreateDateKey] returns the integer
    [year * 10000 + month * 100 + day], that is [YYYYMMDD], on the first
    call, whether it finds the row or creates it, and the same integer on
    the second call, which then changes nothing. *)
Theorem dateKey_deterministic :
  forall (w : World) (v1 v2 : value) (d1 d2 : Date),
    to_Date v1 = Some d1 -> to_Date v2 = Some d2 ->
    calendar_date d1 -> same_day d1 d2 ->
    pg_date_ok (VStr (date_text d1)) = true ->
    date_dim_ok (dim_date (tables w)) ->
    exists w1,
      getOrCreateDateKey v1 w = (Ret (yyyymmdd d1), w1) /\
      getOrCreateDateKey v2 w1 = (Ret (yyyymmdd d1), w1) /\
      yyyymmdd d1 = year d1 * 10000 + month d1 * 100 + day d1 /\
      date_dim_ok (dim_date (tables w1)).
Proof.
  intros w v1 v2 d1 d2 H1 H2 Hd Hs Hpg Hok.
  destruct (getOrCreateDateKey_calendar v1 d1 w H1 Hd Hpg Hok)
    as (w1 & Hrun & Hok1 & (r & rest & Hfound) & _).
  exists w1. split; [exact Hrun|]. split; [|split; [reflexivity | exact Hok1]].
  assert (Hd2 : calendar_date d2) by (eapply same_day_calendar; eauto).
  assert (Hpg2 : pg_date_ok (VStr (date_text d2)) = true)
    by (rewrite <- (same_day_text _ _ Hs); exact Hpg).
  destruct (getOrCreateDateKey_calendar v2 d2 w1 H2 Hd2 Hpg2 Hok1)
    as (w2 & Hrun2 & _ & _ & [-> | [_ Hnone]]).
  - rewrite Hrun2, <- (same_day_key _ _ Hs). reflexivity.
  - rewrite <- (same_day_text _ _ Hs), Hfound in Hnone. discriminate.
Qed.

(** ** The organization dimension *)

Lemma varchar_inv n s s' : varchar n s = Ret s' -> s' = s.
Proof.
  unfold varchar. destruct (Nat.leb (String.length s) n); congruence.
Qed.

(** The rewriting of [ON CONFLICT ... DO UPDATE] keeps every natural key
    and every surrogate key. *)
Lemma org_index_update id name rows :
  org_index
    (map (fun r' => if has_org_id id r'
                    then mkOrg (org_key r') (org_id r') name else r') rows)
  = org_index rows.
Proof.
  unfold org_index. rewrite map_map. apply map_ext.
  intros r. destruct (has_org_id id r); reflexivity.
Qed.

Lemma find_org_update id name : forall rows r,
  find (has_org_id id) rows = Some r ->
  find (has_org_id id)
       (map (fun r' => if has_org_id id r'
                       then mkOrg (org_key r') (org_id r') name else r') rows)
  = Some (mkOrg (org_key r) id name).
Proof.
  induction rows as [|x rows IH]; intros r Hf; [discriminate|].
  cbn [map find] in *. destruct (has_org_id id x) eqn:E.
  - injection Hf as <-. unfold has_org_id in *. cbn [org_id].
    rewrite E. apply String.eqb_eq in E. rewrite E. reflexivity.
  - rewrite E. apply IH; exact Hf.
Qed.

Lemma find_org_app_new id k name : forall rows,
  find (has_org_id id) rows = None ->
  find (has_org_id id) (rows ++ [mkOrg k id name]) = Some (mkOrg k id name).
Proof.
  induction rows as [|x rows IH]; cbn [app find]; intros Hn.
  - unfold has_org_id; cbn. rewrite String.eqb_refl. reflexivity.
  - destruct (has_org_id id x); [discriminate | auto].
Qed.

(** The upsert, read backwards. *)
Lemma upsert_dim_organization_inv orgId orgName w rows w' :
  upsert_dim_organization orgId orgName w = (Ret rows, w') ->
  varchar 255 (pg_text orgId) = Ret (pg_text orgId) /\
  varchar 255 (pg_text orgName) = Ret (pg_text orgName) /\
  exists r rows',
    rows = [org_key r] /\
    find (has_org_id (pg_text orgId)) rows'
    = Some (mkOrg (org_key r) (pg_text orgId) (pg_text orgName)) /\
    prefix (org_index (dim_organization (tables w))) (org_index rows') /\
    tables w' = set_dim_organization rows' (tables w).
Proof.
  unfold upsert_dim_organization. intros H.
  step H. pose proof (varchar_inv _ _ _ H0) as ->.
  step H. pose proof (varchar_inv _ _ _ H1) as ->.
  step H. step H. cbn [tables with_sequences] in H.
  split; [exact H0|]. split; [exact H1|].
  destruct (find (has_org_id (pg_text orgId)) (dim_organization (tables w)))
    as [r|] eqn:F.
  - step H. unfold ret in H. injection H as <- <-.
    exists r. eexists. split; [reflexivity|]. split; [|split].
    + apply find_org_update. exact F.
    + rewrite org_index_update. apply prefix_refl.
    + reflexivity.
  - step H. unfold ret in H. injection H as <- <-.
    exists (mkOrg (org_key_seq (sequences w) + 1) (pg_text orgId)
                  (pg_text orgName)).
    eexists. split; [reflexivity|]. split; [|split].
    + apply find_org_app_new. exact F.
    + unfold org_index. rewrite map_app. apply prefix_app.
    + reflexivity.
Qed.

(** The upsert on a table that already holds the organization. *)
Lemma upsert_dim_organization_found orgId orgName w r :
  varchar 255 (pg_text orgId) = Ret (pg_text orgId) ->
  varchar 255 (pg_text orgName) = Ret (pg_text orgName) ->
  find (has_org_id (pg_text orgId)) (dim_organization (tables w)) = Some r ->
  exists w' rows',
    upsert_dim_organization orgId orgName w = (Ret [org_key r], w') /\
    tables w' = set_dim_organization rows' (tables w) /\
    org_index rows' = org_index (dim_organization (tables w)).
Proof.
  intros H1 H2 F. unfold upsert_dim_organization.
  rewrite (bind_lift _ _ _ _ H1), (bind_lift _ _ _ _ H2).
  unfold bind, nextval_org_key, gets, update_tables, modify, ret.
  cbn [tables with_sequences]. rewrite F.
  eexists; eexists. split; [reflexivity|]. split; [reflexivity|].
  apply org_index_update.
Qed.

(** The organization block: what a successful pass leaves, and what a
    later pass over a warehouse that kept the row does. *)
Lemma organization_dimension_inv plan w k w' :
  organization_dimension plan w = (Ret k, w') ->
  exists org rows',
    prop plan "_org" = Ret org /\
    find (has_org_id (pg_text (or_else org (VStr "unknown")))) rows'
    = Some (mkOrg k (pg_text (or_else org (VStr "unknown")))
                  (pg_text (or_else org (VStr "Unknown Organization")))) /\
    prefix (org_index (dim_organization (tables w))) (org_index rows') /\
    tables w' = set_dim_organization rows' (tables w) /\
    forall w2,
      prefix (org_index rows') (org_index (dim_organization (tables w2))) ->
      exists w2' rows2,
        organization_dimension plan w2 = (Ret k, w2') /\
        tables w2' = set_dim_organization rows2 (tables w2) /\
        org_index rows2 = org_index (dim_organization (tables w2)).
Proof.
  unfold organization_dimension. intros H.
  step H. step H.
  apply upsert_dim_organization_inv in H1.
  destruct H1 as (V1 & V2 & r & rows' & -> & F & P & T).
  apply lift_inv in H. destruct H as [H ->]. cbn in H. injection H as <-.
  exists x, rows'. repeat split; auto.
  intros w2 P2.
  destruct (find_org_prefix _ _ _ _ F P2) as (r2 & F2 & K2). cbn in K2.
  destruct (upsert_dim_organization_found _ _ w2 r2 V1 V2 F2)
    as (w2' & rows2 & U & T2 & I2).
  exists w2', rows2. split; [|split; assumption].
  rewrite (bind_lift _ _ _ _ H0), (bind_run _ _ _ _ _ U), K2. reflexivity.
Qed.

(** ** The plan-type dimension *)

Lemma plan_type_dimension_inv plan w k w' :
  plan_type_dimension plan w = (Ret k, w') ->
  exists pt code rows' r rest,
    prop plan "planType" = Ret pt /\
    normalize_code (or_else pt (VStr "unknown")) = Ret code /\
    filter (has_plan_type_code code) rows' = r :: rest /\
    plan_type_key r = k /\ plan_type_code r = code /\
    prefix (dim_plan_type (tables w)) rows' /\
    tables w' = set_dim_plan_type rows' (tables w) /\
    forall w2,
      prefix rows' (dim_plan_type (tables w2)) ->
      plan_type_dimension plan w2 = (Ret k, w2).
Proof.
  unfold plan_type_dimension. intros H.
  step H. step H. step H. cbn [tables] in H.
  assert (Again : forall rows' r rest,
             filter (has_plan_type_code x0) rows' = r :: rest ->
             forall w2, prefix rows' (dim_plan_type (tables w2)) ->
             bind (lift (prop plan "planType"))
               (fun pt =>
                  bind (lift (normalize_code (or_else pt (VStr "unknown"))))
                    (fun planTypeCode =>
                       bind (select_plan_type_key planTypeCode)
                         (fun existingPlanType =>
                            match existingPlanType with
                            | [] =>
                                bind (insert_dim_plan_type planTypeCode
                                        (or_else pt (VStr "unknown")))
                                     (fun planTypeResult =>
                                        lift (first_row planTypeResult))
                            | k0 :: _ => ret k0
                            end))) w2
             = (Ret (plan_type_key r), w2)).
  { intros rows' r rest F w2 P2.
    rewrite (bind_lift _ _ _ _ H0), (bind_lift _ _ _ _ H1).
    unfold bind at 1, select_plan_type_key, gets.
    destruct (filter_head_prefix _ _ _ _ _ F P2) as (rest' & ->).
    reflexivity. }
  destruct (filter (has_plan_type_code x0) (dim_plan_type (tables w)))
    as [|r rest] eqn:F; cbn [map] in H.
  - step H. rename H2 into I. unfold insert_dim_plan_type in I.
    step I. pose proof (varchar_inv _ _ _ H2) as ->.
    step I. pose proof (varchar_inv _ _ _ H3) as ->.
    step I. step I. cbn [tables with_sequences] in I.
    rewrite (filter_nil_existsb _ _ F) in I.
    step I. unfold ret in I. injection I as <- <-.
    apply lift_inv in H. destruct H as [H ->]. cbn in H. injection H as <-.
    set (new := mkPlanType (plan_type_key_seq (sequences w) + 1) x0
                           (pg_text (or_else x (VStr "unknown")))).
    assert (Fn : filter (has_plan_type_code x0)
                        (dim_plan_type (tables w) ++ [new]) = [new]).
    { rewrite filter_app_new, F; [reflexivity|].
      unfold has_plan_type_code; cbn. apply String.eqb_refl. }
    exists x, x0, (dim_plan_type (tables w) ++ [new]), new, [].
    repeat split; auto.
    + apply prefix_app.
    + intros w2 P2. apply (Again _ _ _ Fn w2 P2).
  - unfold ret in H. injection H as <- <-.
    exists x, x0, (dim_plan_type (tables w)), r, rest.
    destruct (filter_cons_In _ _ _ _ F) as [_ Hc].
    unfold has_plan_type_code in Hc. apply String.eqb_eq in Hc.
    repeat split; auto.
    + apply prefix_refl.
    + destruct (tables w); reflexivity.
    + intros w2 P2. apply (Again _ _ _ F w2 P2).
Qed.

(** ** The date dimension, for any date *)

Lemma getOrCreateDateKey_inv v w k w' :
  getOrCreateDateKey v w = (Ret k, w') ->
  exists d rows' r rest,
    to_Date v = Some d /\
    pg_date_ok (VStr (before_T (toISOString d))) = true /\
    filter (has_date_value (before_T (toISOString d))) rows' = r :: rest /\
    date_key r = k /\
    prefix (dim_date (tables w)) rows' /\
    tables w' = set_dim_date rows' (tables w) /\
    forall v2 d2 w2,
      to_Date v2 = Some d2 ->
      before_T (toISOString d2) = before_T (toISOString d) ->
      prefix rows' (dim_date (tables w2)) ->
      getOrCreateDateKey v2 w2 = (Ret k, w2).
Proof.
  unfold getOrCreateDateKey. intros H.
  destruct (to_Date v) as [d|] eqn:D; [|discriminate].
  set (dateStr := before_T (toISOString d)) in *.
  step H. unfold select_date_key in H0. step H0.
  unfold pg_date in H1.
  destruct (pg_date_ok (VStr dateStr)) eqn:Hpg; [|discriminate]. clear H1.
  apply lift_inv in H0. destruct H0 as [H0 ->]. injection H0 as <-.
  assert (Again : forall rows' r rest,
             filter (has_date_value dateStr) rows' = r :: rest ->
             forall v2 d2 w2, to_Date v2 = Some d2 ->
               before_T (toISOString d2) = dateStr ->
               prefix rows' (dim_date (tables w2)) ->
               getOrCreateDateKey v2 w2 = (Ret (date_key r), w2)).
  { intros rows' r rest F v2 d2 w2 D2 E2 P2.
    unfold getOrCreateDateKey. rewrite D2, E2.
    rewrite (bind_run _ _ _ _ _ (select_date_key_eq _ w2 Hpg)).
    destruct (filter_head_prefix _ _ _ _ _ F P2) as (rest' & ->).
    reflexivity. }
  destruct (filter (has_date_value dateStr) (dim_date (tables w)))
    as [|r rest] eqn:F; cbn [map] in H.
  - step H. rename H0 into I. unfold insert_dim_date in I.
    destruct (parseInt (substring 0 8 (strip_separators (toISOString d))))
      as [key|]; [|discriminate].
    step I. clear H0. step I. cbn [tables] in I.
    rewrite (filter_nil_existsb _ _ F) in I.
    destruct (existsb (has_date_key key) (dim_date (tables w)));
      [discriminate|].
    step I. unfold ret in I. injection I as <- <-.
    unfold ret in H. injection H as <- <-.
    set (new := mkDateRow key dateStr).
    assert (Fn : filter (has_date_value dateStr) (dim_date (tables w) ++ [new])
                 = [new]).
    { rewrite filter_app_new, F; [reflexivity|].
      unfold has_date_value; cbn. apply String.eqb_refl. }
    exists d, (dim_date (tables w) ++ [new]), new, [].
    repeat split; auto.
    + apply prefix_app.
    + intros v2 d2 w2. apply (Again _ _ _ Fn).
  - unfold ret in H. injection H as <- <-.
    exists d, (dim_date (tables w)), r, rest.
    repeat split; auto.
    + apply prefix_refl.
    + destruct (tables w); reflexivity.
    + intros v2 d2 w2. apply (Again _ _ _ F).
Qed.

(** ** The plan dimension *)

(** [plan.objectId || plan._id.toString()] reads the document only. *)
Lemma plan_id_pure plan oid w planId w1 :
  (if truthy oid then ret oid
   else bind (lift (prop plan "_id")) (fun id => lift (method_toString id))) w
  = (Ret planId, w1) ->
  w1 = w /\
  forall w2,
    (if truthy oid then ret oid
     else bind (lift (prop plan "_id")) (fun id => lift (method_toString id)))
      w2
    = (Ret planId, w2).
Proof.
  destruct (truthy oid).
  - unfold ret. intros [= -> ->]. auto.
  - intros H. step H. apply lift_inv in H. destruct H as [H ->].
    split; [reflexivity|]. intros w2.
    rewrite (bind_lift _ _ _ _ H0). unfold lift. rewrite H. reflexivity.
Qed.

Lemma plan_dimension_inv plan ptk ok cd w k w' :
  plan_dimension plan ptk ok cd w = (Ret k, w') ->
  exists rows' r,
    In r rows' /\ plan_key r = k /\
    prefix (dim_plan (tables w)) rows' /\
    tables w' = set_dim_plan rows' (tables w) /\
    forall ptk2 ok2 cd2 w2,
      prefix rows' (dim_plan (tables w2)) ->
      plan_dimension plan ptk2 ok2 cd2 w2 = (Ret k, w2).
Proof.
  unfold plan_dimension. intros H.
  step H. step H. apply plan_id_pure in H1. destruct H1 as [-> Pure].
  step H. cbn [tables] in H.
  assert (Again : forall rows' r rest,
             filter (has_plan_id (pg_text x0)) rows' = r :: rest ->
             forall ptk2 ok2 cd2 w2, prefix rows' (dim_plan (tables w2)) ->
               plan_dimension plan ptk2 ok2 cd2 w2 = (Ret (plan_key r), w2)).
  { intros rows' r rest F ptk2 ok2 cd2 w2 P2. unfold plan_dimension.
    rewrite (bind_lift _ _ _ _ H0), (bind_run _ _ _ _ _ (Pure w2)).
    unfold bind at 1, select_plan_key, gets.
    destruct (filter_head_prefix _ _ _ _ _ F P2) as (rest' & ->).
    reflexivity. }
  destruct (filter (has_plan_id (pg_text x0)) (dim_plan (tables w)))
    as [|r rest] eqn:F; cbn [map] in H.
  - step H. rename H1 into I. unfold insert_dim_plan in I.
    step I. pose proof (varchar_inv _ _ _ H1) as ->.
    step I. step I. step I. step I. step I. step I.
    unfold ret in I. injection I as <- <-.
    apply lift_inv in H. destruct H as [H ->]. cbn in H. injection H as <-.
    cbn [tables with_sequences] in *.
    set (new := mkPlan (plan_key_seq (sequences w) + 1) (pg_text x0) ptk ok
                       true cd VNull).
    assert (Fn : filter (has_plan_id (pg_text x0)) (dim_plan (tables w) ++ [new])
                 = [new]).
    { rewrite filter_app_new, F; [reflexivity|].
      unfold has_plan_id; cbn. apply String.eqb_refl. }
    exists (dim_plan (tables w) ++ [new]), new.
    repeat split; auto.
    + apply in_or_app. right. left. reflexivity.
    + apply prefix_app.
    + intros ptk2 ok2 cd2 w2. apply (Again _ _ _ Fn).
  - unfold ret in H. injection H as <- <-.
    exists (dim_plan (tables w)), r.
    repeat split; auto.
    + apply (filter_cons_In _ _ _ _ F).
    + apply prefix_refl.
    + destruct (tables w); reflexivity.
    + intros ptk2 ok2 cd2 w2. apply (Again _ _ _ F).
Qed.

(** ** The plan-cost fact *)

Lemma loadPlanFacts_inv plan keys w w' :
  loadPlanFacts plan keys w = (Ret tt, w') ->
  exists pcs d c t,
    prop plan "planCostShares" = Ret pcs /\
    numeric (measure pcs "deductible") = Ret d /\
    numeric (measure pcs "copay") = Ret c /\
    numeric (js_add (measure pcs "deductible") (measure pcs "copay")) = Ret t /\
    w' = with_tables
           (set_fact_plan_costs
              (fact_plan_costs (tables w) ++
               [mkPlanCost (keys_plan_key keys) (keys_plan_type_key keys)
                           (keys_org_key keys) (keys_creation_date_key keys)
                           d c t])
              (tables w)) w /\
    forall w2,
      extends (tables w) (tables w2) ->
      loadPlanFacts plan keys w2
      = (Ret tt,
         with_tables
           (set_fact_plan_costs
              (fact_plan_costs (tables w2) ++
               [mkPlanCost (keys_plan_key keys) (keys_plan_type_key keys)
                           (keys_org_key keys) (keys_creation_date_key keys)
                           d c t])
              (tables w2)) w2).
Proof.
  unfold loadPlanFacts, insert_fact_plan_costs. intros H.
  step H. step H. cbv zeta in H.
  step H. step H. step H. step H. step H. step H. step H. step H.
  unfold update_tables, modify in H. injection H as <-.
  destruct x4, x5, x6, x7.
  exists x, x1, x2, x3. repeat split; auto.
  intros w2 [Eo Ept Es Ed Ep].
  rewrite (bind_lift _ _ _ _ H0), (bind_lift _ _ _ _ H1). cbv zeta.
  rewrite (bind_lift _ _ _ _ H2), (bind_lift _ _ _ _ H3),
    (bind_lift _ _ _ _ H4).
  unfold bind at 1, gets.
  rewrite (bind_lift _ _ _ _ (references_prefix _ _ _ _ H5 Ep)).
  rewrite (bind_lift _ _ _ _ (references_prefix _ _ _ _ H6 Ept)).
  rewrite (bind_lift _ _ _ _ (references_org_prefix _ _ _ H7 Eo)).
  rewrite (bind_lift _ _ _ _ (references_prefix _ _ _ _ H8 Ed)).
  reflexivity.
Qed.


(** ** The service-cost facts *)

(** [serviceData.objectId || serviceName.toLowerCase().replace(...)] reads
    the entry only. *)
Lemma service_id_pure oid serviceName w serviceId w1 :
  (if truthy oid then ret oid
   else bind (lift (normalize_code serviceName)) (fun code => ret (VStr code)))
    w = (Ret serviceId, w1) ->
  w1 = w /\
  forall w2,
    (if truthy oid then ret oid
     else bind (lift (normalize_code serviceName))
               (fun code => ret (VStr code))) w2
    = (Ret serviceId, w2).
Proof.
  destruct (truthy oid).
  - unfold ret. intros [= -> ->]. auto.
  - intros H. step H. unfold ret in H. injection H as <- <-.
    split; [reflexivity|]. intros w2.
    rewrite (bind_lift _ _ _ _ H0). reflexivity.
Qed.

(** The service block of one entry: a service row found or created. *)
Lemma service_dimension_inv serviceId serviceName w k w' :
  match map service_key
            (filter (has_service_id (pg_text serviceId))
                    (dim_service (tables w))) with
  | k :: _ => ret k
  | [] =>
      bind (insert_dim_service serviceId serviceName "Healthcare Service")
           (fun serviceResult => lift (first_row serviceResult))
  end w = (Ret k, w') ->
  exists rows' r,
    In r rows' /\ service_key r = k /\
    prefix (dim_service (tables w)) rows' /\
    tables w' = set_dim_service rows' (tables w) /\
    snapshot w' = snapshot w /\ stats w' = stats w /\
    connections w' = connections w /\
    forall name2 w2,
      prefix rows' (dim_service (tables w2)) ->
      match map service_key
                (filter (has_service_id (pg_text serviceId))
                        (dim_service (tables w2))) with
      | k :: _ => ret k
      | [] =>
          bind (insert_dim_service serviceId name2 "Healthcare Service")
               (fun serviceResult => lift (first_row serviceResult))
      end w2 = (Ret k, w2).
Proof.
  intros H.
  assert (Again : forall rows' r rest,
             filter (has_service_id (pg_text serviceId)) rows' = r :: rest ->
             forall name2 w2, prefix rows' (dim_service (tables w2)) ->
             match map service_key
                       (filter (has_service_id (pg_text serviceId))
                               (dim_service (tables w2))) with
             | k :: _ => ret k
             | [] =>
                 bind (insert_dim_service serviceId name2 "Healthcare Service")
                      (fun serviceResult => lift (first_row serviceResult))
             end w2 = (Ret (service_key r), w2)).
  { intros rows' r rest F name2 w2 P2.
    destruct (filter_head_prefix _ _ _ _ _ F P2) as (rest' & ->).
    reflexivity. }
  destruct (filter (has_service_id (pg_text serviceId)) (dim_service (tables w)))
    as [|r rest] eqn:F; cbn [map] in H.
  - step H. rename H0 into I. unfold insert_dim_service in I.
    step I. pose proof (varchar_inv _ _ _ H0) as ->.
    step I. pose proof (varchar_inv _ _ _ H1) as ->.
    step I.
    step I. step I. cbn [tables with_sequences] in I.
    rewrite (filter_nil_existsb _ _ F) in I.
    step I. unfold ret in I. injection I as <- <-.
    apply lift_inv in H. destruct H as [H ->]. cbn in H. injection H as <-.
    set (new := mkService (service_key_seq (sequences w) + 1)
                          (pg_text serviceId) (pg_text serviceName)
                          "Healthcare Service").
    assert (Fn : filter (has_service_id (pg_text serviceId))
                        (dim_service (tables w) ++ [new]) = [new]).
    { rewrite filter_app_new, F; [reflexivity|].
      unfold has_service_id; cbn. apply String.eqb_refl. }
    exists (dim_service (tables w) ++ [new]), new.
    repeat split; auto.
    + apply in_or_app. right. left. reflexivity.
    + apply prefix_app.
    + intros name2 w2. apply (Again _ _ _ Fn).
  - unfold ret in H. injection H as <- <-.
    exists (dim_service (tables w)), r.
    repeat split; auto.
    + apply (filter_cons_In _ _ _ _ F).
    + apply prefix_refl.
    + destruct (tables w); reflexivity.
    + intros name2 w2. apply (Again _ _ _ F).
Qed.

(** One entry of the list: the row it adds, and what a later pass over a
    warehouse that kept the dimension rows does. *)
Lemma loadServiceFact_inv keys sd w w' :
  loadServiceFact keys sd w = (Ret tt, w') ->
  exists rows' sk ls dv cv d c t,
    prop sd "linkedService" = Ret ls /\
    prop (or_else (opt_prop ls "planserviceCostShares") (VObj [])) "deductible"
    = Ret dv /\
    prop (or_else (opt_prop ls "planserviceCostShares") (VObj [])) "copay"
    = Ret cv /\
    numeric (or_else dv (VNum 0)) = Ret d /\
    numeric (or_else cv (VNum 0)) = Ret c /\
    numeric (js_add (or_else dv (VNum 0)) (or_else cv (VNum 0))) = Ret t /\
    prefix (dim_service (tables w)) rows' /\
    tables w'
    = set_fact_service_costs
        (fact_service_costs (tables w) ++
         [mkServiceCost sk (keys_plan_key keys) (keys_org_key keys)
                        (keys_creation_date_key keys) d c t])
        (set_dim_service rows' (tables w)) /\
    snapshot w' = snapshot w /\ connections w' = connections w /\
    forall w2,
      extends (tables w') (tables w2) ->
      loadServiceFact keys sd w2
      = (Ret tt,
         with_stats (count_service (stats w2))
           (with_tables
              (set_fact_service_costs
                 (fact_service_costs (tables w2) ++
                  [mkServiceCost sk (keys_plan_key keys) (keys_org_key keys)
                                 (keys_creation_date_key keys) d c t])
                 (tables w2)) w2)).
Proof.
  unfold loadServiceFact. intros H.
  first_step H as name Hname. first_step H as oid Hoid. first_step H as serviceId Hid.
  apply service_id_pure in Hid. destruct Hid as [-> Pure].
  first_step H as existing Hsel. first_step H as sk Hdim. cbn [tables] in Hdim.
  apply service_dimension_inv in Hdim.
  destruct Hdim as (rows' & r & Hin & Hk & P & T & Sn & St & Cn & Again).
  first_step H as ls Hls. first_step H as dv Hdv. first_step H as cv Hcv.
  first_step H as u I. destruct u. unfold insert_fact_service_costs in I.
  first_step I as d Hd. first_step I as c Hc. first_step I as t Ht. first_step I as T0 HT.
  first_step I as u1 R1. first_step I as u2 R2. first_step I as u3 R3. first_step I as u4 R4.
  destruct u1, u2, u3, u4.
  unfold update_tables, modify in I. injection I as <-.
  unfold update_stats, modify in H. injection H as <-.
  rewrite T in *. cbn [dim_service dim_plan dim_organization dim_date
                       set_dim_service fact_service_costs] in *.
  exists rows', sk, ls, dv, cv, d, c, t.
  repeat split; auto.
  intros w2 [Eo Ept Es Ed Ep].
  cbn [tables with_stats with_tables set_fact_service_costs set_dim_service
       dim_organization dim_plan_type dim_service dim_date dim_plan]
    in Eo, Ept, Es, Ed, Ep.
  rewrite (bind_lift _ _ _ _ Hname). cbv zeta.
  rewrite (bind_lift _ _ _ _ Hoid), (bind_run _ _ _ _ _ (Pure w2)).
  unfold bind at 1, select_service_key, gets.
  rewrite (bind_run _ _ _ _ _ (Again _ w2 Es)).
  rewrite (bind_lift _ _ _ _ Hls). cbv zeta.
  rewrite (bind_lift _ _ _ _ Hdv), (bind_lift _ _ _ _ Hcv).
  unfold insert_fact_service_costs.
  unfold bind at 1.
  rewrite (bind_lift _ _ _ _ Hd), (bind_lift _ _ _ _ Hc),
    (bind_lift _ _ _ _ Ht).
  unfold bind at 1, gets.
  rewrite (bind_lift _ _ _ _ (references_prefix _ _ _ _ R1 Es)).
  rewrite (bind_lift _ _ _ _ (references_prefix _ _ _ _ R2 Ep)).
  rewrite (bind_lift _ _ _ _ (references_org_prefix _ _ _ R3 Eo)).
  rewrite (bind_lift _ _ _ _ (references_prefix _ _ _ _ R4 Ed)).
  reflexivity.
Qed.

(** The loop over the entries: one row per entry, and what a later pass
    over a warehouse that kept the dimension rows does. *)
Lemma for_each_service_inv keys l : forall w w',
  for_each_service keys l w = (Ret tt, w') ->
  exists rows' facts,
    List.length facts = List.length l /\
    prefix (dim_service (tables w)) rows' /\
    tables w'
    = set_fact_service_costs (fact_service_costs (tables w) ++ facts)
                             (set_dim_service rows' (tables w)) /\
    snapshot w' = snapshot w /\ connections w' = connections w /\
    forall w2,
      extends (tables w') (tables w2) ->
      exists w2',
        for_each_service keys l w2 = (Ret tt, w2') /\
        tables w2'
        = set_fact_service_costs (fact_service_costs (tables w2) ++ facts)
                                 (tables w2) /\
        snapshot w2' = snapshot w2 /\ connections w2' = connections w2 /\
        sequences w2' = sequences w2.
Proof.
  induction l as [|sd l IH]; intros w w' H.
  - cbn in H. unfold ret in H. injection H as <-.
    exists (dim_service (tables w)), []. cbn [List.length].
    rewrite app_nil_r. repeat split.
    + apply prefix_refl.
    + destruct (tables w); reflexivity.
    + intros w2 _. exists w2. cbn. unfold ret. rewrite app_nil_r.
      repeat split. destruct (tables w2); reflexivity.
  - cbn [for_each_service] in H. first_step H as u H1. destruct u.
    apply loadServiceFact_inv in H1.
    destruct H1 as (rows1 & sk & ls & dv & cv & d & c & t & _ & _ & _ & _ & _
                    & _ & P1 & T1 & S1 & C1 & Again1).
    apply IH in H.
    destruct H as (rows2 & facts & Hlen & P2 & T2 & S2 & C2 & Again2).
    rewrite T1 in P2, T2. cbn in P2, T2.
    exists rows2,
      (mkServiceCost sk (keys_plan_key keys) (keys_org_key keys)
                     (keys_creation_date_key keys) d c t :: facts).
    repeat split.
    + cbn. rewrite Hlen. reflexivity.
    + eapply prefix_trans; eauto.
    + rewrite T2, <- app_assoc. reflexivity.
    + congruence.
    + congruence.
    + intros w2 E2.
      assert (E1 : extends (tables w0) (tables w2)).
      { eapply extends_trans; [|exact E2].
        rewrite T2, T1. constructor; cbn; try apply prefix_refl. exact P2. }
      cbn [for_each_service]. rewrite (bind_run _ _ _ _ _ (Again1 w2 E1)).
      match goal with
      | |- context [for_each_service keys l ?w3] =>
          destruct (Again2 w3) as (w2' & R & T3 & S3 & C3 & Q3)
      end.
      { destruct E2 as [Eo Ept Es Ed Ep]. constructor; cbn; assumption. }
      exists w2'. rewrite R, T3, S3, C3, Q3. cbn.
      rewrite <- app_assoc. repeat split.
Qed.

(** [loadServiceFacts] on a document. *)
Lemma loadServiceFacts_inv plan keys w w' :
  loadServiceFacts plan keys w = (Ret tt, w') ->
  exists lps rows' facts,
    prop plan "linkedPlanServices" = Ret lps /\
    List.length facts
    = match or_else lps (VArr []) with
      | VArr l => List.length l
      | _ => 0%nat
      end /\
    prefix (dim_service (tables w)) rows' /\
    tables w'
    = set_fact_service_costs (fact_service_costs (tables w) ++ facts)
                             (set_dim_service rows' (tables w)) /\
    snapshot w' = snapshot w /\ connections w' = connections w /\
    forall w2,
      extends (tables w') (tables w2) ->
      exists w2',
        loadServiceFacts plan keys w2 = (Ret tt, w2') /\
        tables w2'
        = set_fact_service_costs (fact_service_costs (tables w2) ++ facts)
                                 (tables w2) /\
        snapshot w2' = snapshot w2 /\ connections w2' = connections w2 /\
        sequences w2' = sequences w2.
Proof.
  unfold loadServiceFacts. intros H. first_step H as lps Hl. cbv zeta in H.
  exists lps.
  destruct (or_else lps (VArr [])) eqn:O.
  9: { apply for_each_service_inv in H.
       destruct H as (rows' & facts & Hlen & P & T & S & C & Again).
       exists rows', facts. repeat split; auto.
       intros w2 E2. destruct (Again w2 E2) as (w2' & R & T2 & S2 & C2 & Q2).
       exists w2'. rewrite (bind_lift _ _ _ _ Hl). cbv zeta. rewrite O.
       repeat split; assumption. }
  all: unfold ret in H; injection H as <-.
  all: exists (dim_service (tables w)), [].
  all: split; [exact Hl|]; split; [reflexivity|].
  all: split; [apply prefix_refl|].
  all: split; [rewrite app_nil_r; destruct (tables w); reflexivity|].
  all: split; [reflexivity|]; split; [reflexivity|].
  all: intros w2 _; exists w2; rewrite (bind_lift _ _ _ _ Hl); cbv zeta.
  all: rewrite O, app_nil_r; unfold ret.
  all: repeat split; destruct (tables w2); reflexivity.
Qed.

(** ** All four dimensions of a document *)

Lemma creation_date_inv now plan v :
  creation_date now plan = Ret v ->
  exists cd, prop plan "creationDate" = Ret cd /\ v = or_else cd (VDate now).
Proof.
  unfold creation_date. destruct (prop plan "creationDate") as [cd|e];
    [|discriminate].
  intros [= <-]. eauto.
Qed.

Lemma dated_alike_creation_date now1 now2 plan v1 d1 :
  dated_alike now1 now2 plan ->
  creation_date now1 plan = Ret v1 -> to_Date v1 = Some d1 ->
  exists v2 d2,
    creation_date now2 plan = Ret v2 /\ to_Date v2 = Some d2 /\
    before_T (toISOString d2) = before_T (toISOString d1).
Proof.
  intros A C D. apply creation_date_inv in C. destruct C as (cd & P & ->).
  unfold creation_date. rewrite P. unfold or_else in *.
  destruct A as [(cd' & P' & Tr) | Same].
  - assert (cd' = cd) by congruence. subst cd'. rewrite Tr in *.
    exists cd, d1. auto.
  - destruct (truthy cd).
    + exists cd, d1. auto.
    + cbn in D. injection D as <-. exists (VDate now2), now2. cbn. auto.
Qed.

Lemma loadDimensions_inv now plan w keys w' :
  loadDimensions now plan w = (Ret keys, w') ->
  exists rowsO rowsT rowsD rowsP org pt code,
    tables w'
    = set_dim_plan rowsP
        (set_dim_date rowsD
           (set_dim_plan_type rowsT
              (set_dim_organization rowsO (tables w)))) /\
    extends (tables w) (tables w') /\
    prop plan "_org" = Ret org /\
    find (has_org_id (pg_text (or_else org (VStr "unknown")))) rowsO
    = Some (mkOrg (keys_org_key keys)
                  (pg_text (or_else org (VStr "unknown")))
                  (pg_text (or_else org (VStr "Unknown Organization")))) /\
    prop plan "planType" = Ret pt /\
    normalize_code (or_else pt (VStr "unknown")) = Ret code /\
    (exists r, In r rowsT /\ plan_type_key r = keys_plan_type_key keys /\
               plan_type_code r = code) /\
    forall now2 w2,
      dated_alike now now2 plan ->
      extends (tables w') (tables w2) ->
      exists w2' rows2,
        loadDimensions now2 plan w2 = (Ret keys, w2') /\
        tables w2' = set_dim_organization rows2 (tables w2) /\
        org_index rows2 = org_index (dim_organization (tables w2)).
Proof.
  unfold loadDimensions. intros H.
  first_step H as ko HO. first_step H as kt HT. first_step H as cd HC.
  first_step H as kd HD. first_step H as kp HP.
  unfold ret in H. injection H as <- <-.
  apply organization_dimension_inv in HO.
  destruct HO as (org & rowsO & Porg & FO & PO & TO & AgainO).
  apply plan_type_dimension_inv in HT.
  destruct HT as (pt & code & rowsT & rt & restT & Ppt & Ncode & FT & KT & CT
                  & PT & TT & AgainT).
  apply getOrCreateDateKey_inv in HD.
  destruct HD as (d & rowsD & rd & restD & DD & PgD & FD & KD & PD & TD
                  & AgainD).
  apply plan_dimension_inv in HP.
  destruct HP as (rowsP & rp & InP & KP & PP & TP & AgainP).
  exists rowsO, rowsT, rowsD, rowsP, org, pt, code.
  rewrite TO in PT, TT. cbn in PT. rewrite TT in PD, TD. cbn in PD.
  rewrite TD in PP, TP. cbn in PP.
  split; [rewrite TP; reflexivity|].
  split; [rewrite TP; constructor; cbn; auto; apply prefix_refl|].
  split; [exact Porg|]. split; [exact FO|]. split; [exact Ppt|].
  split; [exact Ncode|].
  split.
  { exists rt. split; [apply (filter_cons_In _ _ _ _ FT)|]. auto. }
  intros now2 v A [Eo Et Es Ed Ep].
  rewrite TP in Eo, Et, Ed, Ep. cbn in Eo, Et, Ed, Ep.
  destruct (AgainO v Eo) as (va & rows2 & RO & T2 & I2).
  destruct (dated_alike_creation_date _ _ _ _ _ A HC DD)
    as (v2 & d2 & C2 & D2 & S2).
  exists va, rows2.
  rewrite (bind_run _ _ _ _ _ RO).
  rewrite (bind_run _ _ _ _ _ (AgainT va ltac:(rewrite T2; exact Et))).
  rewrite (bind_lift _ _ _ _ C2).
  rewrite (bind_run _ _ _ _ _
             (AgainD v2 d2 va D2 S2 ltac:(rewrite T2; exact Ed))).
  rewrite (bind_run _ _ _ _ _
             (AgainP kt ko v2 va ltac:(rewrite T2; exact Ep))).
  unfold ret. repeat split; auto.
Qed.

(** ** Loading a document, and loading it again *)




(** ** The plan-cost fact *)

Lemma numeric_number n :
  Z.abs n < 100000000 -> numeric (VNum n) = Ret (whole n).
Proof.
  intros Hn. unfold numeric, whole.
  destruct (Z.ltb_spec (Z.abs (100 * n)) (100 * 100000000));
    [reflexivity | lia].
Qed.



(** ** Entries of the expected shape always load *)

Lemma replace_spaces_length s : forall b,
  (String.length (replace_spaces b s) <= String.length s)%nat.
Proof.
  induction s as [|c s IH]; intros b; cbn; [lia|].
  destruct (is_space c).
  - destruct b; cbn; [specialize (IH true) | specialize (IH true)]; lia.
  - cbn. specialize (IH false). lia.
Qed.

Lemma toLowerCase_length s : String.length (toLowerCase s) = String.length s.
Proof. induction s as [|c s IH]; cbn; congruence. Qed.

Lemma varchar_fits n s :
  (String.length s <= n)%nat -> varchar n s = Ret s.
Proof.
  intros H. unfold varchar.
  destruct (Nat.leb_spec (String.length s) n); [reflexivity | lia].
Qed.

Lemma prop_truthy v k : truthy v = true -> prop v k = Ret (opt_prop v k).
Proof. destruct v; cbn; try discriminate; reflexivity. Qed.

Lemma or_else_truthy a b : truthy b = true -> truthy (or_else a b) = true.
Proof. unfold or_else. destruct (truthy a) eqn:E; auto. Qed.

(** The service block on a text identifier and a text name that fit. *)
Lemma service_dimension_plain id name w :
  (String.length id <= 255)%nat -> (String.length name <= 255)%nat ->
  exists k w',
    match map service_key
              (filter (has_service_id id) (dim_service (tables w))) with
    | k :: _ => ret k
    | [] =>
        bind (insert_dim_service (VStr id) (VStr name) "Healthcare Service")
             (fun serviceResult => lift (first_row serviceResult))
    end w = (Ret k, w') /\
    references k (map service_key (dim_service (tables w'))) = Ret tt /\
    dim_plan (tables w') = dim_plan (tables w) /\
    dim_organization (tables w') = dim_organization (tables w) /\
    dim_date (tables w') = dim_date (tables w).
Proof.
  intros Hid Hname.
  destruct (filter (has_service_id id) (dim_service (tables w)))
    as [|r rest] eqn:F; cbn [map].
  - unfold insert_dim_service, bind, lift, nextval_service_key, gets,
      update_tables, modify, ret.
    cbn [pg_text].
    rewrite (varchar_fits 255 id Hid), (varchar_fits 255 name Hname).
    cbn [varchar String.length Nat.leb tables with_sequences].
    rewrite (filter_nil_existsb _ _ F). cbn [first_row].
    eexists. eexists. split; [reflexivity|]. cbn.
    repeat split. unfold references.
    rewrite map_app, existsb_app. cbn. rewrite Z.eqb_refl, orb_true_r.
    reflexivity.
  - exists (service_key r), w. unfold ret. repeat split.
    unfold references.
    rewrite (existsb_key service_key _ r); [reflexivity|].
    apply (filter_cons_In _ _ _ _ F).
Qed.

Lemma loadServiceFact_plain keys sd w :
  plain_entry sd -> service_keys_present keys (tables w) ->
  exists w',
    loadServiceFact keys sd w = (Ret tt, w') /\
    service_keys_present keys (tables w').
Proof.
  intros (fs & s & d & c & -> & Hname & Hs & Hoid & Hd & Hc & Bd & Bc & Bt)
         (R1 & R2 & R3).
  unfold loadServiceFact. cbn [prop].
  rewrite (bind_lift _ _ _ _ eq_refl). cbv zeta. rewrite Hname.
  rewrite (bind_lift _ _ _ _ eq_refl).
  set (cs := or_else (opt_prop (lookup "linkedService" fs)
                               "planserviceCostShares") (VObj [])) in *.
  assert (Tcs : truthy cs = true) by (apply or_else_truthy; reflexivity).
  assert (Rest : forall k w1,
             references k (map service_key (dim_service (tables w1))) = Ret tt ->
             dim_plan (tables w1) = dim_plan (tables w) ->
             dim_organization (tables w1) = dim_organization (tables w) ->
             dim_date (tables w1) = dim_date (tables w) ->
             exists w',
               bind (lift (Ret (lookup "linkedService" fs)))
                 (fun ls =>
                    bind (lift (prop (or_else (opt_prop ls "planserviceCostShares")
                                              (VObj [])) "deductible"))
                      (fun d0 =>
                         bind (lift (prop (or_else
                                             (opt_prop ls "planserviceCostShares")
                                             (VObj [])) "copay"))
                           (fun c0 =>
                              bind (insert_fact_service_costs k keys
                                      (or_else d0 (VNum 0)) (or_else c0 (VNum 0))
                                      (js_add (or_else d0 (VNum 0))
                                              (or_else c0 (VNum 0))))
                                (fun _ =>
                                   update_stats (fun st =>
                                     mkStats (plansExtracted st) (plansLoaded st)
                                             (servicesLoaded st + 1) (errors st)
                                             (startTime st) (endTime st)))))) w1
               = (Ret tt, w') /\
               service_keys_present keys (tables w')).
  { intros k w1 Rk Ep Eo Ed.
    rewrite (bind_lift _ _ _ _ eq_refl). fold cs.
    rewrite (bind_lift _ _ _ _ (prop_truthy cs "deductible" Tcs)).
    rewrite (bind_lift _ _ _ _ (prop_truthy cs "copay" Tcs)).
    rewrite Hd, Hc. change (js_add (VNum d) (VNum c)) with (VNum (d + c)).
    unfold insert_fact_service_costs. unfold bind at 1.
    rewrite (bind_lift _ _ _ _ (numeric_number d Bd)).
    rewrite (bind_lift _ _ _ _ (numeric_number c Bc)).
    rewrite (bind_lift _ _ _ _ (numeric_number _ Bt)).
    unfold bind at 1, gets.
    rewrite (bind_lift _ _ _ _ Rk). rewrite Ep, Eo, Ed.
    rewrite (bind_lift _ _ _ _ R1), (bind_lift _ _ _ _ R2),
      (bind_lift _ _ _ _ R3).
    eexists. split; [reflexivity|].
    unfold service_keys_present. cbn. rewrite Ep, Eo, Ed. auto. }
  destruct Hoid as [Hfalse | (i & Hi & Li)].
  - rewrite Hfalse. cbn [normalize_code].
    rewrite bind_bind, (bind_lift _ _ _ _ eq_refl), bind_ret.
    unfold bind at 1, select_service_key, gets. cbn [pg_text tables].
    set (code := replace_spaces false (toLowerCase s)).
    assert (Lc : (String.length code <= 255)%nat).
    { unfold code. pose proof (replace_spaces_length (toLowerCase s) false).
      rewrite toLowerCase_length in H. lia. }
    destruct (service_dimension_plain code s w Lc Hs)
      as (k & w1 & Run & Rk & Ep & Eo & Ed).
    rewrite (bind_run _ _ _ _ _ Run).
    apply (Rest k w1 Rk Ep Eo Ed).
  - rewrite Hi.
    destruct (truthy (VStr i)) eqn:Ti.
    + rewrite bind_ret.
      unfold bind at 1, select_service_key, gets. cbn [pg_text tables].
      destruct (service_dimension_plain i s w Li Hs)
        as (k & w1 & Run & Rk & Ep & Eo & Ed).
      rewrite (bind_run _ _ _ _ _ Run).
      apply (Rest k w1 Rk Ep Eo Ed).
    + cbn [normalize_code].
      rewrite bind_bind, (bind_lift _ _ _ _ eq_refl), bind_ret.
      unfold bind at 1, select_service_key, gets. cbn [pg_text tables].
      set (code := replace_spaces false (toLowerCase s)).
      assert (Lc : (String.length code <= 255)%nat).
      { unfold code. pose proof (replace_spaces_length (toLowerCase s) false).
        rewrite toLowerCase_length in H. lia. }
      destruct (service_dimension_plain code s w Lc Hs)
        as (k & w1 & Run & Rk & Ep & Eo & Ed).
      rewrite (bind_run _ _ _ _ _ Run).
      apply (Rest k w1 Rk Ep Eo Ed).
Qed.

Lemma for_each_service_plain keys l : forall w,
  Forall plain_entry l -> service_keys_present keys (tables w) ->
  exists w', for_each_service keys l w = (Ret tt, w').
Proof.
  induction l as [|sd l IH]; intros w Hl Hk.
  - exists w. reflexivity.
  - inversion Hl as [|? ? Hsd Hrest]; subst.
    destruct (loadServiceFact_plain keys sd w Hsd Hk) as (w1 & R1 & K1).
    destruct (IH w1 Hrest K1) as (w' & R).
    exists w'. cbn [for_each_service]. rewrite (bind_run _ _ _ _ _ R1).
    exact R.
Qed.

(** A computation that leaves [fact_service_costs] as it is, and one
    that does so when it throws. *)
Definition silent {A} (m : M A) : Prop :=
  forall w o w', m w = (o, w') ->
    fact_service_costs (tables w') = fact_service_costs (tables w).

Definition fails_silently {A} (m : M A) : Prop :=
  forall w e w', m w = (Throw e, w') ->
    fact_service_costs (tables w') = fact_service_costs (tables w).

Lemma silent_ret {A} (a : A) : silent (ret a).
Proof. intros w o w' [= <- <-]. reflexivity. Qed.

Lemma silent_lift {A} (o : outcome A) : silent (lift o).
Proof. intros w o' w' [= <- <-]. reflexivity. Qed.

Lemma silent_gets {A} (f : World -> A) : silent (gets f).
Proof. intros w o w' [= <- <-]. reflexivity. Qed.

Lemma silent_throw {A} (e : exn) : silent (@throw A e).
Proof. intros w o w' [= <- <-]. reflexivity. Qed.

Lemma silent_bind {A B} (m : M A) (k : A -> M B) :
  silent m -> (forall a, silent (k a)) -> silent (bind m k).
Proof.
  intros Hm Hk w o w'. unfold bind.
  destruct (m w) as [[a|e] w1] eqn:E.
  - intros H. rewrite (Hk _ _ _ _ H). eapply Hm; eauto.
  - intros [= <- <-]. eapply Hm; eauto.
Qed.

Lemma silent_nextval_service_key : silent nextval_service_key.
Proof. intros w o w' [= <- <-]. reflexivity. Qed.

Lemma silent_update_tables f :
  (forall t, fact_service_costs (f t) = fact_service_costs t) ->
  silent (update_tables f).
Proof. intros Hf w o w' [= <- <-]. cbn. apply Hf. Qed.

Lemma fails_silently_bind {A B} (m : M A) (k : A -> M B) :
  silent m -> (forall a, fails_silently (k a)) -> fails_silently (bind m k).
Proof.
  intros Hm Hk w e w'. unfold bind.
  destruct (m w) as [[a|e1] w1] eqn:E.
  - intros H. rewrite (Hk _ _ _ _ H). eapply Hm; eauto.
  - intros [= <- <-]. eapply Hm; eauto.
Qed.

(** The insertion of a service-cost fact and [stats.servicesLoaded++]
    right after it: the statement throws before it writes, the counter
    does not throw. *)
Lemma fails_silently_fact_and_counter sk keys d c t f :
  fails_silently (bind (insert_fact_service_costs sk keys d c t)
                       (fun _ => update_stats f)).
Proof.
  intros w e w'. unfold insert_fact_service_costs, bind, lift, gets,
    update_tables, update_stats, modify.
  destruct (numeric d); [|intros [= <- <-]; reflexivity].
  destruct (numeric c); [|intros [= <- <-]; reflexivity].
  destruct (numeric t); [|intros [= <- <-]; reflexivity].
  destruct (references sk _); [|intros [= <- <-]; reflexivity].
  destruct (references (keys_plan_key keys) _);
    [|intros [= <- <-]; reflexivity].
  destruct (references (keys_org_key keys) _);
    [|intros [= <- <-]; reflexivity].
  destruct (references (keys_creation_date_key keys) _);
    [|intros [= <- <-]; reflexivity].
  discriminate.
Qed.

Ltac silent_steps :=
  repeat first
    [ solve [auto using silent_ret, silent_throw, silent_lift, silent_gets,
             silent_nextval_service_key]
    | apply silent_bind; [|intros ?]
    | apply silent_update_tables; intros ?; reflexivity
    | match goal with
      | |- silent (match ?x with _ => _ end) => destruct x
      | |- silent (if ?x then _ else _) => destruct x
      end ].

(** An entry on which the loader throws adds no row. *)
Lemma loadServiceFact_throw keys sd w e w' :
  loadServiceFact keys sd w = (Throw e, w') ->
  fact_service_costs (tables w') = fact_service_costs (tables w).
Proof.
  revert w e w'. change (fails_silently (loadServiceFact keys sd)).
  unfold loadServiceFact, select_service_key, insert_dim_service.
  do 8 (apply fails_silently_bind; [solve [silent_steps] | intros ?]).
  apply fails_silently_fact_and_counter.
Qed.

(** The loop stops at the first entry on which the loader throws: the
    rows of the entries before it are written, and no other. *)
Lemma for_each_service_throw keys l : forall w e w',
  for_each_service keys l w = (Throw e, w') ->
  exists facts,
    fact_service_costs (tables w')
    = fact_service_costs (tables w) ++ facts /\
    (List.length facts < List.length l)%nat.
Proof.
  induction l as [|sd l IH]; intros w e w' H.
  - discriminate H.
  - cbn [for_each_service] in H. unfold bind in H.
    destruct (loadServiceFact keys sd w) as [[[]|e1] w1] eqn:R1.
    + apply loadServiceFact_inv in R1.
      destruct R1 as (rows1 & sk & ls & dv & cv & d & c & t & _ & _ & _ & _
                      & _ & _ & _ & T1 & _).
      destruct (IH _ _ _ H) as (facts & F & L).
      eexists (_ :: facts). split.
      * rewrite F, T1. cbn. rewrite <- app_assoc. reflexivity.
      * cbn. lia.
    + injection H as <- <-. exists []. split.
      * rewrite app_nil_r. eapply loadServiceFact_throw. exact R1.
      * cbn. lia.
Qed.

(** ** The service-cost facts of a document *)

(** C7, as the code has it.  For a document whose [linkedPlanServices] is
    missing or is not a list, [loadServiceFacts] returns at once and writes
    nothing.  When it is a list, a load that returns has appended exactly
    as many [fact_service_costs] rows as the list has entries, and the load
    does return when every entry has the expected shape (cost data may be
    missing) and the keys are keys of dimension rows.  An entry without
    cost data, when it is loaded, gives a row whose deductible, copay and
    total are 0.  A load that throws stops at the entry on which it throws:
    it has appended the rows of the entries before it, fewer rows than the
    list has entries. *)
Theorem service_facts_per_entry :
  forall (plan : value) (keys : Keys) (w : World) (lps : value),
    prop plan "linkedPlanServices" = Ret lps ->
    (isArray (or_else lps (VArr [])) = false ->
     loadServiceFacts plan keys w = (Ret tt, w)) /\
    (forall l w',
       or_else lps (VArr []) = VArr l ->
       loadServiceFacts plan keys w = (Ret tt, w') ->
       exists facts,
         fact_service_costs (tables w')
         = fact_service_costs (tables w) ++ facts /\
         List.length facts = List.length l /\
         fact_plan_costs (tables w') = fact_plan_costs (tables w)) /\
    (forall l,
       or_else lps (VArr []) = VArr l ->
       Forall plain_entry l -> service_keys_present keys (tables w) ->
       exists w', loadServiceFacts plan keys w = (Ret tt, w')) /\
    (forall sd ls w',
       prop sd "linkedService" = Ret ls ->
       truthy (opt_prop ls "planserviceCostShares") = false ->
       loadServiceFact keys sd w = (Ret tt, w') ->
       exists sk,
         fact_service_costs (tables w')
         = fact_service_costs (tables w) ++
           [mkServiceCost sk (keys_plan_key keys) (keys_org_key keys)
                          (keys_creation_date_key keys) 0 0 0]) /\
    (forall l e w',
       or_else lps (VArr []) = VArr l ->
       loadServiceFacts plan keys w = (Throw e, w') ->
       exists facts,
         fact_service_costs (tables w')
         = fact_service_costs (tables w) ++ facts /\
         (List.length facts < List.length l)%nat).
Proof.
  intros plan keys w lps Hl. split; [|split; [|split; [|split]]].
  - intros NA. unfold loadServiceFacts.
    rewrite (bind_lift _ _ _ _ Hl). cbv zeta.
    destruct (or_else lps (VArr [])); try discriminate; reflexivity.
  - intros l w' O H. apply loadServiceFacts_inv in H.
    destruct H as (lps' & rows' & facts & Hl' & Hlen & _ & T & _).
    assert (lps' = lps) by congruence. subst lps'. rewrite O in Hlen.
    exists facts. rewrite T. cbn. auto.
  - intros l O Hplain Hkeys. unfold loadServiceFacts.
    rewrite (bind_lift _ _ _ _ Hl). cbv zeta. rewrite O.
    apply (for_each_service_plain keys l w Hplain Hkeys).
  - intros sd ls w' Hls Miss H. apply loadServiceFact_inv in H.
    destruct H as (rows' & sk & ls' & dv & cv & d & c & t & Hls' & Hd & Hc
                   & Nd & Nc & Nt & _ & T & _).
    assert (ls' = ls) by congruence. subst ls'.
    unfold or_else in Hd, Hc. rewrite Miss in Hd, Hc.
    cbn in Hd, Hc. injection Hd as <-. injection Hc as <-.
    cbn in Nd, Nc, Nt. injection Nd as <-. injection Nc as <-.
    injection Nt as <-.
    exists sk. rewrite T. reflexivity.
  - intros l e w' O H. unfold loadServiceFacts in H.
    rewrite (bind_lift _ _ _ _ Hl) in H. cbv zeta in H. rewrite O in H.
    apply (for_each_service_throw keys l w e w' H).
Qed.

(** ** Documents without organization or plan type *)

Lemma find_In {A} (f : A -> bool) (l : list A) a :
  find f l = Some a -> In a l.
Proof. intros H. apply find_some in H. tauto. Qed.

(** The organization block of a document without [_org] cannot fail. *)
Lemma organization_dimension_unknown plan org w :
  prop plan "_org" = Ret org -> truthy org = false ->
  exists k w',
    organization_dimension plan w = (Ret k, w') /\
    In (mkOrg k "unknown" "Unknown Organization")
       (dim_organization (tables w')).
Proof.
  intros Hp Hf.
  assert (R : exists k w', organization_dimension plan w = (Ret k, w')).
  { unfold organization_dimension. rewrite (bind_lift _ _ _ _ Hp). cbv zeta.
    unfold or_else. rewrite Hf. unfold upsert_dim_organization.
    unfold bind, lift, nextval_org_key, gets, update_tables, modify, ret.
    cbn [pg_text varchar String.length Nat.leb tables with_sequences].
    destruct (find (has_org_id "unknown") (dim_organization (tables w)));
      cbn; eauto. }
  destruct R as (k & w' & R). exists k, w'. split; [exact R|].
  apply organization_dimension_inv in R.
  destruct R as (org' & rows' & Hp' & F & _ & T & _).
  assert (org' = org) by congruence. subst org'.
  unfold or_else in F. rewrite Hf in F. cbn [pg_text] in F.
  rewrite T. cbn. apply (find_In _ _ _ F).
Qed.

(** The plan-type block of a document without [planType] cannot fail. *)
Lemma plan_type_dimension_unknown plan pt w :
  prop plan "planType" = Ret pt -> truthy pt = false ->
  exists k w' r,
    plan_type_dimension plan w = (Ret k, w') /\
    In r (dim_plan_type (tables w')) /\
    plan_type_key r = k /\ plan_type_code r = "unknown".
Proof.
  intros Hp Hf.
  assert (R : exists k w', plan_type_dimension plan w = (Ret k, w')).
  { unfold plan_type_dimension. rewrite (bind_lift _ _ _ _ Hp). cbv zeta.
    unfold or_else. rewrite Hf.
    rewrite (bind_lift _ _ _ _
               (eq_refl : normalize_code (VStr "unknown") = Ret "unknown")).
    unfold bind at 1, select_plan_type_key, gets.
    destruct (filter (has_plan_type_code "unknown") (dim_plan_type (tables w)))
      as [|r rest] eqn:F; cbn [map].
    - unfold insert_dim_plan_type.
      unfold bind, lift, nextval_plan_type_key, gets, update_tables, modify,
        ret. cbn [varchar String.length Nat.leb pg_text tables with_sequences].
      rewrite (filter_nil_existsb _ _ F). cbn. eauto.
    - unfold ret. eauto. }
  destruct R as (k & w' & R).
  pose proof R as R'. apply plan_type_dimension_inv in R'.
  destruct R' as (pt' & code & rows' & r & rest & Hp' & N & F & K & C & _ & T
                  & _).
  assert (pt' = pt) by congruence. subst pt'.
  unfold or_else in N. rewrite Hf in N. cbn in N. injection N as <-.
  exists k, w', r. split; [exact R|]. rewrite T. cbn.
  split; [apply (filter_cons_In _ _ _ _ F)|]. auto.
Qed.

(** What a document that loads leaves: its plan-cost row, under the keys
    of the organization and of the plan type that [loadDimensions] resolved
    for it. *)
Lemma load_plan_fact_keys now plan w w' :
  load_plan now plan w = (Ret tt, w') ->
  exists row org pt ro rt,
    fact_plan_costs (tables w') = fact_plan_costs (tables w) ++ [row] /\
    prop plan "_org" = Ret org /\ prop plan "planType" = Ret pt /\
    In ro (dim_organization (tables w')) /\
    In rt (dim_plan_type (tables w')) /\
    pc_org_key row = org_key ro /\
    org_id ro = pg_text (or_else org (VStr "unknown")) /\
    org_name ro = pg_text (or_else org (VStr "Unknown Organization")) /\
    pc_plan_type_key row = plan_type_key rt /\
    normalize_code (or_else pt (VStr "unknown")) = Ret (plan_type_code rt).
Proof.
  intros H. unfold load_plan in H.
  first_step H as keys HD. first_step H as u HF. destruct u.
  apply loadDimensions_inv in HD.
  destruct HD as (rowsO & rowsT & rowsD & rowsP & org & pt & code & TD & _
                  & Ho & FO & Hp & N & (rt & InT & KT & CT) & _).
  apply loadPlanFacts_inv in HF.
  destruct HF as (pcs & d & c & t & _ & _ & _ & _ & -> & _).
  apply loadServiceFacts_inv in H.
  destruct H as (lps & rowsS & facts & _ & _ & _ & TS & _).
  eexists. exists org, pt.
  exists (mkOrg (keys_org_key keys) (pg_text (or_else org (VStr "unknown")))
                (pg_text (or_else org (VStr "Unknown Organization")))), rt.
  rewrite TS. cbn. rewrite TD. cbn.
  split; [reflexivity|]. split; [exact Ho|]. split; [exact Hp|].
  split; [apply (find_In _ _ _ FO)|].
  repeat split; auto. congruence.
Qed.

(** C10.  For a document whose [_org] is missing (or otherwise falsy), the
    organization block cannot fail and resolves the row with natural key
    ['unknown'] and name ['Unknown Organization']; for a document whose
    [planType] is missing, the plan-type block cannot fail and resolves the
    row with code ['unknown'].  When such a document loads, its plan-cost
    fact carries the key of that row. *)
Theorem missing_org_and_plan_type :
  forall (now : Date) (plan : value) (w : World),
    (forall org,
       prop plan "_org" = Ret org -> truthy org = false ->
       (exists k w1,
          organization_dimension plan w = (Ret k, w1) /\
          In (mkOrg k "unknown" "Unknown Organization")
             (dim_organization (tables w1))) /\
       (forall w',
          load_plan now plan w = (Ret tt, w') ->
          exists row ro,
            fact_plan_costs (tables w') = fact_plan_costs (tables w) ++ [row] /\
            In ro (dim_organization (tables w')) /\
            pc_org_key row = org_key ro /\
            org_id ro = "unknown" /\ org_name ro = "Unknown Organization")) /\
    (forall pt,
       prop plan "planType" = Ret pt -> truthy pt = false ->
       (exists k w1 r,
          plan_type_dimension plan w = (Ret k, w1) /\
          In r (dim_plan_type (tables w1)) /\
          plan_type_key r = k /\ plan_type_code r = "unknown") /\
       (forall w',
          load_plan now plan w = (Ret tt, w') ->
          exists row rt,
            fact_plan_costs (tables w') = fact_plan_costs (tables w) ++ [row] /\
            In rt (dim_plan_type (tables w')) /\
            pc_plan_type_key row = plan_type_key rt /\
            plan_type_code rt = "unknown")).
Proof.
  intros now plan w. split.
  - intros org Ho Fo. split.
    + apply (organization_dimension_unknown plan org w Ho Fo).
    + intros w' H. apply load_plan_fact_keys in H.
      destruct H as (row & org' & pt & ro & rt & F & Ho' & _ & Io & _ & Ko
                     & Id & Nm & _).
      assert (org' = org) by congruence. subst org'.
      unfold or_else in Id, Nm. rewrite Fo in Id, Nm. cbn in Id, Nm.
      exists row, ro. auto.
  - intros pt Hp Fp. split.
    + apply (plan_type_dimension_unknown plan pt w Hp Fp).
    + intros w' H. apply load_plan_fact_keys in H.
      destruct H as (row & org & pt' & ro & rt & F & _ & Hp' & _ & It & _ & _
                     & _ & Kt & N).
      assert (pt' = pt) by congruence. subst pt'.
      unfold or_else in N. rewrite Fp in N. cbn in N. injection N as N.
      exists row, rt. auto.
Qed.

(** ** What the statements of one document never touch *)

Lemma frame_refl w : frame w w.
Proof. unfold frame. repeat split. Qed.

Lemma frame_trans w1 w2 w3 : frame w1 w2 -> frame w2 w3 -> frame w1 w3.
Proof.
  unfold frame. intros (a1 & b1 & c1 & d1 & e1 & f1 & g1 & h1)
                       (a2 & b2 & c2 & d2 & e2 & f2 & g2 & h2).
  repeat split; congruence.
Qed.

Lemma keeps_ret {A} (a : A) : keeps (ret a).
Proof. intros w o w' [= <- <-]. apply frame_refl. Qed.

Lemma keeps_throw {A} (e : exn) : keeps (@throw A e).
Proof. intros w o w' [= <- <-]. apply frame_refl. Qed.

Lemma keeps_lift {A} (o : outcome A) : keeps (lift o).
Proof. intros w o' w' [= <- <-]. apply frame_refl. Qed.

Lemma keeps_gets {A} (f : World -> A) : keeps (gets f).
Proof. intros w o w' [= <- <-]. apply frame_refl. Qed.

Lemma keeps_bind {A B} (m : M A) (k : A -> M B) :
  keeps m -> (forall a, keeps (k a)) -> keeps (bind m k).
Proof.
  intros Hm Hk w o w'. unfold bind.
  destruct (m w) as [[a|e] w1] eqn:E.
  - intros H. eapply frame_trans; [eapply Hm; eauto | eapply Hk; eauto].
  - intros [= <- <-]. eapply Hm; eauto.
Qed.

Lemma keeps_update_tables f :
  (forall t, etl_audit_log (f t) = etl_audit_log t) ->
  keeps (update_tables f).
Proof.
  intros Hf w o w' [= <- <-]. unfold frame; cbn. rewrite Hf. repeat split.
Qed.

Lemma keeps_nextval_org_key : keeps nextval_org_key.
Proof. intros w o w' [= <- <-]. unfold frame; cbn. repeat split. Qed.
Lemma keeps_nextval_plan_type_key : keeps nextval_plan_type_key.
Proof. intros w o w' [= <- <-]. unfold frame; cbn. repeat split. Qed.
Lemma keeps_nextval_service_key : keeps nextval_service_key.
Proof. intros w o w' [= <- <-]. unfold frame; cbn. repeat split. Qed.
Lemma keeps_nextval_plan_key : keeps nextval_plan_key.
Proof. intros w o w' [= <- <-]. unfold frame; cbn. repeat split. Qed.

Lemma keeps_count_service :
  keeps (update_stats (fun st =>
    mkStats (plansExtracted st) (plansLoaded st) (servicesLoaded st + 1)
            (errors st) (startTime st) (endTime st))).
Proof. intros w o w' [= <- <-]. unfold frame; cbn. repeat split. Qed.

Create HintDb keeps.
#[local] Hint Resolve keeps_ret keeps_throw keeps_lift keeps_gets
  keeps_nextval_org_key keeps_nextval_plan_type_key
  keeps_nextval_service_key keeps_nextval_plan_key keeps_count_service
  : keeps.

(** Walk down a sequence of statements. *)
Ltac keeps_steps :=
  repeat first
    [ solve [auto with keeps]
    | apply keeps_bind; [|intros ?]
    | apply keeps_update_tables; intros ?; reflexivity
    | apply keeps_gets
    | match goal with
      | |- keeps (match ?x with _ => _ end) => destruct x
      | |- keeps (if ?x then _ else _) => destruct x
      end ].

Lemma keeps_upsert_dim_organization a b : keeps (upsert_dim_organization a b).
Proof. unfold upsert_dim_organization. keeps_steps. Qed.

Lemma keeps_organization_dimension plan : keeps (organization_dimension plan).
Proof.
  pose proof keeps_upsert_dim_organization.
  unfold organization_dimension. keeps_steps.
Qed.

Lemma keeps_plan_type_dimension plan : keeps (plan_type_dimension plan).
Proof.
  unfold plan_type_dimension, select_plan_type_key, insert_dim_plan_type.
  keeps_steps.
Qed.

Lemma keeps_getOrCreateDateKey v : keeps (getOrCreateDateKey v).
Proof.
  unfold getOrCreateDateKey, select_date_key, insert_dim_date. keeps_steps.
Qed.

Lemma keeps_plan_dimension plan a b c : keeps (plan_dimension plan a b c).
Proof.
  unfold plan_dimension, select_plan_key, insert_dim_plan. keeps_steps.
Qed.

Lemma keeps_loadDimensions now plan : keeps (loadDimensions now plan).
Proof.
  pose proof keeps_organization_dimension.
  pose proof keeps_plan_type_dimension.
  pose proof keeps_getOrCreateDateKey.
  pose proof keeps_plan_dimension.
  unfold loadDimensions. keeps_steps.
Qed.

Lemma keeps_loadPlanFacts plan keys : keeps (loadPlanFacts plan keys).
Proof. unfold loadPlanFacts, insert_fact_plan_costs. keeps_steps. Qed.

Lemma keeps_loadServiceFact keys sd : keeps (loadServiceFact keys sd).
Proof.
  unfold loadServiceFact, select_service_key, insert_dim_service,
    insert_fact_service_costs.
  keeps_steps.
Qed.

Lemma keeps_for_each_service keys l : keeps (for_each_service keys l).
Proof.
  pose proof keeps_loadServiceFact.
  induction l as [|sd l IH]; cbn [for_each_service]; keeps_steps.
Qed.

Lemma keeps_loadServiceFacts plan keys : keeps (loadServiceFacts plan keys).
Proof.
  pose proof keeps_for_each_service.
  unfold loadServiceFacts. keeps_steps.
Qed.

Lemma keeps_load_plan now plan : keeps (load_plan now plan).
Proof.
  pose proof keeps_loadDimensions. pose proof keeps_loadPlanFacts.
  pose proof keeps_loadServiceFacts.
  unfold load_plan. keeps_steps.
Qed.

(** ** One document inside its transaction *)

(** The loop body on a document never throws: a load that throws is
    rolled back and counted as an error, a load that returns is committed
    and counted as loaded. *)
Lemma process_plan_document now plan w :
  is_document plan ->
  exists w',
    process_plan now plan w = (Ret tt, w') /\
    snapshot w' = None /\
    connections w' = connections w /\
    etl_audit_log (tables w') = etl_audit_log (tables w) /\
    plansExtracted (stats w') = plansExtracted (stats w) /\
    startTime (stats w') = startTime (stats w) /\
    endTime (stats w') = endTime (stats w) /\
    (fails now plan w = true ->
     tables w' = tables w /\
     errors (stats w') = errors (stats w) + 1 /\
     plansLoaded (stats w') = plansLoaded (stats w)) /\
    (fails now plan w = false ->
     tables w'
     = tables (snd (load_plan now plan (with_snapshot (Some (tables w)) w))) /\
     errors (stats w') = errors (stats w) /\
     plansLoaded (stats w') = plansLoaded (stats w) + 1).
Proof.
  intros Hdoc. destruct plan; try contradiction. clear Hdoc.
  unfold process_plan, try_catch, fails.
  unfold bind at 1, query_BEGIN, modify.
  set (wb := with_snapshot (Some (tables w)) w).
  unfold bind at 1.
  destruct (load_plan now (VObj fields) wb) as [[u|e] wl] eqn:L;
    pose proof (keeps_load_plan _ _ _ _ _ L)
      as (Sn & Cn & Au & Px & Pl & Er & St & En);
    cbn [snapshot connections stats tables with_snapshot wb] in *.
  - eexists. split; [reflexivity|]. cbn.
    repeat split; auto; try discriminate; try lia.
  - unfold bind, query_ROLLBACK, modify, lift, ret, update_stats.
    rewrite Sn. cbn [prop].
    destruct (truthy (lookup "objectId" fields));
      (eexists; split; [reflexivity|]); cbn;
      repeat split; auto; try discriminate; try lia.
Qed.

(** The loop over the documents. *)
Lemma for_each_plan_documents clock plans : forall i w,
  Forall is_document plans ->
  exists w',
    for_each_plan clock i plans w = (Ret tt, w') /\
    connections w' = connections w /\
    etl_audit_log (tables w') = etl_audit_log (tables w) /\
    plansExtracted (stats w') = plansExtracted (stats w) /\
    startTime (stats w') = startTime (stats w) /\
    endTime (stats w') = endTime (stats w) /\
    errors (stats w') = errors (stats w) + failures clock i plans w /\
    plansLoaded (stats w') + errors (stats w')
    = plansLoaded (stats w) + errors (stats w) + Z.of_nat (List.length plans) /\
    0 <= failures clock i plans w <= Z.of_nat (List.length plans).
Proof.
  induction plans as [|plan rest IH]; intros i w Hdocs.
  - exists w. cbn. repeat split; lia.
  - inversion Hdocs as [|? ? Hd Hr]; subst.
    destruct (process_plan_document (clock i) plan w Hd)
      as (w1 & R1 & _ & C1 & A1 & X1 & S1 & E1 & Hfail & Hok).
    destruct (IH (S i) w1 Hr)
      as (w' & R & C & A & X & S & E & Er & Sum & Bound).
    exists w'. cbn [for_each_plan failures List.length].
    rewrite (bind_run _ _ _ _ _ R1), R1. cbn [snd].
    split; [exact R|].
    repeat (split; [congruence|]).
    destruct (fails (clock i) plan w).
    + destruct (Hfail eq_refl) as (_ & Er1 & Pl1).
      repeat split; lia.
    + destruct (Hok eq_refl) as (_ & Er1 & Pl1).
      repeat split; lia.
Qed.

(** ** A whole run *)

(** A run that reaches both stores. *)
Lemma runETL_connected env t q :
  mongo_up env = true -> pg_up env = true ->
  Forall is_document (documents env) ->
  exists w',
    runETL env (fresh_process t q) = (Ret VUndefined, w') /\
    etl_audit_log (tables w')
    = etl_audit_log t ++
      [audit_of env (Z.of_nat (List.length (documents env)))
                (failures (clock env) 0 (documents env) (loading env t q))] /\
    connections w' = mkConnections false false true /\
    endTime (stats w') = Some (t_end env).
Proof.
  intros Hm Hp Hdocs. unfold runETL. rewrite Hm, Hp.
  unfold mongoose_connect, pgPool_connect.
  unfold bind at 1, modify. unfold bind at 1. unfold bind at 1, update_stats,
    modify.
  cbn [fresh_process with_stats with_connections stats tables snapshot
       sequences connections initial_stats plansExtracted plansLoaded
       servicesLoaded errors startTime endTime mongo_open client_held
       pool_ended].
  fold (loading env t q).
  destruct (for_each_plan_documents (clock env) (documents env) 0
              (loading env t q) Hdocs)
    as (w1 & R & C & A & X & S & E & Er & Sum & Bound).
  rewrite (bind_run _ _ _ _ _ R).
  unfold logETLRun, bind, gets, update_tables, update_stats, modify.
  cbn [loading stats tables connections etl_audit_log plansExtracted
       plansLoaded errors startTime endTime] in C, A, X, S, E, Er, Sum.
  eexists. split; [reflexivity|].
  cbn. rewrite C, A, X, S, E. cbn.
  split; [|split; reflexivity].
  f_equal. unfold audit_of. rewrite Er. cbn [Z.add].
  replace (plansLoaded (stats w1))
    with (Z.of_nat (List.length (documents env))
          - failures (clock env) 0 (documents env) (loading env t q))
    by lia.
  reflexivity.
Qed.

(** A run that cannot reach one of the stores. *)
Lemma runETL_unreachable env t q :
  mongo_up env && pg_up env = false ->
  exists w',
    runETL env (fresh_process t q) = (Ret (VBool false), w') /\
    tables w' = t /\
    connections w' = mkConnections false false true.
Proof.
  intros H. unfold runETL.
  destruct (mongo_up env); [destruct (pg_up env); [discriminate|]|];
    eexists; (split; [reflexivity|]); cbn; auto.
Qed.

(** A document whose deductible is no amount never loads. *)
Lemma malformed_deductible_fails now plan pcs w :
  prop plan "planCostShares" = Ret pcs ->
  not_an_amount (opt_prop pcs "deductible") ->
  fails now plan w = true.
Proof.
  intros Hp Hbad. unfold fails, load_plan, bind.
  destruct (loadDimensions now plan (with_snapshot (Some (tables w)) w))
    as [[keys|e] w1]; [|reflexivity].
  unfold loadPlanFacts, bind, lift. rewrite Hp.
  destruct (prop plan "linkedPlanServices"); [|reflexivity].
  unfold insert_fact_plan_costs, bind, lift.
  destruct (opt_prop pcs "deductible") as [| |[|]| | | | | | | |];
    try contradiction; reflexivity.
Qed.

(** C2.  A document whose load sequence throws is rolled back (the tables
    are those from before its [BEGIN]), the error counter goes up by one,
    and the loop body returns normally, so that the loop goes on with the
    next document; a document whose deductible is no amount is such a
    document, whatever the warehouse holds.  A run over [N] documents that
    reaches both stores therefore completes without throwing, and the audit
    row it writes reports [records_processed = N] and [records_failed = k],
    where [k] counts the documents whose load threw, each in front of the
    warehouse left by the documents before it; the other [N - k] are
    reported as inserted. *)
Theorem failing_documents_are_counted :
  forall (env : Environment) (t : Tables) (q : Sequences),
    mongo_up env = true -> pg_up env = true ->
    Forall is_document (documents env) ->
    (forall now plan w,
       is_document plan ->
       exists w',
         process_plan now plan w = (Ret tt, w') /\
         (fails now plan w = true ->
          tables w' = tables w /\
          errors (stats w') = errors (stats w) + 1 /\
          plansLoaded (stats w') = plansLoaded (stats w))) /\
    (forall now plan pcs w,
       prop plan "planCostShares" = Ret pcs ->
       not_an_amount (opt_prop pcs "deductible") ->
       fails now plan w = true) /\
    exists w' row,
      runETL env (fresh_process t q) = (Ret VUndefined, w') /\
      etl_audit_log (tables w') = etl_audit_log t ++ [row] /\
      records_processed row = Z.of_nat (List.length (documents env)) /\
      records_failed row
      = failures (clock env) 0 (documents env) (loading env t q) /\
      records_inserted row + records_failed row = records_processed row /\
      0 <= records_failed row <= records_processed row.
Proof.
  intros env t q Hm Hp Hdocs. split; [|split].
  - intros now plan w Hd.
    destruct (process_plan_document now plan w Hd)
      as (w' & R & _ & _ & _ & _ & _ & _ & Hfail & _).
    exists w'. split; [exact R | exact Hfail].
  - apply malformed_deductible_fails.
  - destruct (runETL_connected env t q Hm Hp Hdocs) as (w' & R & A & _).
    destruct (for_each_plan_documents (clock env) (documents env) 0
                (loading env t q) Hdocs)
      as (_ & _ & _ & _ & _ & _ & _ & _ & _ & Bound).
    eexists. eexists. split; [exact R|]. split; [exact A|].
    cbn. repeat split; lia.
Qed.

(** C8, as the code has it.  The promise of [runETL] is always resolved,
    never rejected: with [false] exactly when a store could not be reached
    and with [undefined] otherwise, whatever the number of documents that
    failed.  The script therefore ends with status 0 in every case.  And
    when [runETL] returns, the pool client is released, the pool is ended
    and the MongoDB connection is closed, also after a fatal setup
    error. *)
Theorem completion_signal_and_exit_status :
  forall (env : Environment) (t : Tables) (q : Sequences),
    Forall is_document (documents env) ->
    fst (runETL env (fresh_process t q))
    = Ret (if mongo_up env && pg_up env then VUndefined else VBool false) /\
    fst (main env t q) = 0 /\
    connections (snd (runETL env (fresh_process t q)))
    = mkConnections false false true.
Proof.
  intros env t q Hdocs. unfold main.
  destruct (mongo_up env && pg_up env) eqn:Up.
  - apply andb_prop in Up. destruct Up as [Hm Hp].
    destruct (runETL_connected env t q Hm Hp Hdocs) as (w' & R & _ & C & _).
    rewrite R. cbn. auto.
  - destruct (runETL_unreachable env t q Up) as (w' & R & _ & C).
    rewrite R. cbn. auto.
Qed.

End WithRuntime.

(** ** The statements at concrete inputs *)

Import Scenario.

(** C4, on 2024-01-15: a text and a [Date] object of that day, on an empty
    [dim_date]; the key is 20240115. *)
Lemma dateKey_deterministic_witness :
  exists w1,
    getOrCreateDateKey (VStr "2024-01-15")
      (fresh_process empty_tables zero_sequences)
    = (Ret 20240115, w1) /\
    getOrCreateDateKey (VDate (mkDate 2024 1 15 18 30 0 0)) w1
    = (Ret 20240115, w1).
Proof.
  destruct (dateKey_deterministic
              (fresh_process empty_tables zero_sequences)
              (VStr "2024-01-15") (VDate (mkDate 2024 1 15 18 30 0 0))
              (mkDate 2024 1 15 0 0 0 0) (mkDate 2024 1 15 18 30 0 0))
    as (w1 & H1 & H2 & _).
  - reflexivity.
  - reflexivity.
  - unfold calendar_date; cbn; lia.
  - unfold same_day; cbn; auto.
  - reflexivity.
  - constructor.
  - exists w1. split; [exact H1 | exact H2].
Defined.

(** The scenario of the specification: one document, loaded once. *)
Example scenario_first_load :
  let t := tables (after_run [plan_p1] (noon 2024 1 20)) in
  dim_organization t = [mkOrg 1 "acme" "acme"] /\
  dim_plan_type t = [mkPlanType 1 "innetwork" "inNetwork"] /\
  dim_date t = [mkDateRow 20240115 "2024-01-15"] /\
  map plan_id (dim_plan t) = ["p1"] /\
  fact_plan_costs t
  = [mkPlanCost 1 1 1 20240115 (whole 2000) (whole 23) (whole 2023)] /\
  fact_service_costs t = [] /\
  map (fun r => (status r, records_processed r, records_failed r))
      (etl_audit_log t) = [("SUCCESS", 1, 0)].
Proof. vm_compute. repeat split. Qed.

(** C2, on a run over three documents whose second one is the plan of
    [test_cdc.js], with lists where the amounts are expected: the run
    completes and its audit row reports 3 processed, 1 failed. *)
Lemma failing_documents_are_counted_witness :
  exists w' row,
    runETL (env_of [plan_p1; plan_cdc; plan_with_services] (noon 2024 1 20))
           (fresh_process empty_tables zero_sequences) = (Ret VUndefined, w') /\
    etl_audit_log (tables w') = [row] /\
    records_processed row = 3 /\ records_failed row = 1.
Proof.
  destruct (failing_documents_are_counted
              (env_of [plan_p1; plan_cdc; plan_with_services] (noon 2024 1 20))
              empty_tables zero_sequences)
    as (_ & _ & w' & row & R & A & P & F & _).
  - reflexivity.
  - reflexivity.
  - repeat constructor.
  - exists w', row. split; [exact R|]. split; [exact A|].
    split; [exact P|]. rewrite F. vm_compute. reflexivity.
Defined.

(** C3 does not hold of the code.  A run that starts at
    1705312800000 ms and ends 1500 ms later writes an audit row whose
    [end_time] is the epoch: [logETLRun] runs before [stats.endTime] is
    assigned, so the row holds [new Date(null)].  The counts of the row are
    in order, the recorded duration is not. *)
Theorem audit_row_end_time_is_epoch :
  let env := env_of [plan_p1; plan_cdc] (noon 2024 1 20) in
  let w := snd (runETL env (fresh_process empty_tables zero_sequences)) in
  t_end env - t_start env = 1500 /\
  endTime (stats w) = Some (t_end env) /\
  map (fun r => (start_time r, end_time r)) (etl_audit_log (tables w))
  = [(1705312800000, 0)] /\
  map (fun r => (records_processed r, records_inserted r, records_failed r))
      (etl_audit_log (tables w))
  = [(2, 1, 1)].
Proof. vm_compute. repeat split. Qed.





(** C7, on the two linked services of [test_cdc.js], which carry no cost
    data: the load returns, with two rows of zeros. *)
Lemma service_facts_per_entry_witness :
  let plan := plan_with_services in
  let w := snd (loadDimensions (noon 2024 1 20) plan
                  (fresh_process empty_tables zero_sequences)) in
  let keys := mkKeys 1 1 20250115 1 in
  exists w' facts,
    loadServiceFacts plan keys w = (Ret tt, w') /\
    fact_service_costs (tables w') = facts /\ List.length facts = 2%nat /\
    map (fun r => (sc_deductible r, sc_copay r, total_service_cost r)) facts
    = [(0, 0, 0); (0, 0, 0)].
Proof.
  intros plan w keys.
  destruct (service_facts_per_entry plan keys w
              (lookup "linkedPlanServices"
                 match plan with VObj fs => fs | _ => [] end) eq_refl)
    as (_ & Count & Returns & _).
  destruct (Returns _ eq_refl) as (w' & R).
  - repeat constructor.
    + eexists _, "Cardiology", 0, 0. cbn.
      repeat split; try reflexivity; try lia. left; reflexivity.
    + eexists _, "Radiology", 0, 0. cbn.
      repeat split; try reflexivity; try lia. left; reflexivity.
  - vm_compute. repeat split.
  - destruct (Count _ w' eq_refl R) as (facts & F & L & _).
    exists w', (fact_service_costs (tables w')).
    split; [exact R|]. split; [reflexivity|].
    split.
    + rewrite F. cbn. exact L.
    + pose proof R as R'. vm_compute in R'. injection R' as <-. reflexivity.
Defined.

(** C7, the document on which the loader throws.  The list of
    [plan_null_service] has two entries, a service and [null]: the loader
    writes the row of the first entry and throws on the second, and the
    run rolls the document back, so that no row of [fact_service_costs] is
    left for a list of two entries. *)
Lemma null_entry_loads_no_service_fact :
  let plan := plan_null_service in
  let w := snd (loadDimensions (noon 2024 1 20) plan
                  (fresh_process empty_tables zero_sequences)) in
  let keys := mkKeys 1 1 20240115 1 in
  prop plan "linkedPlanServices"
  = Ret (VArr [VObj [("name", VStr "Cardiology")]; VNull]) /\
  (exists e w',
     loadServiceFacts plan keys w = (Throw e, w') /\
     List.length (fact_service_costs (tables w')) = 1%nat) /\
  fact_service_costs (tables (after_run [plan] (noon 2024 1 20))) = [].
Proof.
  vm_compute. split; [reflexivity|]. split; [|reflexivity].
  eexists. eexists. split; reflexivity.
Qed.

(** C8 does not hold of the code.  A run that cannot reach MongoDB
    resolves to [false] and the script still ends with status 0; and a run
    with a failed document resolves to [undefined], as a run without. *)
Lemma unreachable_store_exits_zero :
  fst (runETL (env_mongo_down [plan_p1] (noon 2024 1 20))
              (fresh_process empty_tables zero_sequences))
  = Ret (VBool false) /\
  fst (main (env_mongo_down [plan_p1] (noon 2024 1 20))
            empty_tables zero_sequences) = 0 /\
  fst (runETL (env_of [plan_cdc] (noon 2024 1 20))
              (fresh_process empty_tables zero_sequences)) = Ret VUndefined /\
  map records_failed
      (etl_audit_log (tables (after_run [plan_cdc] (noon 2024 1 20)))) = [1] /\
  fst (runETL (env_of [plan_p1] (noon 2024 1 20))
              (fresh_process empty_tables zero_sequences)) = Ret VUndefined.
Proof. vm_compute. repeat split. Qed.

(** C8, on a run that cannot reach MongoDB. *)
Lemma completion_signal_and_exit_status_witness :
  let env := env_mongo_down [plan_p1] (noon 2024 1 20) in
  fst (runETL env (fresh_process empty_tables zero_sequences))
  = Ret (VBool false) /\
  fst (main env empty_tables zero_sequences) = 0 /\
  connections (snd (runETL env (fresh_process empty_tables zero_sequences)))
  = mkConnections false false true.
Proof.
  intros env.
  apply (completion_signal_and_exit_status env empty_tables zero_sequences).
  repeat constructor.
Defined.

(** C10, on a plan that has neither organization nor plan type. *)
Lemma missing_org_and_plan_type_witness :
  let w := fresh_process empty_tables zero_sequences in
  exists w' row ro rt,
    load_plan (noon 2024 1 20) plan_anonymous w = (Ret tt, w') /\
    fact_plan_costs (tables w') = [row] /\
    In ro (dim_organization (tables w')) /\
    In rt (dim_plan_type (tables w')) /\
    pc_org_key row = org_key ro /\ org_id ro = "unknown" /\
    pc_plan_type_key row = plan_type_key rt /\ plan_type_code rt = "unknown".
Proof.
  intros w.
  destruct (missing_org_and_plan_type (noon 2024 1 20) plan_anonymous w)
    as (HOrg & HType).
  destruct (HOrg VUndefined eq_refl eq_refl) as (_ & FactO).
  destruct (HType VUndefined eq_refl eq_refl) as (_ & FactT).
  destruct (load_plan (noon 2024 1 20) plan_anonymous w) as [o w'] eqn:R.
  assert (O : o = Ret tt) by (vm_compute in R; congruence). subst o.
  destruct (FactO w' eq_refl) as (row & ro & F1 & I1 & K1 & N1 & _).
  destruct (FactT w' eq_refl) as (row' & rt & F2 & I2 & K2 & C2).
  assert (row' = row).
  { rewrite F1 in F2. apply app_inv_head in F2. congruence. }
  subst row'.
  exists w', row, ro, rt. repeat split; assumption.
Defined.

End ETLSpec.

(* ===================================================================== *)
(** * More properties of the watcher                                      *)
(* ===================================================================== *)

Module LifecycleSpec.
Import Watcher Lifecycle.

Lemma follow_app evs1 : forall s u evs2,
  follow s u (evs1 ++ evs2)
  = match follow s u evs1 with
    | Some (s1, u1) => follow s1 u1 evs2
    | None => None
    end.
Proof.
  induction evs1 as [|e evs1 IH]; intros s u evs2; cbn; [reflexivity|].
  destruct (step s e); [apply IH | reflexivity].
Qed.

Lemma follow_run evs : forall s u s' u',
  follow s u evs = Some (s', u') -> run s evs = Some s'.
Proof.
  induction evs as [|e evs IH]; intros s u s' u'; cbn.
  - intros [= -> _]. reflexivity.
  - destruct (step s e) as [s1|]; [apply IH | discriminate].
Qed.

(** One event keeps [stale -> run_pending]. *)
Lemma pending_step s u e s' :
  Inv s -> (u = true -> run_pending s) ->
  step s e = Some s' ->
  stale_after s u e s' = true -> run_pending s'.
Proof.
  intros (Hw & Hr & Hi & Ht) Hu Hs.
  unfold stale_after, run_pending.
  destruct (Nat.ltb_spec (spawned s) (spawned s')) as [L|L]; [discriminate|].
  destruct e as [now | code | code | now]; cbn in Hs.
  - rewrite Hw in Hs. injection Hs as <-. unfold runETL in *.
    destruct (etlRunning s) eqn:R; cbn in *; [|lia].
    intros _. left. split; [reflexivity|].
    intros E. apply app_eq_nil in E. destruct E; discriminate.
  - destruct (children s) eqn:C; [discriminate|]. injection Hs as <-.
    unfold on_close.
    destruct (etlQueue s) eqn:Q; cbn; intros U.
    + destruct (Hu U) as [[_ N] | N]; [congruence | right; exact N].
    + right. intros E. apply app_eq_nil in E. destruct E; discriminate.
  - destruct (children s) eqn:C; [discriminate|]. injection Hs as <-.
    unfold on_close, on_error; cbn.
    destruct (etlQueue s) eqn:Q; cbn; intros U.
    + destruct (Hu U) as [[_ N] | N]; [congruence | right; exact N].
    + right. intros E. apply app_eq_nil in E. destruct E; discriminate.
  - destruct (timers s) as [|d rest] eqn:T; [discriminate|].
    injection Hs as <-. unfold runETL in *; cbn in *.
    destruct (etlRunning s) eqn:R; cbn in *; [|lia].
    intros _. left. split; [reflexivity|].
    intros E. apply app_eq_nil in E. destruct E; discriminate.
Qed.

Lemma pending_follow evs : forall s u s' u',
  Inv s -> (u = true -> run_pending s) ->
  follow s u evs = Some (s', u') ->
  Inv s' /\ (u' = true -> run_pending s').
Proof.
  induction evs as [|e evs IH]; intros s u s' u' HI Hu; cbn.
  - intros [= <- <-]. auto.
  - destruct (step s e) as [s1|] eqn:Hs; [|discriminate].
    apply IH.
    + eapply WatcherSpec.Inv_step; eauto.
    + eapply pending_step; eauto.
Qed.

Lemma ltb_succ n : (n <? S n)%nat = true.
Proof. apply Nat.ltb_lt. lia. Qed.

(** From a state where a run is pending, the end of the child and the
    oldest timer alone lead to a spawn. *)
Lemma pending_served s :
  Inv s -> run_pending s ->
  exists evs s',
    (List.length evs <= 2)%nat /\ Forall quiet evs /\
    follow s true evs = Some (s', false).
Proof.
  intros (Hw & Hr & Hi & Ht) HP.
  destruct (etlRunning s) eqn:R.
  - specialize (Hr eq_refl).
    assert (E : exists s', follow s true [Close 0; Timer 0] = Some (s', false)).
    { cbn -[Nat.ltb]. rewrite Hr. unfold on_close.
      destruct (etlQueue s) as [|t0 q] eqn:Q.
      - destruct HP as [[_ N] | N]; [congruence|].
        destruct (timers s) as [|d rest] eqn:T; [congruence|].
        cbn -[Nat.ltb]. unfold stale_after, runETL.
        cbn -[Nat.ltb]. rewrite Nat.ltb_irrefl, ltb_succ. eauto.
      - destruct (timers s) as [|d rest] eqn:T;
          cbn -[Nat.ltb]; unfold stale_after, runETL;
          cbn -[Nat.ltb]; rewrite Nat.ltb_irrefl, ltb_succ; eauto. }
    destruct E as [s' E]. exists [Close 0; Timer 0], s'.
    split; [cbn; lia|]. split; [repeat constructor | exact E].
  - destruct (Hi eq_refl) as [Hc Hq].
    destruct HP as [[N _] | N]; [congruence|].
    destruct (timers s) as [|d rest] eqn:T; [congruence|].
    exists [Timer 0]. eexists.
    split; [cbn; lia|]. split; [repeat constructor|].
    cbn -[Nat.ltb]. rewrite T. unfold stale_after, runETL.
    cbn -[Nat.ltb]. rewrite R. cbn -[Nat.ltb]. rewrite ltb_succ. reflexivity.
Qed.

(** X1.  No notification is lost.  Whatever the coordinator goes through
    after startup, if a change was notified since the last run was
    spawned, then a child is still running with the notification held in
    [etlQueue], or a [setTimeout(runETL, 2000)] is pending; and from there
    the end of that child and the oldest timer, at most two events with no
    further notification, lead to a new spawn. *)
Theorem no_notification_is_lost :
  forall (now : Z) (s : state) (evs : list event) (s' : state),
    setupChangeStream true now init_state = Some s ->
    follow s false evs = Some (s', true) ->
    run_pending s' /\
    exists evs2 s2,
      (List.length evs2 <= 2)%nat /\ Forall quiet evs2 /\
      follow s' true evs2 = Some (s2, false).
Proof.
  intros now s evs s' Hstart Hf.
  assert (HI : Inv s) by (eapply WatcherSpec.Inv_startup; eauto).
  destruct (pending_follow evs s false s' true HI) as [HI' HP]; auto.
  - discriminate.
  - split; [auto|]. apply pending_served; auto.
Qed.

Lemma no_notification_is_lost_witness :
  exists s s',
    setupChangeStream true 0 init_state = Some s /\
    follow s false [Change 5; Change 7] = Some (s', true) /\
    run_pending s'.
Proof.
  eexists. eexists. split; [reflexivity|]. split; [reflexivity|].
  eapply (no_notification_is_lost 0 _ [Change 5; Change 7]); reflexivity.
Defined.

(** ** Shutdown *)

Lemma Shutdown_loaded : Shutdown loaded.
Proof.
  unfold Shutdown, loaded; cbn. repeat split; auto; discriminate.
Qed.

(** What one occurrence does to the fields of the shutdown. *)
Lemma occur_cases p o p' :
  occur p o = Some p' ->
  exit_status p = None /\
  ((shuttingDown p' = shuttingDown p /\ close_calls p' = close_calls p /\
    closing p' = closing p /\
    (exit_status p' = None \/
     exit_status p' = Some 1 /\
     exists now, o = Ready false now /\ (0 < awaiting p)%nat)) \/
   (exists sig, o = Signal sig /\ shuttingDown p = false /\
    shuttingDown p' = true /\ close_calls p' = S (close_calls p) /\
    closing p' = true /\ exit_status p' = None) \/
   (o = Closed /\ closing p = true /\ shuttingDown p' = shuttingDown p /\
    close_calls p' = close_calls p /\ closing p' = false /\
    exit_status p' = Some 0) \/
   (o = CloseFailed /\ closing p = true /\ shuttingDown p' = shuttingDown p /\
    close_calls p' = close_calls p /\ closing p' = false /\
    exit_status p' = None)).
Proof.
  unfold occur. destruct (exit_status p) eqn:E; [discriminate|].
  intros Ho. split; [reflexivity|].
  destruct o as [opened now | | | e | sig | | | |].
  - left. destruct (awaiting p) as [|n] eqn:A.
    + injection Ho as <-. repeat split; auto.
    + injection Ho as <-. unfold on_ready. destruct opened; cbn.
      * repeat split; auto.
      * repeat split; auto. right. split; [reflexivity|].
        exists now. split; [reflexivity | lia].
  - left. destruct (watching (coordinator p)); [|discriminate].
    injection Ho as <-. cbn. repeat split; auto.
  - left. destruct (reconnects p); [discriminate|].
    injection Ho as <-. cbn. repeat split; auto.
  - left. destruct (step (coordinator p) e); [|discriminate].
    injection Ho as <-. cbn. repeat split; auto.
  - injection Ho as <-. unfold on_signal.
    destruct (shuttingDown p) eqn:D.
    + left. rewrite D. repeat split; auto.
    + right. left. exists sig. cbn. repeat split; auto.
  - destruct (closing p) eqn:C; [|discriminate]. injection Ho as <-.
    right. right. left. cbn. repeat split; auto.
  - destruct (closing p) eqn:C; [|discriminate]. injection Ho as <-.
    right. right. right. cbn. repeat split; auto.
  - injection Ho as <-. left. repeat split; auto.
  - injection Ho as <-. left. repeat split; auto.
Qed.

Lemma Shutdown_occur p o p' :
  Shutdown p -> occur p o = Some p' -> Shutdown p'.
Proof.
  intros (H0 & H1 & H2 & H3) Ho.
  destruct (occur_cases _ _ _ Ho) as (E & C). unfold Shutdown.
  destruct C as [(D & N & K & X) | [(sig & _ & D & D' & N & K & X)
                | [(_ & K0 & D & N & K & X) | (_ & K0 & D & N & K & X)]]];
    rewrite ?D, ?N, ?K in *.
  - destruct X as [X | (X & _)]; rewrite X.
    + intuition (try discriminate; try congruence).
    + split; [exact H0|]. split; [exact H1|]. split; [discriminate|].
      intros c [= <-]. auto.
  - rewrite D', X. destruct (H0 eq_refl) as [-> _].
    intuition (try discriminate; try congruence).
  - rewrite X. destruct (shuttingDown p) eqn:Dp.
    + split; [discriminate|]. split; [exact H1|]. split; [auto|].
      intros c [= <-]. auto.
    + destruct (H0 eq_refl); congruence.
  - rewrite X. destruct (shuttingDown p) eqn:Dp.
    + intuition (try discriminate; try congruence).
    + destruct (H0 eq_refl); congruence.
Qed.

Lemma Shutdown_live os : forall p p',
  Shutdown p -> live p os = Some p' -> Shutdown p'.
Proof.
  induction os as [|o os IH]; intros p p' HS; cbn.
  - intros [= <-]. exact HS.
  - destruct (occur p o) as [p1|] eqn:Ho; [|discriminate].
    apply IH. eapply Shutdown_occur; eauto.
Qed.

(** Nothing happens to a process that has exited. *)
Lemma live_exited p os p' c :
  exit_status p = Some c -> live p os = Some p' -> os = [] /\ p' = p.
Proof.
  intros E. destruct os as [|o os]; cbn.
  - intros [= <-]. auto.
  - unfold occur. rewrite E. discriminate.
Qed.

(** What a state of the process tells about the occurrences before it. *)
Lemma live_history os : forall p p',
  live p os = Some p' ->
  (shuttingDown p' = true ->
   shuttingDown p = true \/ In (Signal SIGINT) os \/ In (Signal SIGTERM) os) /\
  (exit_status p' = Some 0 -> exit_status p = Some 0 \/ In Closed os) /\
  (exit_status p' = Some 1 ->
   exit_status p = Some 1 \/ failed_to_connect p os).
Proof.
  induction os as [|o os IH]; intros p p'; cbn.
  - intros [= <-]. auto.
  - destruct (occur p o) as [p1|] eqn:Ho; [|discriminate].
    intros HL. destruct (IH _ _ HL) as (Hs & He & Hf).
    destruct (occur_cases _ _ _ Ho) as (E & C).
    split; [|split].
    + intros D. destruct (Hs D) as [D1 | [I | I]]; auto.
      destruct C as [(D0 & _) | [(sig & -> & _) | [(_ & _ & D0 & _)
                    | (_ & _ & D0 & _)]]];
        try (left; congruence).
      destruct sig; auto.
    + intros X. destruct (He X) as [X1 | I]; auto.
      destruct C as [(_ & _ & _ & [X0 | (X0 & _)]) | [(sig & _ & _ & _ & _ & _ & X0)
                    | [(-> & _) | (_ & _ & _ & _ & _ & X0)]]];
        try congruence.
      auto.
    + intros X. right. destruct (Hf X) as [X1 | (os' & q & now & -> & L & A)].
      * destruct (live_exited _ _ _ _ X1 HL) as [-> ->].
        destruct C as [(_ & _ & _ & [X0 | (_ & now & -> & A)])
                      | [(sig & _ & _ & _ & _ & _ & X0)
                      | [(_ & _ & _ & _ & _ & X0) | (_ & _ & _ & _ & _ & X0)]]];
          try congruence.
        exists [], p, now. cbn. auto.
      * exists (o :: os'), q, now. cbn. rewrite Ho. auto.
Qed.

(** After a call of [close()] that was rejected: the flag is up, no call
    is pending, and the process has not exited with status 0. *)
Definition deaf (p : process) : Prop :=
  shuttingDown p = true /\ closing p = false /\ close_calls p = 1%nat /\
  exit_status p <> Some 0.

Lemma deaf_occur p o p' : deaf p -> occur p o = Some p' -> deaf p'.
Proof.
  intros (D & C & N & X) Ho.
  destruct (occur_cases _ _ _ Ho) as (E & Cs). unfold deaf.
  destruct Cs as [(D' & N' & K' & X') | [(sig & _ & D0 & _)
                 | [(_ & K0 & _) | (_ & K0 & _)]]]; try congruence.
  rewrite D', N', K'. repeat split; auto.
  destruct X' as [-> | (-> & _)]; discriminate.
Qed.

Lemma deaf_live os : forall p p',
  deaf p -> live p os = Some p' -> deaf p'.
Proof.
  induction os as [|o os IH]; intros p p' HD; cbn.
  - intros [= <-]. auto.
  - destruct (occur p o) as [p1|] eqn:Ho; [|discriminate].
    intros HL. eapply IH; [|exact HL]. eapply deaf_occur; eauto.
Qed.

(** X2.  Shutdown happens once.  However many [SIGINT] and [SIGTERM]
    signals, coordinator events, change stream errors, reconnections,
    uncaught exceptions and unhandled rejections reach the watcher,
    [watcherConnection.close()] is called at most once; the process exits
    with status 0 only after a signal and once that call has resolved,
    with status 1 only when the connection reports an error while a call of
    [setupChangeStream] awaits it (the first call, or one made five
    seconds after a change stream error), and with no other status. *)
Theorem shutdown_closes_once :
  forall (os : list occurrence) (p : process),
    live loaded os = Some p ->
    (close_calls p <= 1)%nat /\
    (shuttingDown p = true <-> close_calls p = 1%nat) /\
    (exit_status p = Some 0 ->
     (In (Signal SIGINT) os \/ In (Signal SIGTERM) os) /\ In Closed os) /\
    (exit_status p = Some 1 -> failed_to_connect loaded os) /\
    (forall c, exit_status p = Some c -> c = 0 \/ c = 1).
Proof.
  intros os p HL.
  pose proof (Shutdown_live os _ _ Shutdown_loaded HL)
    as (H0 & H1 & H2 & H4).
  destruct (live_history os _ _ HL) as (Hs & He & Hf).
  split; [|split; [|split; [|split]]]; auto.
  - destruct (shuttingDown p) eqn:D.
    + rewrite H1; auto.
    + destruct (H0 eq_refl) as [-> _]. lia.
  - split; [auto|]. intros C. destruct (shuttingDown p) eqn:D; auto.
    destruct (H0 eq_refl); congruence.
  - intros X. destruct (H2 X) as [D _]. split.
    + destruct (Hs D) as [D0 | I]; [discriminate | exact I].
    + destruct (He X) as [X0 | I]; [discriminate | exact I].
  - intros X. destruct (Hf X) as [X0 | F]; [discriminate | exact F].
Qed.

Lemma shutdown_closes_once_witness :
  (exists p,
     live loaded [Ready true 0; Signal SIGINT; Signal SIGTERM;
                  Coordinator (Change 5); Signal SIGINT; Closed] = Some p /\
     close_calls p = 1%nat /\ exit_status p = Some 0 /\
     children (coordinator p) = 1%nat) /\
  (exists p,
     live loaded [Ready true 0; StreamError; Coordinator (Change 5);
                  Reconnect; Ready false 9] = Some p /\
     watching (coordinator p) = true /\ exit_status p = Some 1 /\
     failed_to_connect loaded
       [Ready true 0; StreamError; Coordinator (Change 5); Reconnect;
        Ready false 9]).
Proof.
  split.
  - eexists. split; [reflexivity|].
    pose proof (shutdown_closes_once
                  [Ready true 0; Signal SIGINT; Signal SIGTERM;
                   Coordinator (Change 5); Signal SIGINT; Closed] _ eq_refl)
      as (_ & H & _).
    split; [apply H; reflexivity|]. split; reflexivity.
  - eexists. split; [reflexivity|].
    pose proof (shutdown_closes_once
                  [Ready true 0; StreamError; Coordinator (Change 5);
                   Reconnect; Ready false 9] _ eq_refl)
      as (_ & _ & _ & H & _).
    split; [reflexivity|]. split; [reflexivity|]. apply H. reflexivity.
Defined.

(** X3.  A shutdown that fails cannot be repeated.  If the promise of
    [watcherConnection.close()] is rejected, the handler never reaches
    [process.exit(0)] and [shuttingDown] stays up: whatever happens next,
    further signals included, [close()] is not called again and the
    process never exits with status 0.  The only exit left is the one in
    the [catch] of [setupChangeStream], with status 1, when the connection
    reports an error to a call that awaits it. *)
Theorem failed_close_disables_shutdown :
  forall (os1 os2 : list occurrence) (p1 p2 p : process),
    live loaded os1 = Some p1 ->
    occur p1 CloseFailed = Some p2 ->
    live p2 os2 = Some p ->
    close_calls p = 1%nat /\
    exit_status p <> Some 0 /\
    (exit_status p = None \/
     exit_status p = Some 1 /\ failed_to_connect p2 os2).
Proof.
  intros os1 os2 p1 p2 p H1 H2 H3.
  pose proof (Shutdown_live os1 _ _ Shutdown_loaded H1) as HS1.
  pose proof (Shutdown_occur _ _ _ HS1 H2) as HS2.
  pose proof (Shutdown_live os2 _ _ HS2 H3) as (_ & _ & _ & S4).
  destruct HS1 as (S0 & S1 & _).
  assert (HD : deaf p2 /\ exit_status p2 = None).
  { unfold occur in H2. destruct (exit_status p1) eqn:E; [discriminate|].
    destruct (closing p1) eqn:C; [|discriminate]. injection H2 as <-.
    unfold deaf, on_close_failed; cbn. rewrite E.
    destruct (shuttingDown p1) eqn:D.
    - intuition (try discriminate; try congruence).
    - destruct (S0 eq_refl); congruence. }
  destruct HD as [HD E2].
  destruct (deaf_live os2 _ _ HD H3) as (D & C & N & X).
  destruct (live_history os2 _ _ H3) as (_ & _ & Hf).
  split; [exact N|]. split; [exact X|].
  destruct (exit_status p) as [c|] eqn:Ep; [|auto].
  right. destruct (S4 c eq_refl) as [-> | ->]; [congruence|].
  split; [reflexivity|].
  destruct (Hf eq_refl) as [Q | F]; [congruence | exact F].
Qed.

Lemma failed_close_disables_shutdown_witness :
  (exists p1 p2 p,
     live loaded [Ready true 0; Signal SIGTERM] = Some p1 /\
     occur p1 CloseFailed = Some p2 /\
     live p2 [Signal SIGINT; Signal SIGTERM; UnhandledRejection] = Some p /\
     close_calls p = 1%nat /\ exit_status p = None) /\
  (exists p1 p2 p,
     live loaded [Ready true 0; Signal SIGTERM] = Some p1 /\
     occur p1 CloseFailed = Some p2 /\
     live p2 [StreamError; Signal SIGINT; Reconnect; Ready false 9] = Some p /\
     close_calls p = 1%nat /\ exit_status p = Some 1).
Proof.
  split.
  - eexists. eexists. eexists.
    split; [reflexivity|]. split; [reflexivity|]. split; [reflexivity|].
    destruct (failed_close_disables_shutdown
                [Ready true 0; Signal SIGTERM]
                [Signal SIGINT; Signal SIGTERM; UnhandledRejection]
                _ _ _ eq_refl eq_refl eq_refl) as (N & _).
    split; [exact N | reflexivity].
  - eexists. eexists. eexists.
    split; [reflexivity|]. split; [reflexivity|]. split; [reflexivity|].
    destruct (failed_close_disables_shutdown
                [Ready true 0; Signal SIGTERM]
                [StreamError; Signal SIGINT; Reconnect; Ready false 9]
                _ _ _ eq_refl eq_refl eq_refl) as (N & _).
    split; [exact N | reflexivity].
Defined.

End LifecycleSpec.

(* ===================================================================== *)
(** * More properties of the load pipeline                                *)
(* ===================================================================== *)

Module ETLMore.
Import ETL ETLSpec Warehouse.
Local Open Scope etl_scope.

Lemma lower_ascii_normal c :
  is_upper (lower_ascii c) = false /\
  (is_space (lower_ascii c) = true -> is_space c = true).
Proof.
  destruct c as [[] [] [] [] [] [] [] []]; vm_compute; auto.
Qed.

Lemma replace_spaces_normalized s : forall b,
  normalized (replace_spaces b (toLowerCase s)) = true.
Proof.
  induction s as [|c s IH]; intros b; cbn [toLowerCase replace_spaces].
  - reflexivity.
  - destruct (lower_ascii_normal c) as [U _].
    destruct (is_space (lower_ascii c)) eqn:S.
    + destruct b; [apply IH|]. cbn [normalized].
      rewrite IH. reflexivity.
    + cbn [normalized]. rewrite U, S, IH. reflexivity.
Qed.

Lemma normalize_code_normalized v code :
  normalize_code v = Ret code -> normalized code = true.
Proof.
  destruct v; cbn; try discriminate.
  intros [= <-]. apply replace_spaces_normalized.
Qed.

Section WithRuntime.
Context `{RT : Runtime}.

(** X4.  The plan type that a load resolves is the row of the normalized
    code.  Whenever the plan-type block returns a key, that key belongs to
    the first row of [dim_plan_type] whose code is the document's plan
    type in lower case with every run of blanks replaced by [_]; such a
    code holds no upper-case letter and no blank, so a row whose code does
    (the rows [inNetwork] and [outOfNetwork] that the schema script
    inserts) is never the one resolved. *)
Theorem plan_type_code_is_normalized :
  forall (plan : value) (w : World) (k : Z) (w' : World),
    plan_type_dimension plan w = (Ret k, w') ->
    exists pt r rest,
      prop plan "planType" = Ret pt /\
      normalize_code (or_else pt (VStr "unknown")) = Ret (plan_type_code r) /\
      filter (has_plan_type_code (plan_type_code r)) (dim_plan_type (tables w'))
      = r :: rest /\
      plan_type_key r = k /\
      normalized (plan_type_code r) = true /\
      forall r0, normalized (plan_type_code r0) = false -> r <> r0.
Proof.
  intros plan w k w' H.
  apply plan_type_dimension_inv in H.
  destruct H as (pt & code & rows' & r & rest & Hp & N & F & K & C & _ & T & _).
  exists pt, r, rest. subst code.
  pose proof (normalize_code_normalized _ _ N) as Hn.
  repeat split; auto.
  - rewrite T. destruct (tables w); exact F.
  - intros r0 H0 ->. congruence.
Qed.

(** X5.  Plan types are merged by their normalized code.  Once a document
    has resolved its plan type, every document whose plan type has the
    same normalized code ([In Network], [in   network], ...) resolves the
    same key and writes nothing: the row keeps the name of the first
    document. *)
Theorem plan_types_merge_by_code :
  forall (plan1 plan2 pt1 pt2 : value) (w : World) (k : Z) (w1 : World),
    plan_type_dimension plan1 w = (Ret k, w1) ->
    prop plan1 "planType" = Ret pt1 ->
    prop plan2 "planType" = Ret pt2 ->
    normalize_code (or_else pt2 (VStr "unknown"))
    = normalize_code (or_else pt1 (VStr "unknown")) ->
    plan_type_dimension plan2 w1 = (Ret k, w1).
Proof.
  intros plan1 plan2 pt1 pt2 w k w1 H Hp1 Hp2 E.
  apply plan_type_dimension_inv in H.
  destruct H as (pt & code & rows' & r & rest & Hp & N & F & K & C & _ & T & _).
  assert (pt = pt1) by congruence. subst pt.
  rewrite N in E.
  unfold plan_type_dimension.
  rewrite (bind_lift _ _ _ _ Hp2). cbv zeta.
  rewrite (bind_lift _ _ _ _ E).
  unfold bind at 1, select_plan_type_key, gets.
  rewrite T. cbn [dim_plan_type set_dim_plan_type]. rewrite F.
  cbn [map]. rewrite K. reflexivity.
Qed.

(** X6.  The pipeline stores the organization's identifier as its name.
    For a document whose [_org] is a text of at most 255 characters that
    [dim_organization] already holds, the organization block returns the
    key of that row and rewrites its [org_name] to the identifier itself,
    whatever name the row carried: keys, identifiers and all other rows
    stay as they are. *)
Theorem organization_name_is_overwritten :
  forall (plan : value) (s : string) (w : World) (r0 : org_row),
    prop plan "_org" = Ret (VStr s) -> s <> "" ->
    (String.length s <= 255)%nat ->
    find (has_org_id s) (dim_organization (tables w)) = Some r0 ->
    exists w',
      organization_dimension plan w = (Ret (org_key r0), w') /\
      tables w'
      = set_dim_organization
          (rename_organization s s (dim_organization (tables w))) (tables w) /\
      find (has_org_id s) (dim_organization (tables w'))
      = Some (mkOrg (org_key r0) s s) /\
      org_index (dim_organization (tables w'))
      = org_index (dim_organization (tables w)).
Proof.
  intros plan s w r0 Hp Hs Hl Hf.
  assert (Tr : truthy (VStr s) = true).
  { cbn. destruct (String.eqb_spec s ""); [contradiction | reflexivity]. }
  assert (V : varchar 255 s = Ret s).
  { unfold varchar. apply Nat.leb_le in Hl. rewrite Hl. reflexivity. }
  assert (R : organization_dimension plan w
              = (Ret (org_key r0),
                 with_tables
                   (set_dim_organization
                      (rename_organization s s (dim_organization (tables w)))
                      (tables (with_sequences
                         (mkSequences (org_key_seq (sequences w) + 1)
                            (plan_type_key_seq (sequences w))
                            (service_key_seq (sequences w))
                            (plan_key_seq (sequences w))) w)))
                   (with_sequences
                         (mkSequences (org_key_seq (sequences w) + 1)
                            (plan_type_key_seq (sequences w))
                            (service_key_seq (sequences w))
                            (plan_key_seq (sequences w))) w))).
  { unfold organization_dimension. rewrite (bind_lift _ _ _ _ Hp). cbv zeta.
    unfold or_else. rewrite Tr. unfold upsert_dim_organization.
    cbn [pg_text].
    rewrite bind_bind, (bind_lift _ _ _ _ V).
    rewrite bind_bind, (bind_lift _ _ _ _ V).
    unfold bind, nextval_org_key, gets, update_tables, modify, ret, lift.
    cbn [tables with_sequences]. rewrite Hf. reflexivity. }
  eexists. split; [exact R|]. cbn [tables with_tables with_sequences].
  split; [reflexivity|].
  cbn [dim_organization set_dim_organization].
  split.
  - unfold rename_organization.
    pose proof (find_org_update s s (dim_organization (tables w)) r0 Hf) as U.
    exact U.
  - unfold rename_organization. apply org_index_update.
Qed.

Lemma plan_dimension_found plan oid r rest a b cd w :
  prop plan "objectId" = Ret oid -> truthy oid = true ->
  filter (has_plan_id (pg_text oid)) (dim_plan (tables w)) = r :: rest ->
  plan_dimension plan a b cd w = (Ret (plan_key r), w).
Proof.
  intros Hp Ht F. unfold plan_dimension.
  rewrite (bind_lift _ _ _ _ Hp). rewrite Ht.
  rewrite bind_ret.
  unfold bind at 1, select_plan_key, gets. rewrite F. reflexivity.
Qed.

(** X7.  A plan that [dim_plan] already holds is never updated.  When a
    document whose [objectId] has a row in [dim_plan] is loaded, that table
    is left exactly as it was, whatever plan type, organization and
    creation date the document now carries; the new plan-cost fact points
    to the old plan row and to the plan type of the document as it is
    now. *)
Theorem dim_plan_is_never_updated :
  forall (now : Date) (plan oid : value) (r : plan_row) (rest : list plan_row)
         (w w' : World),
    prop plan "objectId" = Ret oid -> truthy oid = true ->
    filter (has_plan_id (pg_text oid)) (dim_plan (tables w)) = r :: rest ->
    load_plan now plan w = (Ret tt, w') ->
    dim_plan (tables w') = dim_plan (tables w) /\
    exists row rt pt,
      fact_plan_costs (tables w') = fact_plan_costs (tables w) ++ [row] /\
      pc_plan_key row = plan_key r /\
      prop plan "planType" = Ret pt /\
      In rt (dim_plan_type (tables w')) /\
      pc_plan_type_key row = plan_type_key rt /\
      normalize_code (or_else pt (VStr "unknown")) = Ret (plan_type_code rt).
Proof.
  intros now plan oid r rest w w' Hp Ht F H.
  pose proof (load_plan_fact_keys _ _ _ _ H)
    as (row & org & pt & ro & rt & Hrow & _ & Hpt & _ & Hrt & _ & _ & _ & Hk
        & Hn).
  unfold load_plan in H.
  apply bind_inv in H. destruct H as (keys & w1 & HD & H).
  apply bind_inv in H. destruct H as (u & w2 & HF & H).
  unfold loadDimensions in HD.
  apply bind_inv in HD. destruct HD as (ok & wa & HO & HD).
  apply bind_inv in HD. destruct HD as (tk & wb & HT & HD).
  apply bind_inv in HD. destruct HD as (cd & wb' & HC & HD).
  apply lift_inv in HC. destruct HC as [HC ->].
  apply bind_inv in HD. destruct HD as (dk & wc & HG & HD).
  apply bind_inv in HD. destruct HD as (pk & wd & HP & HD).
  unfold ret in HD. injection HD as <- <-.
  apply organization_dimension_inv in HO.
  destruct HO as (_ & rowsO & _ & _ & _ & TO & _).
  apply plan_type_dimension_inv in HT.
  destruct HT as (_ & _ & rowsT & _ & _ & _ & _ & _ & _ & _ & _ & TT & _).
  apply getOrCreateDateKey_inv in HG.
  destruct HG as (_ & rowsD & _ & _ & _ & _ & _ & _ & _ & TD & _).
  assert (P : dim_plan (tables wc) = dim_plan (tables w)).
  { rewrite TD, TT, TO. reflexivity. }
  assert (FP : fact_plan_costs (tables wc) = fact_plan_costs (tables w)).
  { rewrite TD, TT, TO. reflexivity. }
  rewrite <- P in F.
  rewrite (plan_dimension_found plan oid r rest tk ok cd wc Hp Ht F) in HP.
  injection HP as <- <-.
  destruct u.
  apply loadPlanFacts_inv in HF.
  destruct HF as (pcs & d & c & t & _ & _ & _ & _ & -> & _).
  apply loadServiceFacts_inv in H.
  destruct H as (lps & rowsS & facts & _ & _ & _ & TS & _).
  split.
  - rewrite TS. cbn. exact P.
  - exists row, rt, pt.
    assert (Hrow' : fact_plan_costs (tables w')
                    = fact_plan_costs (tables wc) ++
                      [mkPlanCost (plan_key r) tk ok dk d c t]).
    { rewrite TS. reflexivity. }
    rewrite FP, Hrow in Hrow'. apply app_inj_tail in Hrow'.
    destruct Hrow' as [_ ->]. cbn in *. repeat split; auto.
Qed.

(** X8.  A run that cannot reach a store leaves no trace in the warehouse.
    When MongoDB or PostgreSQL cannot be reached, [runETL] resolves to
    [false] and no table is written: [etl_audit_log] gets no row for the
    run. *)
Theorem unreachable_run_writes_nothing :
  forall (env : Environment) (t : Tables) (q : Sequences),
    mongo_up env && pg_up env = false ->
    fst (runETL env (fresh_process t q)) = Ret (VBool false) /\
    tables (snd (runETL env (fresh_process t q))) = t /\
    sequences (snd (runETL env (fresh_process t q))) = q /\
    plansExtracted (stats (snd (runETL env (fresh_process t q)))) = 0.
Proof.
  intros env t q Up.
  unfold runETL, bind, mongoose_connect, pgPool_connect, modify, throw.
  destruct (mongo_up env); [destruct (pg_up env); [discriminate|]|];
    cbn; auto.
Qed.

(** X9.  The status of the audit row.  A run that reaches both stores
    writes one audit row whose status is [SUCCESS] exactly when no
    document failed and [PARTIAL_SUCCESS] otherwise, also when every
    document failed; the row then carries the message
    [<k> plans failed to load], and no message when nothing failed.  The
    number of updated records is always 0. *)
Theorem audit_status_reflects_failures :
  forall (env : Environment) (t : Tables) (q : Sequences),
    mongo_up env = true -> pg_up env = true ->
    Forall is_document (documents env) ->
    exists w' row,
      runETL env (fresh_process t q) = (Ret VUndefined, w') /\
      etl_audit_log (tables w') = etl_audit_log t ++ [row] /\
      job_name row = "MongoDB to PostgreSQL ETL" /\
      job_type row = "FULL_LOAD" /\
      records_updated row = 0 /\
      (records_failed row = 0 ->
       status row = "SUCCESS" /\ error_message row = None) /\
      (records_failed row <> 0 ->
       status row = "PARTIAL_SUCCESS" /\
       error_message row
       = Some (string_of_Z (records_failed row) ++ " plans failed to load")%string).
Proof.
  intros env t q Hm Hp Hd.
  destruct (runETL_connected env t q Hm Hp Hd) as (w' & R & A & _).
  destruct (for_each_plan_documents (clock env) (documents env) 0
              (loading env t q) Hd) as (_ & _ & _ & _ & _ & _ & _ & _ & _ & B).
  eexists. eexists. split; [exact R|]. split; [exact A|].
  unfold audit_of; cbn.
  set (k := failures (clock env) 0 (documents env) (loading env t q)) in *.
  repeat split; auto.
  - rewrite H. reflexivity.
  - rewrite H. reflexivity.
  - destruct (Z.eqb_spec k 0); [contradiction | reflexivity].
  - destruct (Z.gtb_spec k 0); [reflexivity | lia].
Qed.

(** ** What [stats.servicesLoaded] counts *)

Lemma counted_refl w : counted w w.
Proof. unfold counted. lia. Qed.

Lemma counted_trans w1 w2 w3 : counted w1 w2 -> counted w2 w3 -> counted w1 w3.
Proof. unfold counted. lia. Qed.

Lemma counts_ret {A} (a : A) : counts (ret a).
Proof. intros w o w' [= <- <-]. apply counted_refl. Qed.

Lemma counts_throw {A} (e : exn) : counts (@throw A e).
Proof. intros w o w' [= <- <-]. apply counted_refl. Qed.

Lemma counts_lift {A} (o : outcome A) : counts (lift o).
Proof. intros w o' w' [= <- <-]. apply counted_refl. Qed.

Lemma counts_gets {A} (f : World -> A) : counts (gets f).
Proof. intros w o w' [= <- <-]. apply counted_refl. Qed.

Lemma counts_bind {A B} (m : M A) (k : A -> M B) :
  counts m -> (forall a, counts (k a)) -> counts (bind m k).
Proof.
  intros Hm Hk w o w'. unfold bind.
  destruct (m w) as [[a|e] w1] eqn:E.
  - intros H. eapply counted_trans; [eapply Hm; eauto | eapply Hk; eauto].
  - intros [= <- <-]. eapply Hm; eauto.
Qed.

Lemma counts_update_tables f :
  (forall t, fact_service_costs (f t) = fact_service_costs t) ->
  counts (update_tables f).
Proof.
  intros Hf w o w' [= <- <-]. unfold counted, service_rows; cbn.
  rewrite Hf. lia.
Qed.

Lemma counts_nextval_org_key : counts nextval_org_key.
Proof. intros w o w' [= <- <-]. unfold counted, service_rows; cbn. lia. Qed.
Lemma counts_nextval_plan_type_key : counts nextval_plan_type_key.
Proof. intros w o w' [= <- <-]. unfold counted, service_rows; cbn. lia. Qed.
Lemma counts_nextval_service_key : counts nextval_service_key.
Proof. intros w o w' [= <- <-]. unfold counted, service_rows; cbn. lia. Qed.
Lemma counts_nextval_plan_key : counts nextval_plan_key.
Proof. intros w o w' [= <- <-]. unfold counted, service_rows; cbn. lia. Qed.

(** The insertion of a service-cost fact and [stats.servicesLoaded++]
    right after it. *)
Lemma counts_fact_and_counter sk keys d c t :
  counts (bind (insert_fact_service_costs sk keys d c t)
               (fun _ => update_stats (fun st =>
                  mkStats (plansExtracted st) (plansLoaded st)
                          (servicesLoaded st + 1) (errors st) (startTime st)
                          (endTime st)))).
Proof.
  intros w o w'. unfold insert_fact_service_costs, bind, lift, gets,
    update_tables, update_stats, modify.
  destruct (numeric d); [|intros [= <- <-]; apply counted_refl].
  destruct (numeric c); [|intros [= <- <-]; apply counted_refl].
  destruct (numeric t); [|intros [= <- <-]; apply counted_refl].
  destruct (references sk _); [|intros [= <- <-]; apply counted_refl].
  destruct (references (keys_plan_key keys) _);
    [|intros [= <- <-]; apply counted_refl].
  destruct (references (keys_org_key keys) _);
    [|intros [= <- <-]; apply counted_refl].
  destruct (references (keys_creation_date_key keys) _);
    [|intros [= <- <-]; apply counted_refl].
  intros [= <- <-]. unfold counted, service_rows. cbn.
  rewrite length_app. cbn. lia.
Qed.

Ltac counts_steps :=
  repeat first
    [ solve [auto using counts_ret, counts_throw, counts_lift, counts_gets,
             counts_nextval_org_key, counts_nextval_plan_type_key,
             counts_nextval_service_key, counts_nextval_plan_key]
    | apply counts_fact_and_counter
    | apply counts_bind; [|intros ?]
    | apply counts_update_tables; intros ?; reflexivity
    | apply counts_gets
    | match goal with
      | |- counts (match ?x with _ => _ end) => destruct x
      | |- counts (if ?x then _ else _) => destruct x
      end ].

Lemma counts_loadDimensions now plan : counts (loadDimensions now plan).
Proof.
  unfold loadDimensions, organization_dimension, upsert_dim_organization,
    plan_type_dimension, select_plan_type_key, insert_dim_plan_type,
    getOrCreateDateKey, select_date_key, insert_dim_date,
    plan_dimension, select_plan_key, insert_dim_plan.
  counts_steps.
Qed.

Lemma counts_loadPlanFacts plan keys : counts (loadPlanFacts plan keys).
Proof. unfold loadPlanFacts, insert_fact_plan_costs. counts_steps. Qed.

Lemma counts_loadServiceFact keys sd : counts (loadServiceFact keys sd).
Proof.
  unfold loadServiceFact, select_service_key, insert_dim_service.
  counts_steps.
Qed.

Lemma counts_for_each_service keys l : counts (for_each_service keys l).
Proof.
  pose proof counts_loadServiceFact.
  induction l as [|sd l IH]; cbn [for_each_service]; counts_steps.
Qed.

Lemma counts_load_plan now plan : counts (load_plan now plan).
Proof.
  pose proof counts_loadDimensions. pose proof counts_loadPlanFacts.
  pose proof counts_for_each_service.
  unfold load_plan, loadServiceFacts. counts_steps.
Qed.

Lemma process_plan_counts now plan w :
  is_document plan ->
  exists w',
    process_plan now plan w = (Ret tt, w') /\
    overcounted w w' /\
    (fails now plan w = false -> counted w w').
Proof.
  intros Hdoc. destruct plan; try contradiction. clear Hdoc.
  unfold process_plan, try_catch, fails.
  unfold bind at 1, query_BEGIN, modify.
  set (wb := with_snapshot (Some (tables w)) w).
  unfold bind at 1.
  destruct (load_plan now (VObj fields) wb) as [[u|e] wl] eqn:L;
    pose proof (keeps_load_plan _ _ _ _ _ L)
      as (Sn & Cn & Au & Px & Pl & Er & St & En);
    pose proof (counts_load_plan _ _ _ _ _ L) as [Ceq Cge];
    unfold service_rows in Ceq;
    cbn [snapshot connections stats tables with_snapshot wb] in *.
  - eexists. split; [reflexivity|].
    unfold overcounted, counted, service_rows; cbn. split; [lia|].
    intros _. lia.
  - unfold bind, query_ROLLBACK, modify, lift, ret, update_stats.
    rewrite Sn. cbn [prop].
    destruct (truthy (lookup "objectId" fields));
      (eexists; split; [reflexivity|]);
      unfold overcounted, counted, service_rows; cbn;
      (split; [lia | discriminate]).
Qed.

Lemma for_each_plan_counts clock plans : forall i w,
  Forall is_document plans ->
  exists w',
    for_each_plan clock i plans w = (Ret tt, w') /\
    overcounted w w' /\
    (failures clock i plans w = 0 -> counted w w').
Proof.
  induction plans as [|plan rest IH]; intros i w Hdocs.
  - exists w. cbn. split; [reflexivity|].
    split; [unfold overcounted; lia | intros _; apply counted_refl].
  - inversion Hdocs as [|? ? Hd Hr]; subst.
    destruct (process_plan_counts (clock i) plan w Hd) as (w1 & R1 & O1 & E1).
    destruct (IH (S i) w1 Hr) as (w' & R & O & E).
    destruct (for_each_plan_documents clock rest (S i) w1 Hr)
      as (_ & _ & _ & _ & _ & _ & _ & _ & _ & Bound).
    exists w'. cbn [for_each_plan failures].
    rewrite (bind_run _ _ _ _ _ R1), R1. cbn [snd].
    split; [exact R|]. split.
    + unfold overcounted in *. lia.
    + intros Z0. destruct (fails (clock i) plan w); [lia|].
      eapply counted_trans; [apply E1; reflexivity | apply E; lia].
Qed.

(** X10.  [stats.servicesLoaded] counts what was rolled back too.  After a
    run that reaches both stores, the counter is at least the number of
    rows that the run added to [fact_service_costs]: the counter is raised
    after every service fact and is not lowered when the transaction of a
    failing document is rolled back.  The two numbers agree when no
    document failed. *)
Theorem services_loaded_overcounts :
  forall (env : Environment) (t : Tables) (q : Sequences),
    mongo_up env = true -> pg_up env = true ->
    Forall is_document (documents env) ->
    exists w',
      runETL env (fresh_process t q) = (Ret VUndefined, w') /\
      service_rows w' - Z.of_nat (List.length (fact_service_costs t))
      <= servicesLoaded (stats w') /\
      (failures (clock env) 0 (documents env) (loading env t q) = 0 ->
       service_rows w' - Z.of_nat (List.length (fact_service_costs t))
       = servicesLoaded (stats w')).
Proof.
  intros env t q Hm Hp Hdocs. unfold runETL. rewrite Hm, Hp.
  unfold mongoose_connect, pgPool_connect.
  unfold bind at 1, modify. unfold bind at 1. unfold bind at 1, update_stats,
    modify.
  cbn [fresh_process with_stats with_connections stats tables snapshot
       sequences connections initial_stats plansExtracted plansLoaded
       servicesLoaded errors startTime endTime mongo_open client_held
       pool_ended].
  fold (loading env t q).
  destruct (for_each_plan_counts (clock env) (documents env) 0
              (loading env t q) Hdocs) as (w1 & R & O & E).
  rewrite (bind_run _ _ _ _ _ R).
  unfold logETLRun, bind, gets, update_tables, update_stats, modify.
  eexists. split; [reflexivity|].
  unfold overcounted, counted, service_rows in *. cbn in *.
  split; [lia|]. intros Z0. destruct (E Z0). lia.
Qed.

End WithRuntime.

Import Scenario.

Lemma plan_type_code_is_normalized_witness :
  exists k w' r,
    plan_type_dimension plan_p1 installed = (Ret k, w') /\
    map plan_type_code (dim_plan_type (tables installed))
    = ["inNetwork"; "outOfNetwork"; "hmo"; "ppo"; "epo"] /\
    map plan_type_code (dim_plan_type (tables w'))
    = ["inNetwork"; "outOfNetwork"; "hmo"; "ppo"; "epo"; "innetwork"] /\
    plan_type_key r = k /\ plan_type_code r = "innetwork" /\ k = 6.
Proof.
  destruct (plan_type_dimension plan_p1 installed) as [o w'] eqn:E.
  assert (o = Ret 6) by (revert E; vm_compute; congruence). subst o.
  destruct (plan_type_code_is_normalized plan_p1 installed 6 w' E)
    as (pt & r & rest & Hp & N & F & K & _).
  exists 6, w', r. split; [reflexivity|].
  split; [reflexivity|].
  split; [revert E; vm_compute; intros [= <-]; reflexivity|].
  split; [exact K|]. split; [|reflexivity].
  revert N. vm_compute in Hp. injection Hp as <-. vm_compute. congruence.
Defined.

Lemma plan_types_merge_by_code_witness :
  exists k w1,
    plan_type_dimension (VObj [("planType", VStr "In Network")]) installed
    = (Ret k, w1) /\
    plan_type_dimension (VObj [("planType", VStr "in   network")]) w1
    = (Ret k, w1) /\
    map plan_type_name (dim_plan_type (tables w1))
    = ["In Network"; "Out of Network"; "HMO"; "PPO"; "EPO"; "In Network"].
Proof.
  eexists. eexists. split; [vm_compute; reflexivity|]. split.
  - eapply (plan_types_merge_by_code
              (VObj [("planType", VStr "In Network")])
              (VObj [("planType", VStr "in   network")])
              (VStr "In Network") (VStr "in   network") installed);
      vm_compute; reflexivity.
  - vm_compute. reflexivity.
Defined.

Lemma organization_name_is_overwritten_witness :
  find (has_org_id "example.com") (dim_organization (tables installed))
  = Some (mkOrg 1 "example.com" "Example Healthcare Organization") /\
  exists w',
    organization_dimension plan_of_example_org installed = (Ret 1, w') /\
    dim_organization (tables w') = [mkOrg 1 "example.com" "example.com"].
Proof.
  split; [reflexivity|].
  destruct (organization_name_is_overwritten
              plan_of_example_org "example.com" installed
              (mkOrg 1 "example.com" "Example Healthcare Organization"))
    as (w' & R & T & _).
  - reflexivity.
  - discriminate.
  - vm_compute. repeat constructor.
  - reflexivity.
  - exists w'. split; [exact R|]. rewrite T. reflexivity.
Defined.

Lemma dim_plan_is_never_updated_witness :
  exists w' row,
    load_plan (noon 2024 1 20) plan_p1_retyped
              (after_run [plan_p1] (noon 2024 1 20)) = (Ret tt, w') /\
    dim_plan (tables w')
    = [mkPlan 1 "p1" 1 1 true (VStr "2024-01-15") VNull] /\
    fact_plan_costs (tables w')
    = fact_plan_costs (tables (after_run [plan_p1] (noon 2024 1 20))) ++ [row] /\
    pc_plan_key row = 1 /\ pc_plan_type_key row = 2.
Proof.
  destruct (load_plan (noon 2024 1 20) plan_p1_retyped
                      (after_run [plan_p1] (noon 2024 1 20)))
    as [o w'] eqn:E.
  assert (o = Ret tt) by (revert E; vm_compute; congruence). subst o.
  destruct (dim_plan_is_never_updated
              (noon 2024 1 20) plan_p1_retyped (VStr "p1")
              (mkPlan 1 "p1" 1 1 true (VStr "2024-01-15") VNull) []
              (after_run [plan_p1] (noon 2024 1 20)) w')
    as (P & row & rt & pt & F & K & _); try reflexivity; [exact E|].
  exists w', row. split; [reflexivity|]. split; [rewrite P; reflexivity|].
  split; [exact F|]. split; [exact K|].
  revert F. revert E. vm_compute. intros [= <-]. cbn.
  intros F. injection F as <-. reflexivity.
Defined.

Lemma unreachable_run_writes_nothing_witness :
  tables (snd (runETL (env_mongo_down [plan_p1] (noon 2024 1 20))
                      (fresh_process empty_tables zero_sequences)))
  = empty_tables.
Proof.
  apply (unreachable_run_writes_nothing
           (env_mongo_down [plan_p1] (noon 2024 1 20))
           empty_tables zero_sequences).
  reflexivity.
Defined.

Lemma audit_status_reflects_failures_witness :
  exists w' row,
    runETL (env_of [plan_cdc; plan_cdc] (noon 2024 1 20))
           (fresh_process empty_tables zero_sequences) = (Ret VUndefined, w') /\
    etl_audit_log (tables w') = [row] /\
    status row = "PARTIAL_SUCCESS" /\ records_inserted row = 0 /\
    error_message row = Some "2 plans failed to load".
Proof.
  destruct (audit_status_reflects_failures
              (env_of [plan_cdc; plan_cdc] (noon 2024 1 20))
              empty_tables zero_sequences)
    as (w' & row & R & A & _ & _ & _ & _ & F);
    [reflexivity | reflexivity | repeat constructor |].
  exists w', row. split; [exact R|]. split; [exact A|].
  revert A F. revert R. vm_compute. intros [= <-]. cbn.
  intros [= <-]. cbn. intros F. split; [reflexivity|]. split; reflexivity.
Defined.

Lemma services_loaded_overcounts_witness :
  exists w',
    runETL (env_of [plan_half_loaded] (noon 2024 1 20))
           (fresh_process empty_tables zero_sequences) = (Ret VUndefined, w') /\
    fact_service_costs (tables w') = [] /\
    servicesLoaded (stats w') = 1.
Proof.
  destruct (services_loaded_overcounts
              (env_of [plan_half_loaded] (noon 2024 1 20))
              empty_tables zero_sequences)
    as (w' & R & _); [reflexivity | reflexivity | repeat constructor |].
  exists w'. split; [exact R|].
  revert R. vm_compute. intros [= <-]. split; reflexivity.
Defined.

End ETLMore.

(* ===================================================================== *)
(** * Properties of the date description                                  *)
(* ===================================================================== *)

Module CalendarSpec.
Import ETL Calendar.

Lemma DayFromYear_next y :
  DayFromYear (y + 1) = DayFromYear y + (if InLeapYear y then 366 else 365).
Proof.
  unfold DayFromYear, InLeapYear.
  destruct (Z.eqb_spec (y mod 4) 0), (Z.eqb_spec (y mod 100) 0),
    (Z.eqb_spec (y mod 400) 0); cbn [andb orb negb];
    Z.div_mod_to_equations; lia.
Qed.

Lemma YearFromDay_spec d :
  DayFromYear (YearFromDay d) <= d < DayFromYear (YearFromDay d + 1).
Proof.
  unfold YearFromDay.
  set (y := 1970 + 400 * d / 146097).
  assert (Hy : DayFromYear (y - 1) <= d < DayFromYear (y + 2)).
  { unfold DayFromYear, y. Z.div_mod_to_equations. lia. }
  destruct (Z.ltb_spec d (DayFromYear y)).
  - replace (y - 1 + 1) with y by lia. lia.
  - destruct (Z.leb_spec (DayFromYear (y + 1)) d).
    + replace (y + 1 + 1) with (y + 2) by lia. lia.
    + lia.
Qed.

Lemma DayFromYear_mono y1 y2 : y1 <= y2 -> DayFromYear y1 <= DayFromYear y2.
Proof. unfold DayFromYear. intros H. Z.div_mod_to_equations. lia. Qed.

Lemma YearFromDay_unique d y :
  DayFromYear y <= d < DayFromYear (y + 1) -> YearFromDay d = y.
Proof.
  intros H. pose proof (YearFromDay_spec d) as S.
  destruct (Z.lt_trichotomy (YearFromDay d) y) as [L | [E | G]]; [|exact E|].
  - pose proof (DayFromYear_mono (YearFromDay d + 1) y ltac:(lia)). lia.
  - pose proof (DayFromYear_mono (y + 1) (YearFromDay d) ltac:(lia)). lia.
Qed.

Lemma DayWithinYear_range t :
  0 <= DayWithinYear t < 365 + leap_day (YearFromTime t).
Proof.
  unfold DayWithinYear, YearFromTime, leap_day.
  pose proof (YearFromDay_spec (Day t)) as S.
  rewrite DayFromYear_next in S.
  destruct (InLeapYear (YearFromDay (Day t))); lia.
Qed.

(** The day number of a time is that of the first of its month plus the
    day of the month. *)
Lemma Day_of_fields t :
  Day t
  = DayFromYear (YearFromTime t)
    + days_before_month (YearFromTime t) (MonthFromTime t + 1)
    + (DateFromTime t - 1) /\
  0 <= MonthFromTime t <= 11 /\
  1 <= DateFromTime t <= 31.
Proof.
  pose proof (DayWithinYear_range t) as R.
  unfold DateFromTime, MonthFromTime, days_before_month, leap_day in *.
  assert (E : Day t = DayFromYear (YearFromTime t) + DayWithinYear t)
    by (unfold DayWithinYear; lia).
  rewrite E at 1. clear E.
  set (d := DayWithinYear t) in *.
  destruct (InLeapYear (YearFromTime t));
    repeat match goal with
           | |- context [d <? ?b] => destruct (Z.ltb_spec d b)
           end; cbn; lia.
Qed.

Lemma time_of_day_range d : civil d -> 0 <= time_of_day d < msPerDay.
Proof.
  unfold civil, time_of_day, msPerDay. lia.
Qed.

Lemma leap_day_range y : 0 <= leap_day y <= 1.
Proof. unfold leap_day. destruct (InLeapYear y); lia. Qed.

(** The table of the months. *)
Lemma month_table y m :
  1 <= m <= 12 ->
  let b := days_before_month y m in
  let n := days_in_month y m in
  let l := leap_day y in
  (m = 1 /\ b = 0 /\ n = 31) \/ (m = 2 /\ b = 31 /\ n = 28 + l) \/
  (m = 3 /\ b = 59 + l /\ n = 31) \/ (m = 4 /\ b = 90 + l /\ n = 30) \/
  (m = 5 /\ b = 120 + l /\ n = 31) \/ (m = 6 /\ b = 151 + l /\ n = 30) \/
  (m = 7 /\ b = 181 + l /\ n = 31) \/ (m = 8 /\ b = 212 + l /\ n = 31) \/
  (m = 9 /\ b = 243 + l /\ n = 30) \/ (m = 10 /\ b = 273 + l /\ n = 31) \/
  (m = 11 /\ b = 304 + l /\ n = 30) \/ (m = 12 /\ b = 334 + l /\ n = 31).
Proof.
  intros H.
  assert (C : m = 1 \/ m = 2 \/ m = 3 \/ m = 4 \/ m = 5 \/ m = 6 \/ m = 7 \/
              m = 8 \/ m = 9 \/ m = 10 \/ m = 11 \/ m = 12) by lia.
  unfold days_before_month, days_in_month, leap_day.
  repeat (destruct C as [-> | C]); try subst m;
    destruct (InLeapYear y); vm_compute; intuition congruence.
Qed.

Lemma days_before_month_range y m :
  1 <= m <= 12 ->
  0 <= days_before_month y m /\
  days_before_month y m + days_in_month y m <= 365 + leap_day y.
Proof.
  intros H. pose proof (month_table y m H) as T. cbv zeta in T.
  pose proof (leap_day_range y). lia.
Qed.

(** The time value of a date of the calendar, shifted by less than what
    is left of, or gone from, its day. *)
Lemma Day_time_value d c :
  civil d -> 0 <= time_of_day d + c < msPerDay ->
  Day (time_value d + c)
  = DayFromYear (year d) + days_before_month (year d) (month d) + (day d - 1).
Proof.
  intros Hc Hs. unfold Day, time_value. fold (time_of_day d).
  unfold msPerDay in *.
  set (n := DayFromYear (year d) + days_before_month (year d) (month d)
            + (day d - 1)).
  replace (n * 86400000 + hours d * 3600000 + minutes d * 60000
           + seconds d * 1000 + millis d + c)
    with (n * 86400000 + (time_of_day d + c))
    by (unfold time_of_day; lia).
  rewrite Z.div_add_l by lia.
  rewrite Z.div_small by lia. lia.
Qed.

Lemma fields_of_time_value d c :
  civil d -> 0 <= time_of_day d + c < msPerDay ->
  YearFromTime (time_value d + c) = year d /\
  MonthFromTime (time_value d + c) = month d - 1 /\
  DateFromTime (time_value d + c) = day d.
Proof.
  intros Hc Hs. pose proof (Day_time_value d c Hc Hs) as D.
  destruct Hc as (Hm & Hd & _).
  pose proof (days_before_month_range (year d) (month d) Hm) as [B0 B1].
  pose proof (leap_day_range (year d)) as L.
  assert (Y : YearFromTime (time_value d + c) = year d).
  { unfold YearFromTime. apply YearFromDay_unique.
    rewrite D, DayFromYear_next. unfold leap_day in *.
    destruct (InLeapYear (year d)); lia. }
  assert (W : DayWithinYear (time_value d + c)
              = days_before_month (year d) (month d) + (day d - 1)).
  { unfold DayWithinYear. rewrite Y, D. lia. }
  split; [exact Y|].
  pose proof (month_table (year d) (month d) Hm) as T. cbv zeta in T.
  unfold DateFromTime, MonthFromTime. rewrite W, Y.
  set (b := days_before_month (year d) (month d)) in *.
  set (n := days_in_month (year d) (month d)) in *.
  set (l := leap_day (year d)) in *.
  set (w := b + (day d - 1)).
  assert (Hw : w = b + (day d - 1)) by reflexivity.
  clearbody w b n l. clear D W Y B0 B1 Hs.
  repeat match goal with
         | |- context [w <? ?x] => destruct (Z.ltb_spec w x)
         end; cbv beta iota; lia.
Qed.

Lemma time_value_split d :
  time_value d
  = (DayFromYear (year d) + days_before_month (year d) (month d)
     + (day d - 1)) * msPerDay + time_of_day d.
Proof. unfold time_value, time_of_day. lia. Qed.

Section WithZone.
Context `{ZN : Zone}.

(** The columns of the description, one by one. *)
Lemma description_fields (date : Date) :
  d_year (date_description date) = getFullYear (time_value date) /\
  d_quarter (date_description date) = getMonth (time_value date) / 3 + 1 /\
  d_month (date_description date) = getMonth (time_value date) + 1 /\
  d_day (date_description date) = getDate (time_value date) /\
  d_day_of_week (date_description date) = getDay (time_value date) /\
  d_is_weekend (date_description date)
  = ((getDay (time_value date) =? 0) || (getDay (time_value date) =? 6))%bool.
Proof. repeat split. Qed.

(** The local getters at a fixed offset. *)
Lemma getters_at_offset (c t : Z) :
  fixed_offset c ->
  getFullYear t = YearFromTime (t + c) /\
  getMonth t = MonthFromTime (t + c) /\
  getDate t = DateFromTime (t + c) /\
  getDay t = WeekDay (t + c).
Proof.
  intros Hz.
  assert (L : LocalTime t = t + c) by (unfold LocalTime; rewrite Hz; reflexivity).
  repeat split.
  - change (getFullYear t) with (YearFromTime (LocalTime t)). now rewrite L.
  - change (getMonth t) with (MonthFromTime (LocalTime t)). now rewrite L.
  - change (getDate t) with (DateFromTime (LocalTime t)). now rewrite L.
  - change (getDay t) with (WeekDay (LocalTime t)). now rewrite L.
Qed.

(** The day number of a time value shifted by an offset [c]. *)
Lemma Day_shifted (d : Date) (c : Z) :
  Day (time_value d + c)
  = DayFromYear (year d) + days_before_month (year d) (month d) + (day d - 1)
    + (time_of_day d + c) / msPerDay.
Proof.
  rewrite time_value_split.
  change (Day ?t) with (t / msPerDay).
  rewrite <- Z.add_assoc, Z.div_add_l by (unfold msPerDay; lia).
  reflexivity.
Qed.

Lemma WeekDay_range t : 0 <= WeekDay t < 7.
Proof.
  change (WeekDay t) with ((Day t + 4) mod 7). apply Z.mod_pos_bound. lia.
Qed.

Lemma day_at_most_31 (d : Date) : civil d -> day d <= 31.
Proof.
  intros (Hm & Hd & _).
  pose proof (month_table (year d) (month d) Hm) as T. cbv zeta in T.
  pose proof (leap_day_range (year d)). lia.
Qed.

(** The columns that make up the key do so exactly when the offset leaves
    the time in its UTC day. *)
Lemma local_fields_make_key (date : Date) (c : Z) :
  civil date ->
  YearFromTime (time_value date + c) * 10000
  + (MonthFromTime (time_value date + c) + 1) * 100
  + DateFromTime (time_value date + c)
  = year date * 10000 + month date * 100 + day date ->
  0 <= time_of_day date + c < msPerDay.
Proof.
  intros Hc E.
  pose proof (Day_of_fields (time_value date + c)) as (DL & RM & RD).
  pose proof (day_at_most_31 date Hc) as Hd31.
  destruct Hc as (Hm & Hd & _).
  assert (EY : YearFromTime (time_value date + c) = year date) by lia.
  assert (EM : MonthFromTime (time_value date + c) + 1 = month date) by lia.
  assert (ED : DateFromTime (time_value date + c) = day date) by lia.
  rewrite EY, EM, ED, Day_shifted in DL.
  assert (Q : (time_of_day date + c) / msPerDay = 0) by lia.
  apply Z.div_small_iff in Q; unfold msPerDay in *; lia.
Qed.

(** X19.  The descriptive columns of a [dim_date] row describe the day of
    its key exactly when the local day is the UTC day.  The key and
    [date_value] are taken from [toISOString], the columns [year],
    [month], [day], ... from the local getters: in a zone at a fixed
    offset from UTC, [year * 10000 + month * 100 + day] of the description
    is the date key if and only if the offset does not move the time out of
    its UTC day; the columns are then the year, month and day of the key,
    the quarter is [(month - 1) / 3 + 1] and the day of the week is that of
    the key. *)
Theorem description_matches_key_iff_same_day :
  forall (date : Date) (c : Z),
    fixed_offset c -> civil date ->
    let ds := date_description date in
    (d_year ds * 10000 + d_month ds * 100 + d_day ds = ETLSpec.yyyymmdd date
     <-> 0 <= time_of_day date + c < msPerDay) /\
    (0 <= time_of_day date + c < msPerDay ->
     d_year ds = year date /\ d_month ds = month date /\
     d_day ds = day date /\ d_quarter ds = (month date - 1) / 3 + 1 /\
     d_day_of_week ds = WeekDay (time_value date)).
Proof.
  intros date c Hz Hc. cbv zeta.
  destruct (description_fields date) as (Fy & Fq & Fm & Fd & Fw & _).
  destruct (getters_at_offset c (time_value date) Hz) as (Gy & Gm & Gd & Gw).
  rewrite Fy, Fq, Fm, Fd, Fw, Gy, Gm, Gd, Gw. clear Fy Fq Fm Fd Fw Gy Gm Gd Gw.
  assert (Same : 0 <= time_of_day date + c < msPerDay ->
                 YearFromTime (time_value date + c) = year date /\
                 MonthFromTime (time_value date + c) + 1 = month date /\
                 DateFromTime (time_value date + c) = day date /\
                 MonthFromTime (time_value date + c) / 3 + 1
                 = (month date - 1) / 3 + 1 /\
                 WeekDay (time_value date + c) = WeekDay (time_value date)).
  { intros Hs.
    destruct (fields_of_time_value date c Hc Hs) as (Y & M & D).
    rewrite Y, M, D. repeat split; try lia.
    pose proof (time_of_day_range date Hc) as R0.
    change (WeekDay ?t) with ((Day t + 4) mod 7).
    rewrite (Day_time_value date c Hc Hs).
    rewrite <- (Day_time_value date 0 Hc) by lia.
    rewrite Z.add_0_r. reflexivity. }
  split; [|exact Same]. split.
  - apply local_fields_make_key, Hc.
  - intros Hs. destruct (Same Hs) as (-> & -> & -> & _). reflexivity.
Qed.


(** X20.  West of Greenwich, a date given by its day only is described as
    the day before.  [new Date("YYYY-MM-DD")] is midnight UTC; in a zone at
    a fixed offset of up to a day behind UTC, the local getters see the
    evening before: the row's [day_of_week] is that of the previous day,
    [is_weekend] is set for the Sundays and Mondays of the key, and the
    columns [year], [month] and [day] never make up the key. *)
Theorem date_only_is_described_as_the_day_before :
  forall (date : Date) (c : Z),
    fixed_offset c -> civil date ->
    time_of_day date = 0 -> - msPerDay <= c < 0 ->
    let ds := date_description date in
    d_day_of_week ds = (WeekDay (time_value date) + 6) mod 7 /\
    (d_is_weekend ds = true <->
     WeekDay (time_value date) = 0 \/ WeekDay (time_value date) = 1) /\
    d_year ds * 10000 + d_month ds * 100 + d_day ds <> ETLSpec.yyyymmdd date.
Proof.
  intros date c Hz Hc H0 Hw. cbv zeta.
  destruct (description_fields date) as (Fy & _ & Fm & Fd & Fw & Fe).
  destruct (getters_at_offset c (time_value date) Hz) as (Gy & Gm & Gd & Gw).
  assert (W : getDay (time_value date) = (WeekDay (time_value date) + 6) mod 7).
  { rewrite Gw. change (WeekDay ?t) with ((Day t + 4) mod 7).
    pose proof (Day_shifted date c) as Dc.
    pose proof (Day_shifted date 0) as Dz.
    rewrite H0 in Dc, Dz. rewrite Z.add_0_r in Dz.
    assert (Qc : (0 + c) / msPerDay = -1).
    { unfold msPerDay in *. symmetry.
      apply (Z.div_unique _ _ _ (c + 86400000)); lia. }
    assert (Qz : (0 + 0) / msPerDay = 0) by reflexivity.
    rewrite Qc in Dc. rewrite Qz in Dz. rewrite Dc, Dz.
    set (n := DayFromYear (year date)
              + days_before_month (year date) (month date) + (day date - 1)).
    clearbody n. clear. Z.div_mod_to_equations. lia. }
  rewrite Fe, Fw, W. split; [reflexivity|]. split.
  - pose proof (WeekDay_range (time_value date)) as R.
    set (wd := WeekDay (time_value date)) in *. clearbody wd.
    rewrite orb_true_iff, !Z.eqb_eq.
    clear - R. Z.div_mod_to_equations. lia.
  - intros E.
    assert (Ek : ETLSpec.yyyymmdd date
                 = year date * 10000 + month date * 100 + day date)
      by reflexivity.
    rewrite Fy, Fm, Fd, Gy, Gm, Gd, Ek in E.
    apply (local_fields_make_key date c Hc) in E. rewrite H0 in E. lia.
Qed.


(** The setters and the constructor at a fixed offset. *)
Lemma UTC_at_offset (c t : Z) : fixed_offset c -> UTC t = t - c.
Proof. intros Hz. unfold UTC. rewrite Hz. reflexivity. Qed.

Lemma LocalTime_at_offset (c t : Z) : fixed_offset c -> LocalTime t = t + c.
Proof. intros Hz. unfold LocalTime. rewrite Hz. reflexivity. Qed.

Lemma setHours_midnight_at_offset (c t : Z) :
  fixed_offset c -> setHours_midnight t = Day (t + c) * msPerDay - c.
Proof.
  intros Hz.
  change (setHours_midnight t) with (UTC (Day (LocalTime t) * msPerDay)).
  rewrite (UTC_at_offset c), (LocalTime_at_offset c) by assumption.
  reflexivity.
Qed.

Lemma setDate_at_offset (c dt t : Z) :
  fixed_offset c ->
  setDate dt t
  = (Day (t + c) - (DateFromTime (t + c) - 1) + dt - 1) * msPerDay
    + TimeWithinDay (t + c) - c.
Proof.
  intros Hz.
  change (setDate dt t)
    with (UTC ((Day (LocalTime t) - (DateFromTime (LocalTime t) - 1) + dt - 1)
               * msPerDay + TimeWithinDay (LocalTime t))).
  rewrite (UTC_at_offset c), (LocalTime_at_offset c) by assumption.
  reflexivity.
Qed.

Lemma new_Date_january_first_at_offset (c y : Z) :
  fixed_offset c -> 100 <= y ->
  new_Date_january_first y = DayFromYear y * msPerDay - c.
Proof.
  intros Hz Hy. unfold new_Date_january_first.
  replace (y <=? 99) with false by (symmetry; apply Z.leb_gt; lia).
  rewrite andb_false_r. apply UTC_at_offset, Hz.
Qed.

Lemma getWeekNumber_unfold (date : Date) :
  getWeekNumber date
  = ceil_div
      (setDate (getDate (setHours_midnight (time_value date)) + 4
                - (if getDay (setHours_midnight (time_value date)) =? 0
                   then 7
                   else getDay (setHours_midnight (time_value date))))
               (setHours_midnight (time_value date))
       - new_Date_january_first
           (getFullYear
              (setDate (getDate (setHours_midnight (time_value date)) + 4
                        - (if getDay (setHours_midnight (time_value date))
                              =? 0
                           then 7
                           else getDay
                                  (setHours_midnight (time_value date))))
                       (setHours_midnight (time_value date))))
       + 86400000)
      (7 * 86400000).
Proof. reflexivity. Qed.

Lemma Day_of_midnight n : Day (n * msPerDay) = n.
Proof. unfold Day. apply Z.div_mul. unfold msPerDay. lia. Qed.

Lemma TimeWithinDay_of_midnight n : TimeWithinDay (n * msPerDay) = 0.
Proof. unfold TimeWithinDay. apply Z.mod_mul. unfold msPerDay. lia. Qed.

(** The year of a day number is not before the year of an earlier first
    of January. *)
Lemma YearFromDay_at_least y d : DayFromYear y <= d -> y <= YearFromDay d.
Proof.
  intros H. pose proof (YearFromDay_spec d) as [_ S].
  destruct (Z_le_gt_dec y (YearFromDay d)) as [L|G]; [exact L|].
  pose proof (DayFromYear_mono (YearFromDay d + 1) y). lia.
Qed.

(** X21.  [getWeekNumber] is the ISO week number, in local time.  In a zone
    at a fixed offset of at most a day, from the year 101 on, the week of a
    date is counted from the Thursday [th] of its Monday-to-Sunday week in
    local time: its number is the number of whole weeks in the days of the
    year before that Thursday, plus one, and lies between 1 and 53. *)
Theorem week_number_is_iso_week :
  forall (date : Date) (c : Z),
    fixed_offset c -> civil date ->
    101 <= year date -> - msPerDay <= c <= msPerDay ->
    exists th,
      Day (time_value date + c) - 3 <= th <= Day (time_value date + c) + 3 /\
      WeekDay (th * msPerDay) = 4 /\
      getWeekNumber date = (th - DayFromYear (YearFromDay th)) / 7 + 1 /\
      1 <= getWeekNumber date <= 53.
Proof.
  intros date c Hz Hc Hy Hw.
  rewrite getWeekNumber_unfold.
  rewrite (setHours_midnight_at_offset c) by assumption.
  set (n := Day (time_value date + c)).
  destruct (getters_at_offset c (n * msPerDay - c) Hz) as (_ & _ & Gd & Gw).
  replace (n * msPerDay - c + c) with (n * msPerDay) in Gd, Gw by lia.
  rewrite Gd, Gw. clear Gd Gw.
  rewrite (setDate_at_offset c) by assumption.
  replace (n * msPerDay - c + c) with (n * msPerDay) by lia.
  rewrite Day_of_midnight, TimeWithinDay_of_midnight.
  change (WeekDay (n * msPerDay)) with ((Day (n * msPerDay) + 4) mod 7).
  rewrite Day_of_midnight.
  set (wd := if (n + 4) mod 7 =? 0 then 7 else (n + 4) mod 7).
  set (th := n + 4 - wd).
  replace ((n - (DateFromTime (n * msPerDay) - 1)
            + (DateFromTime (n * msPerDay) + 4 - wd) - 1) * msPerDay + 0 - c)
    with (th * msPerDay - c) by (unfold th; lia).
  destruct (getters_at_offset c (th * msPerDay - c) Hz) as (Gy & _).
  replace (th * msPerDay - c + c) with (th * msPerDay) in Gy by lia.
  rewrite Gy. clear Gy.
  change (YearFromTime (th * msPerDay)) with (YearFromDay (Day (th * msPerDay))).
  rewrite Day_of_midnight.
  (* the Thursday is in the week of the day *)
  assert (Rw : 1 <= wd <= 7 /\ (n + 4 - wd) mod 7 = 0).
  { unfold wd. destruct (Z.eqb_spec ((n + 4) mod 7) 0) as [E|E].
    - split; [lia|]. clear - E. revert E. Z.div_mod_to_equations. lia.
    - clear - E. revert E. Z.div_mod_to_equations. lia. }
  destruct Rw as [Rw Thu].
  assert (Rt : n - 3 <= th <= n + 3) by (unfold th; lia).
  assert (Wt : (th + 4) mod 7 = 4).
  { unfold th. clear - Thu. revert Thu. Z.div_mod_to_equations. lia. }
  (* the year of the Thursday is not one of the years 0 to 99 *)
  assert (Hn : DayFromYear 101 - 1 <= n).
  { unfold n. rewrite Day_shifted.
    pose proof (time_of_day_range date Hc) as R0.
    destruct Hc as (Hm & Hd & _).
    pose proof (days_before_month_range (year date) (month date) Hm) as [B0 _].
    pose proof (DayFromYear_mono 101 (year date) Hy) as M.
    assert (-1 <= (time_of_day date + c) / msPerDay).
    { apply Z.div_le_lower_bound; unfold msPerDay in *; lia. }
    lia. }
  assert (H100 : 100 <= YearFromDay th).
  { apply YearFromDay_at_least.
    assert (DayFromYear 100 + 365 = DayFromYear 101) by reflexivity. lia. }
  rewrite (new_Date_january_first_at_offset c) by assumption.
  pose proof (YearFromDay_spec th) as [S0 S1].
  rewrite DayFromYear_next in S1.
  set (k := th - DayFromYear (YearFromDay th)).
  assert (Rk : 0 <= k <= 365).
  { unfold k, leap_day in *. destruct (InLeapYear (YearFromDay th)); lia. }
  replace (th * msPerDay - c - (DayFromYear (YearFromDay th) * msPerDay - c)
           + 86400000)
    with ((k + 1) * 86400000) by (unfold k, msPerDay; lia).
  assert (C : ceil_div ((k + 1) * 86400000) (7 * 86400000) = k / 7 + 1).
  { unfold ceil_div. clear - Rk. Z.div_mod_to_equations. lia. }
  exists th. split; [exact Rt|]. split.
  - change (WeekDay (th * msPerDay)) with ((Day (th * msPerDay) + 4) mod 7).
    rewrite Day_of_midnight. exact Wt.
  - rewrite C. split; [reflexivity|].
    clear - Rk. Z.div_mod_to_equations. lia.
Qed.

End WithZone.

Lemma description_matches_key_iff_same_day_witness :
  let date := mkDate 2024 3 1 2 30 0 0 in
  let ds := @date_description new_york_winter date in
  ETLSpec.yyyymmdd date = 20240301 /\
  d_year ds * 10000 + d_month ds * 100 + d_day ds = 20240229 /\
  ~ 0 <= time_of_day date + -18000000 < msPerDay.
Proof.
  cbv zeta.
  destruct (description_matches_key_iff_same_day
              (ZN := new_york_winter) (mkDate 2024 3 1 2 30 0 0) (-18000000))
    as [[K _] _].
  - intros t b. reflexivity.
  - vm_compute. intuition discriminate.
  - split; [reflexivity|]. split; [reflexivity|].
    vm_compute. intros [H _]. apply H. reflexivity.
Defined.

Lemma date_only_is_described_as_the_day_before_witness :
  let date := mkDate 2024 1 15 0 0 0 0 in
  let ds := @date_description new_york_winter date in
  WeekDay (time_value date) = 1 /\
  d_day_of_week ds = 0 /\ d_is_weekend ds = true /\ d_day ds = 14.
Proof.
  cbv zeta.
  destruct (date_only_is_described_as_the_day_before
              (ZN := new_york_winter) (mkDate 2024 1 15 0 0 0 0) (-18000000))
    as (W & E & _).
  - intros t b. reflexivity.
  - vm_compute. intuition discriminate.
  - reflexivity.
  - vm_compute. intuition discriminate.
  - split; [reflexivity|]. split; [exact W|].
    split; [apply E; right; reflexivity|reflexivity].
Defined.

Lemma week_number_is_iso_week_witness :
  @getWeekNumber utc (mkDate 2021 1 1 12 0 0 0) = 53 /\
  1 <= @getWeekNumber new_york_winter (mkDate 2024 1 15 0 0 0 0) <= 53.
Proof.
  split; [reflexivity|].
  destruct (week_number_is_iso_week
              (ZN := new_york_winter) (mkDate 2024 1 15 0 0 0 0) (-18000000))
    as (th & _ & _ & _ & R).
  - intros t b. reflexivity.
  - vm_compute. intuition discriminate.
  - vm_compute. discriminate.
  - vm_compute. intuition discriminate.
  - exact R.
Defined.

End CalendarSpec.

(* ===================================================================== *)
(** * Properties of the data-quality validator                            *)
(* ===================================================================== *)

Module ValidatorSpec.
Import ETL Validator.
Local Open Scope outcome_scope.

(** ** Verdicts and status *)

Lemma status_of_snoc vs v :
  status_of (vs ++ [v]) = next_status (status_of vs) v.
Proof.
  unfold status_of. rewrite rev_app_distr. cbn [rev app find].
  rewrite existsb_app. cbn [existsb].
  destruct v; cbn [is_failure is_warning next_status]; try reflexivity.
  - rewrite orb_false_r. reflexivity.
  - destruct (find is_failure (rev vs)) as [[]|]; try reflexivity.
    rewrite orb_true_r. destruct (existsb is_warning vs); reflexivity.
Qed.

Lemma fold_status vs : forall s0 vs0,
  s0 = status_of vs0 ->
  fold_left next_status vs s0 = status_of (vs0 ++ vs).
Proof.
  induction vs as [|v vs IH]; intros s0 vs0 E; cbn [fold_left].
  - rewrite app_nil_r. exact E.
  - replace (vs0 ++ v :: vs) with ((vs0 ++ [v]) ++ vs)
      by (rewrite <- app_assoc; reflexivity).
    apply IH. rewrite status_of_snoc, E. reflexivity.
Qed.

Lemma status_of_range vs : is_status (status_of vs).
Proof.
  unfold status_of, is_status.
  destruct (find is_failure (rev vs)) as [[]|]; auto.
  destruct (existsb is_warning vs); auto.
Qed.

Lemma find_none_forall {A} (f : A -> bool) l :
  find f l = None <-> Forall (fun x => f x = false) l.
Proof.
  induction l as [|x l IH]; cbn.
  - split; auto.
  - destruct (f x) eqn:E.
    + split; [discriminate|]. intros H. inversion H; congruence.
    + rewrite IH. split; intros H; [constructor; auto | inversion H; auto].
Qed.

Lemma Forall_rev_iff {A} (P : A -> Prop) l : Forall P (rev l) <-> Forall P l.
Proof.
  rewrite !Forall_forall. split; intros H x I; apply H.
  - apply in_rev in I. exact I.
  - apply in_rev. exact I.
Qed.

Lemma status_of_passed vs :
  status_of vs = "passed" <-> Forall (fun v => v = Pass) vs.
Proof.
  unfold status_of. split.
  - destruct (find is_failure (rev vs)) as [[]|] eqn:F; try discriminate.
    destruct (existsb is_warning vs) eqn:W; [discriminate|]. intros _.
    apply find_none_forall in F. apply (proj1 (Forall_rev_iff _ _)) in F.
    rewrite Forall_forall in *. intros v I.
    specialize (F v I).
    assert (is_warning v = false).
    { destruct (is_warning v) eqn:E; [|reflexivity].
      assert (existsb is_warning vs = true)
        by (apply existsb_exists; eauto).
      congruence. }
    destruct v; cbn in *; congruence.
  - intros H.
    assert (F : find is_failure (rev vs) = None).
    { apply find_none_forall, Forall_rev_iff.
      eapply Forall_impl; [|exact H]. intros v ->. reflexivity. }
    rewrite F.
    assert (W : existsb is_warning vs = false).
    { destruct (existsb is_warning vs) eqn:E; [|reflexivity].
      apply existsb_exists in E. destruct E as (v & I & E).
      rewrite Forall_forall in H. rewrite (H v I) in E. discriminate. }
    rewrite W. reflexivity.
Qed.

Lemma find_app_skip {A} (f : A -> bool) l1 l2 :
  Forall (fun x => f x = false) l1 -> find f (l1 ++ l2) = find f l2.
Proof.
  induction 1 as [|x l1 Hx _ IH]; cbn; [reflexivity|].
  rewrite Hx. exact IH.
Qed.

Lemma status_of_last vs1 v vs2 :
  is_failure v = true ->
  Forall (fun u => is_failure u = false) vs2 ->
  status_of (vs1 ++ v :: vs2)
  = match v with Error => "error" | _ => "failed" end.
Proof.
  intros Hv H2. unfold status_of.
  rewrite rev_app_distr. cbn [rev]. rewrite <- app_assoc. cbn [app].
  rewrite find_app_skip by (apply Forall_rev_iff; exact H2).
  cbn [find]. rewrite Hv. destruct v; try discriminate; reflexivity.
Qed.

Lemma answered_thrown vs : (answered vs + thrown vs = List.length vs)%nat.
Proof.
  unfold answered, thrown. induction vs as [|v vs IH]; cbn; [reflexivity|].
  destruct v; cbn; lia.
Qed.

Lemma answered_all vs :
  answered vs = List.length vs <-> Forall (fun v => v <> Error) vs.
Proof.
  pose proof (answered_thrown vs) as T. unfold thrown in T.
  split.
  - intros E. assert (Z : List.length
                (filter (fun v => match v with Error => true | _ => false end)
                        vs) = 0%nat) by lia.
    apply length_zero_iff_nil in Z. apply Forall_forall. intros v I ->.
    assert (In Error
              (filter (fun v => match v with Error => true | _ => false end)
                      vs)) by (apply filter_In; auto).
    rewrite Z in H. contradiction.
  - intros H. unfold answered.
    rewrite (forallb_filter_id _ vs); [reflexivity|].
    apply forallb_forall. rewrite Forall_forall in H. intros v I.
    specialize (H v I). destruct v; congruence.
Qed.

Section WithRuntime.
Context `{RT : Runtime} `{NU : Numbers}.

(** What one rule does to its category and to the status. *)
Lemma run_rule_spec now plan r c v :
  let c' := fst (run_rule now plan r (c, v)) in
  let v' := snd (run_rule now plan r (c, v)) in
  v_status v' = next_status (v_status v) (judge now plan r) /\
  cat_passed c' + cat_failed c' + cat_warnings c'
  = cat_passed c + cat_failed c + cat_warnings c + 1 /\
  cat_passed c <= cat_passed c' /\ cat_failed c <= cat_failed c' /\
  cat_warnings c <= cat_warnings c' /\
  List.length (cat_rules c')
  = (List.length (cat_rules c) + answered [judge now plan r])%nat /\
  Z.of_nat (List.length (v_warnings v'))
  - Z.of_nat (List.length (v_warnings v))
  = cat_warnings c' - cat_warnings c /\
  Z.of_nat (List.length (v_failedRules v'))
  - Z.of_nat (List.length (v_failedRules v))
  + Z.of_nat (thrown [judge now plan r])
  = cat_failed c' - cat_failed c.
Proof.
  unfold run_rule, judge, answered, thrown.
  destruct (check r now plan) as [res|e]; cbn.
  - destruct (truthy (passed res)); cbn.
    + rewrite length_app; cbn. repeat split; lia.
    + destruct (is_hard (severity r)); cbn;
        rewrite !length_app; cbn; repeat split; lia.
  - repeat split; lia.
Qed.

Lemma run_rules_spec now plan rules : forall c v,
  let c' := fst (run_rules now plan rules (c, v)) in
  let v' := snd (run_rules now plan rules (c, v)) in
  v_status v' = fold_left next_status (map (judge now plan) rules) (v_status v) /\
  cat_passed c' + cat_failed c' + cat_warnings c'
  = cat_passed c + cat_failed c + cat_warnings c
    + Z.of_nat (List.length rules) /\
  cat_passed c <= cat_passed c' /\ cat_failed c <= cat_failed c' /\
  cat_warnings c <= cat_warnings c' /\
  List.length (cat_rules c')
  = (List.length (cat_rules c) + answered (map (judge now plan) rules))%nat /\
  Z.of_nat (List.length (v_warnings v'))
  - Z.of_nat (List.length (v_warnings v))
  = cat_warnings c' - cat_warnings c /\
  Z.of_nat (List.length (v_failedRules v'))
  - Z.of_nat (List.length (v_failedRules v))
  + Z.of_nat (thrown (map (judge now plan) rules))
  = cat_failed c' - cat_failed c.
Proof.
  unfold run_rules.
  induction rules as [|r rules IH]; intros c v; cbn [fold_left map].
  - unfold answered, thrown; cbn. repeat split; lia.
  - pose proof (run_rule_spec now plan r c v) as H1. cbv zeta in H1.
    destruct (run_rule now plan r (c, v)) as [c1 v1]. cbn [fst snd] in H1.
    specialize (IH c1 v1). cbv zeta in IH.
    destruct (fold_left (fun a r0 => run_rule now plan r0 a) rules (c1, v1))
      as [c2 v2]. cbn [fst snd] in *.
    destruct H1 as (S1 & A1 & P1 & F1 & W1 & L1 & X1 & Z1).
    destruct IH as (S2 & A2 & P2 & F2 & W2 & L2 & X2 & Z2).
    rewrite S2, S1, L2, L1. unfold answered, thrown in *.
    cbn [filter List.length] in *.
    repeat split; try lia;
      destruct (judge now plan r); cbn [List.length] in *; lia.
Qed.

Lemma total_app f l1 l2 : total f (l1 ++ l2) = total f l1 + total f l2.
Proof.
  unfold total. induction l1 as [|c l1 IH]; cbn; [reflexivity|].
  rewrite IH. lia.
Qed.

Lemma run_categories_spec now plan cs : forall cats0 v0,
  let cats' := fst (fold_left (run_category now plan) cs (cats0, v0)) in
  let v' := snd (fold_left (run_category now plan) cs (cats0, v0)) in
  v_status v'
  = fold_left next_status (map (judge now plan) (flat_map snd cs))
              (v_status v0) /\
  exists news,
    cats' = cats0 ++ news /\
    Forall2 (accounts_for now plan) cs news /\
    Z.of_nat (List.length (v_warnings v'))
    - Z.of_nat (List.length (v_warnings v0))
    = total cat_warnings news /\
    Z.of_nat (List.length (v_failedRules v'))
    - Z.of_nat (List.length (v_failedRules v0))
    + Z.of_nat (thrown (map (judge now plan) (flat_map snd cs)))
    = total cat_failed news /\
    List.length (flat_map (fun c => cat_rules (snd c)) news)
    = answered (map (judge now plan) (flat_map snd cs)).
Proof.
  induction cs as [|[category rules] cs IH]; intros cats0 v0;
    cbn [fold_left flat_map map].
  - split; [reflexivity|]. exists []. rewrite app_nil_r.
    repeat split; try constructor; cbn; lia.
  - assert (E : run_category now plan (cats0, v0) (category, rules)
               = (cats0 ++
                  [(category,
                    fst (run_rules now plan rules (mkCategory 0 0 0 [], v0)))],
                  snd (run_rules now plan rules (mkCategory 0 0 0 [], v0)))).
    { unfold run_category.
      destruct (run_rules now plan rules (mkCategory 0 0 0 [], v0));
        reflexivity. }
    rewrite E. clear E.
    pose proof (run_rules_spec now plan rules (mkCategory 0 0 0 []) v0) as H1.
    cbv zeta in H1.
    destruct (run_rules now plan rules (mkCategory 0 0 0 [], v0)) as [c1 v1].
    cbn [fst snd cat_passed cat_failed cat_warnings cat_rules List.length]
      in H1 |- *.
    destruct H1 as (S1 & A1 & P1 & F1 & W1 & L1 & X1 & Z1).
    specialize (IH (cats0 ++ [(category, c1)]) v1). cbv zeta in IH.
    destruct IH as (S2 & news & E2 & A2 & X2 & Z2 & L2).
    split.
    + rewrite S2, S1, map_app, fold_left_app. reflexivity.
    + exists ((category, c1) :: news). split; [|split; [|split; [|split]]].
      * rewrite E2, <- app_assoc. reflexivity.
      * constructor; [|exact A2]. unfold accounts_for; cbn.
        repeat split; auto; lia.
      * unfold total in *. cbn [fold_right snd]. lia.
      * unfold total in *. cbn [fold_right snd].
        rewrite map_app. unfold thrown in *.
        rewrite filter_app, length_app. lia.
      * cbn [flat_map snd]. rewrite length_app, L2, L1, map_app.
        unfold answered. rewrite filter_app, length_app. reflexivity.
Qed.

(** What [validatePlan] returns on a plan that is neither [undefined] nor
    [null]. *)
Lemma validatePlan_spec stamp now plan oid this :
  prop plan "objectId" = Ret oid ->
  exists r,
    validatePlan stamp now plan this
    = (Ret r, mkValidator (validationResults this ++ [r])) /\
    planId r = oid /\ timestamp r = toISOString stamp /\
    overallStatus r = status_of (map (judge now plan) all_rules) /\
    Forall2 (accounts_for now plan) defineValidationRules (categories r) /\
    Z.of_nat (List.length (warnings r)) = total cat_warnings (categories r) /\
    Z.of_nat (List.length (failedRules r))
    + Z.of_nat (thrown (map (judge now plan) all_rules))
    = total cat_failed (categories r) /\
    List.length (recorded r) = answered (map (judge now plan) all_rules).
Proof.
  intros Hp. unfold validatePlan. rewrite Hp.
  pose proof (run_categories_spec now plan defineValidationRules []
                (mkVerdicts "passed" [] [])) as H. cbv zeta in H.
  destruct (fold_left (run_category now plan) defineValidationRules
              ([], mkVerdicts "passed" [] [])) as [cats v].
  cbn [fst snd v_status v_warnings v_failedRules List.length app] in H.
  destruct H as (S & news & -> & A & W & F & L).
  assert (St : v_status v = status_of (map (judge now plan) all_rules)).
  { rewrite S. apply (fold_status _ "passed" []). reflexivity. }
  clear S.
  eexists. split; [reflexivity|].
  unfold recorded, all_rules in *.
  cbn [planId timestamp overallStatus categories failedRules warnings].
  repeat split; auto; lia.
Qed.

(** X11.  The counters of a category account for every rule.  For a plan
    that is neither [undefined] nor [null], [validatePlan] returns a
    result and stores it at the end of [validationResults].  The result
    has the five categories in the order of their definition, over 2, 3,
    3, 1 and 1 rules; in each category [passed + failed + warnings] is the
    number of its rules, also when a rule throws.  A rule that throws is
    counted as failed but is listed neither in the [rules] of its category
    nor in [failedRules]; [warnings] lists exactly the rules counted as
    warnings. *)
Theorem category_counters_add_up :
  forall (stamp now : Date) (plan oid : value) (this : validator),
    prop plan "objectId" = Ret oid ->
    exists r,
      validatePlan stamp now plan this
      = (Ret r, mkValidator (validationResults this ++ [r])) /\
      planId r = oid /\
      Forall2 (accounts_for now plan) defineValidationRules (categories r) /\
      map (fun e => (fst e, List.length (snd e))) defineValidationRules
      = [("completeness", 2%nat); ("validity", 3%nat); ("consistency", 3%nat);
         ("uniqueness", 1%nat); ("timeliness", 1%nat)] /\
      Z.of_nat (List.length (warnings r))
      = total cat_warnings (categories r) /\
      Z.of_nat (List.length (failedRules r))
      + Z.of_nat (thrown (map (judge now plan) all_rules))
      = total cat_failed (categories r) /\
      (List.length (recorded r) + thrown (map (judge now plan) all_rules)
       = 10)%nat.
Proof.
  intros stamp now plan oid this Hp.
  destruct (validatePlan_spec stamp now plan oid this Hp)
    as (r & R & I & _ & _ & A & W & F & L).
  exists r. repeat split; auto.
  rewrite L. apply (answered_thrown (map (judge now plan) all_rules)).
Qed.

(** X12.  The overall status is decided by the last rule that failed or
    threw.  The status is one of [passed], [warning], [failed] and
    [error]; it is [passed] exactly when every rule passed; and when a rule
    threw (or a rule of severity [critical] or [high] failed) and no later
    rule failed hard or threw, the status is [error] (or [failed]): an
    [error] is overwritten by a later hard failure, and the other way
    round, while a warning overwrites neither. *)
Theorem overall_status_is_last_failure :
  forall (stamp now : Date) (plan oid : value) (this : validator),
    prop plan "objectId" = Ret oid ->
    exists r,
      validatePlan stamp now plan this
      = (Ret r, mkValidator (validationResults this ++ [r])) /\
      overallStatus r = status_of (map (judge now plan) all_rules) /\
      is_status (overallStatus r) /\
      (overallStatus r = "passed" <->
       Forall (fun x => judge now plan x = Pass) all_rules) /\
      (forall rs1 x rs2,
         all_rules = rs1 ++ x :: rs2 ->
         Forall (fun y => is_failure (judge now plan y) = false) rs2 ->
         (judge now plan x = Error -> overallStatus r = "error") /\
         (judge now plan x = Fail -> overallStatus r = "failed")).
Proof.
  intros stamp now plan oid this Hp.
  destruct (validatePlan_spec stamp now plan oid this Hp)
    as (r & R & _ & _ & S & _).
  exists r. split; [exact R|]. split; [exact S|].
  split; [rewrite S; apply status_of_range|]. split.
  - rewrite S, status_of_passed, Forall_map. reflexivity.
  - intros rs1 x rs2 E H2. rewrite S, E, map_app. cbn [map].
    assert (H2' : Forall (fun u => is_failure u = false)
                         (map (judge now plan) rs2))
      by (apply Forall_map; exact H2).
    split; intros J;
      rewrite (status_of_last _ _ _ (f_equal is_failure J) H2'), J;
      reflexivity.
Qed.

(** ** When a rule throws *)

Lemma prop_defined v k : defined v -> prop v k = Ret (opt_prop v k).
Proof. unfold defined. destruct v; cbn; intuition congruence. Qed.

Lemma prop_returns_defined v k x : prop v k = Ret x -> defined v.
Proof. unfold defined. destruct v; cbn; try discriminate; split; discriminate. Qed.

Lemma truthy_defined v : truthy v = true -> defined v.
Proof. unfold defined. destruct v; cbn; try discriminate; split; discriminate. Qed.

Lemma judge_returns now plan r res :
  check r now plan = Ret res -> judge now plan r <> Error.
Proof.
  unfold judge. intros ->.
  destruct (truthy (passed res)); [discriminate|].
  destruct (is_hard (severity r)); discriminate.
Qed.

Lemma judge_throws now plan r e :
  check r now plan = Throw e -> judge now plan r = Error.
Proof. unfold judge. intros ->. reflexivity. Qed.

Lemma missing_fields_returns fs fields :
  exists l, missing_fields (VObj fs) fields = Ret l.
Proof.
  induction fields as [|f fields [l IH]]; cbn; [eauto|].
  rewrite IH. cbn. eauto.
Qed.

Lemma required_fields_present_returns fs :
  exists res, required_fields_present (VObj fs) = Ret res.
Proof.
  unfold required_fields_present.
  destruct (missing_fields_returns fs required) as [l ->]. cbn. eauto.
Qed.

Lemma cost_shares_present_returns fs :
  exists res, cost_shares_present (VObj fs) = Ret res.
Proof.
  unfold cost_shares_present. cbn [prop obind].
  destruct (truthy (lookup "planCostShares" fs)) eqn:T; [|cbn; eauto].
  rewrite !(prop_defined _ _ (truthy_defined _ T)). cbn [obind].
  destruct (String.eqb _ "number"); cbn; eauto.
Qed.

Lemma all_services_valid_returns l :
  Forall defined l -> exists b, all_services_valid l = Ret b.
Proof.
  induction 1 as [|s l Hs _ [b IH]]; cbn [all_services_valid]; [eauto|].
  rewrite (prop_defined _ _ Hs). cbn [obind].
  destruct (truthy (opt_prop s "planserviceCostShares")) eqn:T; [|eauto].
  rewrite !(prop_defined _ _ (truthy_defined _ T)). cbn [obind].
  destruct (js_lt _ _); [eauto|]. destruct (js_lt _ _); eauto.
Qed.

Lemma service_costs_consistency_returns fs :
  well_listed (lookup "linkedPlanServices" fs) ->
  exists res, service_costs_consistency (VObj fs) = Ret res.
Proof.
  unfold service_costs_consistency. cbn [prop obind].
  destruct (lookup "linkedPlanServices" fs) as [| | | | | | | |l| |];
    cbn; try contradiction; eauto.
  intros Hl. destruct (Z.of_nat (List.length l) =? 0); [eauto|].
  destruct (all_services_valid_returns l Hl) as [b ->]. cbn. eauto.
Qed.

Lemma map_outcome_returns (f : value -> outcome value) l :
  (forall s, defined s -> exists y, f s = Ret y) ->
  Forall defined l -> exists ys, map_outcome f l = Ret ys.
Proof.
  intros Hf. induction 1 as [|s l Hs _ [ys IH]]; cbn; [eauto|].
  destruct (Hf s Hs) as [y ->]. cbn. rewrite IH. cbn. eauto.
Qed.

Lemma map_outcome_throws (f : value -> outcome value) l :
  (forall s y, f s = Ret y -> defined s) ->
  ~ Forall defined l -> exists e, map_outcome f l = Throw e.
Proof.
  intros Hf. induction l as [|s l IH]; intros N.
  - exfalso. apply N. constructor.
  - cbn. destruct (f s) as [y|e] eqn:E; [|cbn; eauto].
    cbn. destruct IH as [e IH].
    + intros H. apply N. constructor; [eapply Hf; eauto | exact H].
    + rewrite IH. cbn. eauto.
Qed.

Lemma object_ids_returns fs :
  well_listed (lookup "linkedPlanServices" fs) ->
  exists ids, object_ids (VObj fs) = Ret ids.
Proof.
  unfold object_ids. cbn [prop obind].
  destruct (lookup "linkedPlanServices" fs) as [| | | | | | | |l| |];
    cbn; try contradiction; eauto.
  intros Hl.
  destruct (map_outcome_returns (fun s => prop s "objectId") l) as [a ->];
    [intros s Hs; rewrite (prop_defined _ _ Hs); eauto | exact Hl |].
  cbn [obind].
  destruct (map_outcome_returns
              (fun s => ls <- prop s "linkedService" ;;
                        Ret (opt_prop ls "objectId")) l) as [b ->];
    [intros s Hs; rewrite (prop_defined _ _ Hs); cbn; eauto | exact Hl |].
  cbn. eauto.
Qed.

Lemma Forall_defined_dec l : Forall defined l \/ ~ Forall defined l.
Proof.
  induction l as [|s l [IH|IH]].
  - left. constructor.
  - destruct s; try (left; constructor; [split; discriminate | exact IH]);
      right; intros H; inversion H as [|? ? [A B] _]; congruence.
  - right. intros H. inversion H. contradiction.
Qed.

Lemma object_ids_throws fs :
  ~ well_listed (lookup "linkedPlanServices" fs) ->
  exists e, object_ids (VObj fs) = Throw e.
Proof.
  unfold object_ids. cbn [prop obind].
  destruct (lookup "linkedPlanServices" fs) as [| | | | | | | |l| |];
    cbn; intros N; try (exfalso; apply N; exact I); eauto.
  destruct (map_outcome_throws (fun s => prop s "objectId") l) as [e ->];
    [intros s y; apply prop_returns_defined | exact N |].
  cbn. eauto.
Qed.

Lemma unique_object_ids_returns_iff fs :
  (exists res, unique_object_ids (VObj fs) = Ret res) <->
  well_listed (lookup "linkedPlanServices" fs).
Proof.
  unfold unique_object_ids. split.
  - intros [res R].
    assert (D : well_listed (lookup "linkedPlanServices" fs) \/
                ~ well_listed (lookup "linkedPlanServices" fs)).
    { destruct (lookup "linkedPlanServices" fs); cbn; auto.
      apply Forall_defined_dec. }
    destruct D as [D|D]; [exact D|].
    destruct (object_ids_throws fs D) as [e E]. rewrite E in R.
    discriminate.
  - intros Hl. destruct (object_ids_returns fs Hl) as [ids ->]. cbn. eauto.
Qed.

Lemma status_of_error vs : status_of vs = "error" -> In Error vs.
Proof.
  unfold status_of.
  destruct (find is_failure (rev vs)) as [[]|] eqn:F; try discriminate.
  - intros _. apply find_some in F. destruct F as [F _].
    apply in_rev. exact F.
  - destruct (existsb is_warning vs); discriminate.
Qed.

(** X13.  Only the list of linked services can make a rule throw.  For a
    plan that is an object, every one of the ten rules returns a result
    (and the status is not [error]) exactly when [linkedPlanServices] is
    missing, [null], or a list without [undefined] and [null] entries;
    otherwise [unique_object_ids] throws and fewer than ten rule results
    are recorded. *)
Theorem rules_throw_on_malformed_services_only :
  forall (stamp now : Date) (fs : list (string * value)) (this : validator),
    exists r,
      validatePlan stamp now (VObj fs) this
      = (Ret r, mkValidator (validationResults this ++ [r])) /\
      (List.length (recorded r) = 10%nat <->
       well_listed (lookup "linkedPlanServices" fs)) /\
      (well_listed (lookup "linkedPlanServices" fs) ->
       overallStatus r <> "error" /\
       Forall (fun x => judge now (VObj fs) x <> Error) all_rules) /\
      (~ well_listed (lookup "linkedPlanServices" fs) ->
       exists e, unique_object_ids (VObj fs) = Throw e).
Proof.
  intros stamp now fs this.
  destruct (validatePlan_spec stamp now (VObj fs) (lookup "objectId" fs) this
              eq_refl) as (r & R & _ & _ & S & _ & _ & _ & L).
  exists r. split; [exact R|].
  assert (Good : well_listed (lookup "linkedPlanServices" fs) ->
                 Forall (fun x => judge now (VObj fs) x <> Error) all_rules).
  { intros Hl. unfold all_rules, defineValidationRules. cbn [flat_map snd app].
    destruct (required_fields_present_returns fs) as [r1 R1].
    destruct (cost_shares_present_returns fs) as [r2 R2].
    destruct (service_costs_consistency_returns fs Hl) as [r8 R8].
    destruct (proj2 (unique_object_ids_returns_iff fs) Hl) as [r9 R9].
    repeat constructor;
      try (eapply judge_returns; cbn [check]; eassumption);
      eapply judge_returns; cbn [check]; cbn; reflexivity. }
  assert (Bad : ~ well_listed (lookup "linkedPlanServices" fs) ->
                exists e, unique_object_ids (VObj fs) = Throw e).
  { intros N. unfold unique_object_ids.
    destruct (object_ids_throws fs N) as [e ->]. cbn. eauto. }
  split; [|split; [|exact Bad]].
  - rewrite L.
    change 10%nat
      with (List.length (map (judge now (VObj fs)) all_rules)).
    rewrite answered_all. split.
    + intros H.
      apply (unique_object_ids_returns_iff fs).
      rewrite Forall_map in H. rewrite Forall_forall in H.
      specialize (H (mkRule "unique_object_ids"
                            "Object IDs within plan should be unique"
                            "high" (fun _ => unique_object_ids))).
      unfold judge in H. cbn [check] in H.
      destruct (unique_object_ids (VObj fs)) as [res|e]; [eauto|].
      exfalso. apply H; [|reflexivity].
      unfold all_rules, defineValidationRules. cbn. tauto.
    + intros Hl. apply Forall_map. apply Good. exact Hl.
  - intros Hl. split; [|apply Good; exact Hl].
    intros E. rewrite S in E. apply status_of_error in E.
    apply in_map_iff in E. destruct E as (x & J & I).
    specialize (Good Hl). rewrite Forall_forall in Good.
    exact (Good x I J).
Qed.

(** ** The rules on costs and the loader *)

Lemma typeof_measure v :
  typeof v = "number" -> typeof (or_else v (VNum 0)) = "number".
Proof.
  unfold or_else. destruct (truthy v); [auto | reflexivity].
Qed.

Lemma typeof_number_of_double x : typeof (number_of_double x) = "number".
Proof.
  destruct x as [s|s| |s m e]; cbn; try reflexivity.
  destruct (0 <=? e); [reflexivity|].
  destruct (_ =? 0); reflexivity.
Qed.

(** The [+] of two numbers is a number. *)
Lemma typeof_js_add a b :
  typeof a = "number" -> typeof b = "number" ->
  typeof (js_add a b) = "number".
Proof.
  destruct a, b; cbn; try discriminate; intros _ _;
    try reflexivity; apply typeof_number_of_double.
Qed.

Lemma js_ge_numbers a b : js_ge (VNum a) (VNum b) = (b <=? a).
Proof.
  unfold js_ge, less_than; cbn.
  destruct (Z.ltb_spec a b), (Z.leb_spec b a); try reflexivity; lia.
Qed.

Lemma js_le_numbers a b : js_le (VNum a) (VNum b) = (a <=? b).
Proof.
  unfold js_le, less_than; cbn.
  destruct (Z.ltb_spec b a), (Z.leb_spec a b); try reflexivity; lia.
Qed.

(** X14.  A plan that passes the three rules on its cost shares loads its
    amounts as numbers.  When [cost_shares_present], [positive_costs] and
    [reasonable_cost_ranges] pass, the deductible and the copay that
    [loadPlanFacts] extracts are numbers (a [NaN] counts as 0), never a
    text, so that the loader's [+] adds them.  When both are whole numbers
    they lie between 0 and 50000 with their sum, and with keys of existing
    dimension rows the loader returns and stores them with their sum as
    total. *)
Theorem validated_costs_load_as_their_sum :
  forall (plan : value) (keys : Keys) (w : World) (r1 r2 r3 : check_result),
    cost_shares_present plan = Ret r1 -> truthy (passed r1) = true ->
    positive_costs plan = Ret r2 -> truthy (passed r2) = true ->
    reasonable_cost_ranges plan = Ret r3 -> truthy (passed r3) = true ->
    ETLSpec.keys_present keys (tables w) ->
    exists pcs,
      prop plan "planCostShares" = Ret pcs /\
      typeof (ETLSpec.measure pcs "deductible") = "number" /\
      typeof (ETLSpec.measure pcs "copay") = "number" /\
      typeof (js_add (ETLSpec.measure pcs "deductible")
                     (ETLSpec.measure pcs "copay")) = "number" /\
      forall d c,
        ETLSpec.measure pcs "deductible" = VNum d ->
        ETLSpec.measure pcs "copay" = VNum c ->
        0 <= d /\ 0 <= c /\ d + c <= 50000 /\
        loadPlanFacts plan keys w
        = (Ret tt,
           with_tables
             (set_fact_plan_costs
                (fact_plan_costs (tables w) ++
                 [mkPlanCost (keys_plan_key keys) (keys_plan_type_key keys)
                             (keys_org_key keys) (keys_creation_date_key keys)
                             (whole d) (whole c) (whole (d + c))])
                (tables w)) w).
Proof.
  intros plan keys w r1 r2 r3 H1 T1 H2 T2 H3 T3 (K1 & K2 & K3 & K4).
  unfold cost_shares_present in H1.
  destruct (prop plan "planCostShares") as [pcs|] eqn:P; [|discriminate].
  cbn [obind] in H1.
  destruct (truthy pcs) eqn:T;
    [|cbn in H1; injection H1 as <-; cbn in T1; congruence].
  rewrite !(prop_defined _ _ (truthy_defined _ T)) in H1. cbn [obind] in H1.
  destruct (String.eqb (typeof (opt_prop pcs "deductible")) "number") eqn:Nd;
    [|cbn in H1; injection H1 as <-; discriminate].
  cbn in H1. injection H1 as <-. cbn in T1.
  apply String.eqb_eq in Nd, T1.
  apply typeof_measure in Nd, T1.
  exists pcs. split; [reflexivity|]. unfold ETLSpec.measure.
  split; [exact Nd|]. split; [exact T1|].
  split; [apply typeof_js_add; assumption|].
  intros d c Ed Ec.
  unfold positive_costs in H2. rewrite P in H2. cbn [obind] in H2.
  rewrite Ed, Ec, !js_ge_numbers in H2. injection H2 as <-. cbn in T2.
  apply andb_prop in T2. destruct T2 as [D0 C0].
  apply Z.leb_le in D0, C0.
  unfold reasonable_cost_ranges in H3. rewrite P in H3. cbn [obind] in H3.
  rewrite Ed, Ec in H3.
  change (js_add (VNum d) (VNum c)) with (VNum (d + c)) in H3.
  rewrite js_ge_numbers, js_le_numbers in H3. injection H3 as <-.
  cbn in T3. apply andb_prop in T3. destruct T3 as [_ S0].
  apply Z.leb_le in S0.
  repeat split; auto.
  unfold loadPlanFacts.
  rewrite (ETLSpec.bind_lift _ _ _ _ P).
  rewrite (ETLSpec.bind_lift _ _ _ _
             (prop_defined plan "linkedPlanServices"
                (prop_returns_defined _ _ _ P))).
  cbv zeta. rewrite Ed, Ec.
  change (js_add (VNum d) (VNum c)) with (VNum (d + c)).
  unfold insert_fact_plan_costs.
  rewrite (ETLSpec.bind_lift _ _ _ _ (ETLSpec.numeric_number d ltac:(lia))).
  rewrite (ETLSpec.bind_lift _ _ _ _ (ETLSpec.numeric_number c ltac:(lia))).
  rewrite (ETLSpec.bind_lift _ _ _ _
             (ETLSpec.numeric_number (d + c) ltac:(lia))).
  unfold bind at 1, gets.
  rewrite (ETLSpec.bind_lift _ _ _ _ K1), (ETLSpec.bind_lift _ _ _ _ K2),
    (ETLSpec.bind_lift _ _ _ _ K3), (ETLSpec.bind_lift _ _ _ _ K4).
  reflexivity.
Qed.

(** The loop of [service_costs_consistency] on entries that carry no
    [planserviceCostShares] of their own. *)
Lemma all_services_valid_bare l :
  Forall (fun s => defined s /\
                   truthy (opt_prop s "planserviceCostShares") = false) l ->
  all_services_valid l = Ret true.
Proof.
  induction 1 as [|s l [Hs Hc] _ IH]; cbn [all_services_valid];
    [reflexivity|].
  rewrite (prop_defined _ _ Hs). cbn [obind]. rewrite Hc. exact IH.
Qed.

(** X15.  The rule on service costs and the loader read different places.
    [service_costs_consistency] looks for [planserviceCostShares] on the
    entry itself: when no entry of [linkedPlanServices] carries one, the
    rule passes whatever the entries hold under [linkedService].  The
    loader takes the amounts of a service fact from
    [linkedService.planserviceCostShares]. *)
Theorem service_rule_ignores_linked_costs :
  forall (plan : value) (l : list value),
    prop plan "linkedPlanServices" = Ret (VArr l) ->
    Forall (fun s => defined s /\
                     truthy (opt_prop s "planserviceCostShares") = false) l ->
    service_costs_consistency plan
    = Ret (mkCheck (VBool true)
                   (match l with
                    | [] => "No services to validate"
                    | _ :: _ => "All service costs consistent"
                    end)) /\
    forall keys s w w',
      In s l ->
      loadServiceFact keys s w = (Ret tt, w') ->
      exists row ls,
        fact_service_costs (tables w')
        = fact_service_costs (tables w) ++ [row] /\
        prop s "linkedService" = Ret ls /\
        numeric (or_else
                   (opt_prop (or_else (opt_prop ls "planserviceCostShares")
                                      (VObj [])) "deductible") (VNum 0))
        = Ret (sc_deductible row) /\
        numeric (or_else
                   (opt_prop (or_else (opt_prop ls "planserviceCostShares")
                                      (VObj [])) "copay") (VNum 0))
        = Ret (sc_copay row).
Proof.
  intros plan l Hp Hl. split.
  - unfold service_costs_consistency. rewrite Hp. cbn [obind truthy js_length].
    destruct l as [|s l]; [reflexivity|].
    cbn [negb orb is_number List.length iterate].
    replace (Z.of_nat (S (List.length l)) =? 0) with false
      by (symmetry; apply Z.eqb_neq; lia).
    cbn [obind]. rewrite (all_services_valid_bare _ Hl). reflexivity.
  - intros keys s w w' _ H.
    apply ETLSpec.loadServiceFact_inv in H.
    destruct H as (rows' & sk & ls & dv & cv & d & c & t & Pl & Pd & Pc & Nd
                   & Nc & _ & _ & T & _).
    eexists. exists ls. rewrite T. cbn.
    split; [reflexivity|]. split; [exact Pl|].
    assert (Dc : defined (or_else (opt_prop ls "planserviceCostShares")
                                  (VObj []))).
    { apply truthy_defined. unfold or_else.
      destruct (truthy (opt_prop ls "planserviceCostShares")) eqn:E; auto. }
    rewrite (prop_defined _ _ Dc) in Pd. rewrite (prop_defined _ _ Dc) in Pc.
    injection Pd as <-. injection Pc as <-. split; assumption.
Qed.

(** ** Batches and statistics *)

Lemma count_status_partition rs :
  Forall (fun r => is_status (overallStatus r)) rs ->
  count_status "passed" rs + count_status "warning" rs
  + count_status "failed" rs + count_status "error" rs
  = Z.of_nat (List.length rs).
Proof.
  unfold count_status.
  induction 1 as [|r rs Hr _ IH]; [reflexivity|].
  cbn [filter List.length].
  destruct Hr as [-> | [-> | [-> | ->]]]; cbn [String.eqb Ascii.eqb Bool.eqb];
    cbn [List.length]; lia.
Qed.

Lemma validatePlan_defined stamp now plan :
  defined plan ->
  exists r,
    (forall this', validatePlan stamp now plan this'
                   = (Ret r, mkValidator (validationResults this' ++ [r]))) /\
    is_status (overallStatus r).
Proof.
  intros Hd.
  destruct (validatePlan_spec stamp now plan _ new_DataQualityValidator
              (prop_defined plan "objectId" Hd)) as (r & R & _ & _ & S & _).
  exists r. split.
  - intros this'. unfold validatePlan in *.
    rewrite (prop_defined plan "objectId" Hd) in *.
    destruct (fold_left (run_category now plan) defineValidationRules
                ([], mkVerdicts "passed" [] [])) as [cats v].
    injection R as <-. reflexivity.
  - rewrite S. apply status_of_range.
Qed.

Lemma validatePlan_undefined stamp now plan this :
  ~ defined plan ->
  exists e, validatePlan stamp now plan this = (Throw e, this).
Proof.
  intros N. unfold validatePlan.
  destruct plan; cbn; eauto; exfalso; apply N; split; discriminate.
Qed.

Lemma validate_each_defined clock plans : forall i,
  Forall defined plans ->
  exists rs,
    (forall this, validate_each clock i plans this
                  = (Ret rs, mkValidator (validationResults this ++ rs))) /\
    List.length rs = List.length plans /\
    Forall (fun r => is_status (overallStatus r)) rs.
Proof.
  induction plans as [|plan rest IH]; intros i H.
  - exists []. split; [|split; [reflexivity | constructor]].
    intros [l]. cbn. rewrite app_nil_r. reflexivity.
  - inversion H as [|? ? Hd Hr]; subst.
    destruct (validatePlan_defined (fst (clock i)) (snd (clock i)) plan Hd)
      as (r & R & St).
    destruct (IH (S i) Hr) as (rs & Rs & L & F).
    exists (r :: rs). split; [|split; [cbn; lia | constructor; auto]].
    intros this. cbn [validate_each]. rewrite R, Rs. cbn.
    rewrite <- app_assoc. reflexivity.
Qed.

(** X16.  The summary of a batch is a partition, and the statistics agree
    with it.  For plans that are neither [undefined] nor [null],
    [validateBatch] returns one result per plan, appends them in order to
    [validationResults], and the four counts of its summary add up to
    [totalPlans].  On a validator whose history was cleared, the
    statistics taken after the batch show the same five numbers; taken
    before any validation they only carry a message. *)
Theorem batch_summary_partitions :
  forall (clock : nat -> Date * Date) (plans : list value) (this : validator),
    Forall defined plans ->
    exists sm rs,
      validateBatch clock plans this
      = (Ret (sm, rs), mkValidator (validationResults this ++ rs)) /\
      List.length rs = List.length plans /\
      totalPlans sm = Z.of_nat (List.length plans) /\
      sum_passed sm + sum_warnings sm + sum_failed sm + sum_errors sm
      = totalPlans sm /\
      getStatistics (clearResults this)
      = NoValidations "No validations performed yet" /\
      (plans <> [] ->
       getStatistics (snd (validateBatch clock plans (clearResults this)))
       = Statistics (totalPlans sm) (sum_passed sm) (sum_warnings sm)
                    (sum_failed sm) (sum_errors sm)
                    (percent_toFixed2 (sum_passed sm) (totalPlans sm) ++ "%")).
Proof.
  intros clock plans this H.
  destruct (validate_each_defined clock plans 0 H) as (rs & R & L & F).
  unfold validateBatch. rewrite !R.
  eexists. eexists. split; [reflexivity|].
  cbn [totalPlans sum_passed sum_warnings sum_failed sum_errors snd].
  split; [exact L|]. split; [reflexivity|].
  split; [rewrite (count_status_partition rs F); lia|].
  split; [reflexivity|].
  intros N. unfold getStatistics, clearResults. cbn [validationResults app].
  rewrite L.
  destruct plans as [|p plans]; [contradiction|].
  replace (Z.of_nat (List.length (p :: plans)) =? 0) with false
    by (symmetry; apply Z.eqb_neq; cbn [List.length]; lia).
  reflexivity.
Qed.

(** X17.  A plan that is [undefined] or [null] aborts the batch and leaves
    a partial history.  [validateBatch] throws at the first such plan;
    the results of the plans before it stay in [validationResults], and no
    summary is returned. *)
Theorem batch_stops_at_undefined_plan :
  forall (clock : nat -> Date * Date) (before : list value) (bad : value)
         (rest : list value) (this : validator),
    Forall defined before -> ~ defined bad ->
    exists e rs,
      validateBatch clock (before ++ bad :: rest) this
      = (Throw e, mkValidator (validationResults this ++ rs)) /\
      List.length rs = List.length before /\
      validateBatch clock before this
      = (Ret (mkSummary (Z.of_nat (List.length before))
                        (count_status "passed" rs)
                        (count_status "warning" rs)
                        (count_status "failed" rs)
                        (count_status "error" rs), rs),
         mkValidator (validationResults this ++ rs)).
Proof.
  intros clock before bad rest this Hb Hn.
  assert (G : forall i this0,
             exists e rs,
               validate_each clock i (before ++ bad :: rest) this0
               = (Throw e, mkValidator (validationResults this0 ++ rs)) /\
               validate_each clock i before this0
               = (Ret rs, mkValidator (validationResults this0 ++ rs)) /\
               List.length rs = List.length before).
  { induction Hb as [|p before Hp Hb IH]; intros i this0.
    - destruct (validatePlan_undefined (fst (clock i)) (snd (clock i)) bad
                  this0 Hn) as [e E].
      exists e, []. cbn [app validate_each]. rewrite E.
      destruct this0 as [l]. cbn. rewrite app_nil_r. auto.
    - destruct (validatePlan_defined (fst (clock i)) (snd (clock i)) p Hp)
        as (r & R & _).
      destruct (IH (S i) (mkValidator (validationResults this0 ++ [r])))
        as (e & rs & E1 & E2 & L).
      exists e, (r :: rs). cbn [app validate_each]. rewrite R, E1, E2.
      cbn. rewrite <- app_assoc. cbn. repeat split; auto. }
  destruct (G 0%nat this) as (e & rs & E1 & E2 & L).
  exists e, rs. unfold validateBatch. rewrite E1, E2. auto.
Qed.

(** ** Unique identifiers *)

Lemma Set_of_length l : forall seen,
  (List.length (Set_of seen l) <= List.length seen + List.length l)%nat /\
  (List.length (Set_of seen l) = (List.length seen + List.length l)%nat <->
   pairwise_different l /\
   Forall (fun u => existsb (same_value_zero u) seen = false) l).
Proof.
  induction l as [|v l IH]; intros seen; cbn [Set_of List.length].
  - split; [lia|]. split; [intros _; split; [exact I | constructor] | lia].
  - destruct (existsb (same_value_zero v) seen) eqn:E.
    + destruct (IH seen) as [Le _]. split; [lia|]. split; [lia|].
      intros [_ F]. inversion F; congruence.
    + destruct (IH (seen ++ [v])) as [Le Eq].
      rewrite length_app in Le, Eq. cbn [List.length] in Le, Eq.
      split; [lia|].
      replace (List.length seen + S (List.length l))%nat
        with (List.length seen + 1 + List.length l)%nat by lia.
      rewrite Eq. cbn [pairwise_different].
      assert (X : Forall (fun u => existsb (same_value_zero u) (seen ++ [v])
                                   = false) l <->
                  Forall (fun u => same_value_zero u v = false) l /\
                  Forall (fun u => existsb (same_value_zero u) seen = false) l).
      { rewrite !Forall_forall. split.
        - intros H. split; intros u I; specialize (H u I);
            rewrite existsb_app in H; cbn in H;
            apply orb_false_elim in H; destruct H as [H1 H2];
            [rewrite orb_false_r in H2|]; assumption.
        - intros [H1 H2] u I. rewrite existsb_app. cbn.
          rewrite (H1 u I), (H2 u I). reflexivity. }
      rewrite X. split.
      * intros (P & A & B). repeat split; auto.
      * intros ((A & P) & B). inversion B; subst. repeat split; auto.
Qed.

(** X18.  [unique_object_ids] passes exactly when the identifiers are
    pairwise different values.  The rule looks at the identifier of the
    plan, of its cost shares, of every linked-service entry and of every
    linked service, drops the falsy ones, and passes if and only if no two
    of those left are the same text, number or boolean; identifiers that
    are objects never count as duplicates of each other. *)
Theorem unique_ids_rule_is_pairwise :
  forall (plan : value) (ids : list value),
    object_ids plan = Ret ids ->
    Forall (fun v => truthy v = true) ids /\
    exists b msg,
      unique_object_ids plan = Ret (mkCheck (VBool b) msg) /\
      (b = true <-> pairwise_different ids).
Proof.
  intros plan ids H. split.
  - unfold object_ids in H.
    destruct (prop plan "objectId"); [|discriminate].
    destruct (prop plan "planCostShares"); [|discriminate].
    destruct (prop plan "linkedPlanServices"); [|discriminate].
    cbn [obind] in H. destruct (optional_map _ _); [|discriminate].
    cbn [obind] in H. destruct (optional_map _ _); [|discriminate].
    cbn [obind] in H.
    match type of H with
    | Ret (filter truthy ?l) = _ => remember l as L eqn:EL; clear EL
    end.
    injection H as <-.
    apply Forall_forall. intros v I. apply filter_In in I. tauto.
  - unfold unique_object_ids. rewrite H. cbn [obind].
    eexists. eexists. split; [reflexivity|].
    destruct (Set_of_length ids []) as [_ Eq]. cbn [List.length] in Eq.
    rewrite Nat.eqb_eq. split.
    + intros E. apply Eq. lia.
    + intros P. symmetry. apply Eq. split; [exact P|].
      apply Forall_forall. reflexivity.
Qed.

End WithRuntime.

Import Scenario Samples.

Lemma category_counters_add_up_witness :
  exists r,
    validatePlan (noon 2024 1 20) (noon 2024 1 20) plan_null_entry
                 new_DataQualityValidator
    = (Ret r, mkValidator [r]) /\
    map (fun c => (fst c, cat_passed (snd c), cat_failed (snd c),
                   cat_warnings (snd c), List.length (cat_rules (snd c))))
        (categories r)
    = [("completeness", 2, 0, 0, 2%nat); ("validity", 3, 0, 0, 3%nat);
       ("consistency", 2, 1, 0, 2%nat); ("uniqueness", 0, 1, 0, 0%nat);
       ("timeliness", 0, 1, 0, 1%nat)] /\
    List.length (failedRules r) = 1%nat.
Proof.
  destruct (category_counters_add_up
              (noon 2024 1 20) (noon 2024 1 20) plan_null_entry
              (VStr "plan-2024-002") new_DataQualityValidator eq_refl)
    as (r & R & _).
  exists r. split; [exact R|].
  revert R. vm_compute. intros [= <-]. split; reflexivity.
Defined.

Lemma overall_status_is_last_failure_witness :
  exists r,
    validatePlan (noon 2024 1 20) (noon 2024 1 20) plan_null_entry
                 new_DataQualityValidator
    = (Ret r, mkValidator [r]) /\
    map (judge (noon 2024 1 20) plan_null_entry) all_rules
    = [Pass; Pass; Pass; Pass; Pass; Pass; Pass; Error; Error; Fail] /\
    overallStatus r = "failed".
Proof.
  destruct (overall_status_is_last_failure
              (noon 2024 1 20) (noon 2024 1 20) plan_null_entry
              (VStr "plan-2024-002") new_DataQualityValidator eq_refl)
    as (r & R & S & _).
  exists r. split; [exact R|]. split; [vm_compute; reflexivity|].
  rewrite S. vm_compute. reflexivity.
Defined.

Lemma validated_costs_load_as_their_sum_witness :
  exists w',
    loadPlanFacts plan_complete (mkKeys 1 1 20240115 1)
                  (after_run [plan_p1] (noon 2024 1 20)) = (Ret tt, w') /\
    map (fun r => (pc_deductible r, pc_copay r, total_cost_shares r))
        (fact_plan_costs (tables w'))
    = [(whole 2000, whole 23, whole 2023);
       (whole 2000, whole 23, whole 2023)].
Proof.
  destruct (validated_costs_load_as_their_sum
              plan_complete (mkKeys 1 1 20240115 1)
              (after_run [plan_p1] (noon 2024 1 20))
              (mkCheck (VBool true) "Cost shares defined")
              (mkCheck (VBool true) "All costs are positive")
              (mkCheck (VBool true) "Costs within reasonable range"))
    as (pcs & P & _ & _ & _ & R); try reflexivity.
  - vm_compute. repeat split; reflexivity.
  - injection P as <-.
    destruct (R 2000 23 eq_refl eq_refl) as (_ & _ & _ & L).
    eexists. split; [exact L|]. reflexivity.
Defined.

Lemma service_rule_ignores_linked_costs_witness :
  passed_of (service_costs_consistency plan_negative_service)
  = Some (VBool true) /\
  exists w',
    runETL (env_of [plan_negative_service] (noon 2024 1 20))
           (fresh_process empty_tables zero_sequences) = (Ret VUndefined, w') /\
    map (fun r => (sc_deductible r, sc_copay r, total_service_cost r))
        (fact_service_costs (tables w'))
    = [(whole (-500), whole (-5), whole (-505))].
Proof.
  split.
  - destruct (service_rule_ignores_linked_costs
                plan_negative_service
                [VObj [("name", VStr "Cardiology");
                       ("linkedService",
                        VObj [("planserviceCostShares",
                               VObj [("deductible", VNum (-500));
                                     ("copay", VNum (-5))])])]]
                eq_refl) as [R _].
    + repeat constructor; discriminate.
    + rewrite R. reflexivity.
  - eexists. split; vm_compute; reflexivity.
Defined.

Lemma batch_summary_partitions_witness :
  exists rs,
    validateBatch at_noon [plan_complete; plan_p1; plan_null_entry]
                  new_DataQualityValidator
    = (Ret (mkSummary 3 1 0 2 0, rs), mkValidator rs) /\
    map overallStatus rs = ["passed"; "failed"; "failed"].
Proof.
  destruct (batch_summary_partitions
              at_noon [plan_complete; plan_p1; plan_null_entry]
              new_DataQualityValidator)
    as (sm & rs & R & _).
  - repeat constructor; discriminate.
  - exists rs. revert R. vm_compute. intros [= <- <-].
    split; reflexivity.
Defined.

Lemma batch_stops_at_undefined_plan_witness :
  exists e r,
    validateBatch at_noon [plan_complete; VNull; plan_p1]
                  new_DataQualityValidator
    = (Throw e, mkValidator [r]) /\
    planId r = VStr "plan-2024-001".
Proof.
  destruct (batch_stops_at_undefined_plan
              at_noon [plan_complete] VNull [plan_p1]
              new_DataQualityValidator)
    as (e & rs & R & _).
  - repeat constructor; discriminate.
  - intros [_ N]. apply N. reflexivity.
  - revert R. vm_compute. intros [= <- <-].
    eexists. eexists. split; reflexivity.
Defined.

Lemma unique_ids_rule_is_pairwise_witness :
  object_ids plan_duplicate_id
  = Ret [VStr "plan-2024-004"; VStr "plan-2024-004"] /\
  passed_of (unique_object_ids plan_duplicate_id) = Some (VBool false).
Proof.
  split; [reflexivity|].
  destruct (unique_ids_rule_is_pairwise
              plan_duplicate_id
              [VStr "plan-2024-004"; VStr "plan-2024-004"] eq_refl)
    as (_ & b & msg & R & _).
  rewrite R. revert R. vm_compute. intros [= <- _]. reflexivity.
Defined.

End ValidatorSpec.
